(** * SignYourPdf: coordinate transform, field geometry and font fitting

    A shallow embedding of the geometry code of
    [src/pages/PDFSigningView.tsx] and of the drawing loop of
    [supabase/functions/generate-absolute-precision-pdf/index.ts], with the
    handlers of the signing view around them (placing, typing, signing,
    removing, paging, zooming, finalizing) and the Apply button of
    [src/components/SignatureModal.tsx].

    JavaScript [number]s are IEEE 754 binary64 values.  The functions of the
    program are written once, over an interface [JSNumber] of the arithmetic
    they use, and read at two instances:

    - [Float64]: Rocq's primitive binary64 floats, the arithmetic the program
      runs on (every concrete evaluation below is at this instance);
    - [Exact]: the same operations on rationals extended with the IEEE special
      values, i.e. binary64 without rounding, in which the algebraic
      properties of the specification are stated.  *)

From Stdlib Require Import ZArith QArith Qround Lqa Lia List Bool String Ascii.
From Stdlib Require Import Floats.
Import ListNotations.

Set Implicit Arguments.

(** ** The arithmetic of a JavaScript [number] *)

Class JSNumber (num : Type) : Type := {
  lit : Q -> num;                 (* a numeric literal of the source *)
  add : num -> num -> num;        (* a + b *)
  sub : num -> num -> num;        (* a - b *)
  mul : num -> num -> num;        (* a * b *)
  div : num -> num -> num;        (* a / b *)
  ltb : num -> num -> bool;       (* a < b *)
  math_max : num -> num -> num;   (* Math.max(a, b) *)
  math_min : num -> num -> num;   (* Math.min(a, b) *)
  math_round : num -> num;        (* Math.round(a) *)
  truthy : num -> bool;           (* ToBoolean(a): neither 0 nor NaN *)
  isNaN : num -> bool             (* isNaN(a) *)
}.

Declare Scope js_scope.
Delimit Scope js_scope with js.
Infix "+" := add : js_scope.
Infix "-" := sub : js_scope.
Infix "*" := mul : js_scope.
Infix "/" := div : js_scope.
Infix "<?" := ltb (at level 70, no associativity) : js_scope.
Notation "a >? b" := (ltb b a) (at level 70, no associativity) : js_scope.

(** *** Binary64 *)

Module F64.

(* The binary64 value nearest to an integer (of magnitude below 2^63). *)
Definition of_Z (z : Z) : float :=
  match z with
  | Z0 => PrimFloat.zero
  | Zpos _ => PrimFloat.of_uint63 (Uint63.of_Z z)
  | Zneg p => PrimFloat.opp (PrimFloat.of_uint63 (Uint63.of_Z (Zpos p)))
  end.

(* A decimal literal denotes the binary64 value nearest to it; for the
   literals of this program (numerator and denominator below 2^53) that is
   the correctly rounded quotient. *)
Definition lit (q : Q) : float :=
  PrimFloat.div (of_Z (Qnum q)) (of_Z (Zpos (Qden q))).

Definition is_nan (a : float) : bool := negb (PrimFloat.eqb a a).

(* Math.max and Math.min: NaN if either argument is NaN, and +0 is larger
   than -0. *)
Definition max (a b : float) : float :=
  if is_nan a then a else if is_nan b then b
  else if PrimFloat.ltb a b then b
  else if PrimFloat.ltb b a then a
  else if PrimFloat.get_sign a then b else a.

Definition min (a b : float) : float :=
  if is_nan a then a else if is_nan b then b
  else if PrimFloat.ltb a b then a
  else if PrimFloat.ltb b a then b
  else if PrimFloat.get_sign a then a else b.

(* Math.round: the integer nearest to a, ties towards +infinity, computed on
   the exact value m * 2^e of a; a value with e >= 0 is an integer already,
   and an argument in [-0.5, 0) gives -0. *)
Definition round (a : float) : float :=
  match Prim2SF a with
  | S754_finite s m e =>
      if (0 <=? e)%Z then a
      else
        let k := Z.opp e in
        let n := if s then Z.opp (Zpos m) else Zpos m in
        let r := ((2 * n + 2 ^ k) / 2 ^ (k + 1))%Z in
        if (r =? 0)%Z then (if s then PrimFloat.neg_zero else PrimFloat.zero)
        else of_Z r
  | _ => a
  end.

Definition truthy (a : float) : bool :=
  negb (PrimFloat.eqb a PrimFloat.zero) && negb (is_nan a).

End F64.

#[export] Instance Float64 : JSNumber float := {
  lit := F64.lit;
  add := PrimFloat.add;
  sub := PrimFloat.sub;
  mul := PrimFloat.mul;
  div := PrimFloat.div;
  ltb := PrimFloat.ltb;
  math_max := F64.max;
  math_min := F64.min;
  math_round := F64.round;
  truthy := F64.truthy;
  isNaN := F64.is_nan
}.

(** *** Binary64 without rounding

    Finite values are exact rationals; the special values and the way the
    operations produce and propagate them are those of IEEE 754.  Zero carries
    no sign and divides as +0 does. *)

Module Ex.

Inductive t : Type :=
| Fin (q : Q)
| PInf
| NInf
| NaN.

Definition Qltb (a b : Q) : bool :=
  match (a ?= b)%Q with Lt => true | _ => false end.

Definition opp (a : t) : t :=
  match a with
  | Fin q => Fin (- q)
  | PInf => NInf
  | NInf => PInf
  | NaN => NaN
  end.

Definition add (a b : t) : t :=
  match a, b with
  | NaN, _ | _, NaN => NaN
  | Fin p, Fin q => Fin (p + q)
  | PInf, NInf | NInf, PInf => NaN
  | PInf, _ | _, PInf => PInf
  | NInf, _ | _, NInf => NInf
  end.

Definition sub (a b : t) : t := add a (opp b).

(* An infinity with the sign of q; NaN when q is zero. *)
Definition inf_signed (pos : t) (q : Q) : t :=
  if Qltb 0 q then pos else if Qltb q 0 then opp pos else NaN.

Definition mul (a b : t) : t :=
  match a, b with
  | NaN, _ | _, NaN => NaN
  | Fin p, Fin q => Fin (p * q)
  | PInf, Fin q | Fin q, PInf => inf_signed PInf q
  | NInf, Fin q | Fin q, NInf => inf_signed NInf q
  | PInf, PInf | NInf, NInf => PInf
  | PInf, NInf | NInf, PInf => NInf
  end.

Definition div (a b : t) : t :=
  match a, b with
  | NaN, _ | _, NaN => NaN
  | Fin p, Fin q => if Qeq_bool q 0 then inf_signed PInf p else Fin (p / q)
  | Fin _, _ => Fin 0
  | PInf, Fin q => if Qltb q 0 then NInf else PInf
  | NInf, Fin q => if Qltb q 0 then PInf else NInf
  | _, _ => NaN
  end.

Definition ltb (a b : t) : bool :=
  match a, b with
  | NaN, _ | _, NaN => false
  | Fin p, Fin q => Qltb p q
  | NInf, NInf | PInf, _ | _, NInf => false
  | NInf, _ | _, PInf => true
  end.

Definition max (a b : t) : t :=
  match a, b with
  | NaN, _ | _, NaN => NaN
  | _, _ => if ltb a b then b else a
  end.

Definition min (a b : t) : t :=
  match a, b with
  | NaN, _ | _, NaN => NaN
  | _, _ => if ltb b a then b else a
  end.

Definition round (a : t) : t :=
  match a with
  | Fin q => Fin (inject_Z (Qfloor (q + (1 # 2))))
  | _ => a
  end.

Definition truthy (a : t) : bool :=
  match a with
  | Fin q => negb (Qeq_bool q 0)
  | NaN => false
  | _ => true
  end.

Definition is_nan (a : t) : bool :=
  match a with
  | NaN => true
  | _ => false
  end.

(* Equality and order of values: [eq] identifies the representations of one
   rational; [le] is the IEEE [<=], false on NaN. *)
Definition eq (a b : t) : Prop :=
  match a, b with
  | Fin p, Fin q => p == q
  | PInf, PInf | NInf, NInf | NaN, NaN => True
  | _, _ => False
  end.

Definition le (a b : t) : Prop :=
  match a, b with
  | NaN, _ | _, NaN => False
  | Fin p, Fin q => p <= q
  | NInf, _ | _, PInf => True
  | _, _ => False
  end.

Definition finite (a : t) : Prop :=
  match a with Fin _ => True | _ => False end.

End Ex.

#[export] Instance Exact : JSNumber Ex.t := {
  lit := Ex.Fin;
  add := Ex.add;
  sub := Ex.sub;
  mul := Ex.mul;
  div := Ex.div;
  ltb := Ex.ltb;
  math_max := Ex.max;
  math_min := Ex.min;
  math_round := Ex.round;
  truthy := Ex.truthy;
  isNaN := Ex.is_nan
}.

(** ** Strings

    A JavaScript string is a sequence of UTF-16 code units; [length] counts
    them. *)

Definition jsstring := list N.

Definition str (s : string) : jsstring :=
  List.map N_of_ascii (list_ascii_of_string s).

(* The characters matched by [\s] and removed by [trim]: WhiteSpace and
   LineTerminator of ECMAScript. *)
Definition is_space (c : N) : bool :=
  (((9 <=? c) && (c <=? 13)) || (c =? 32) || (c =? 160) || (c =? 5760)
   || ((8192 <=? c) && (c <=? 8202)) || (c =? 8232) || (c =? 8233)
   || (c =? 8239) || (c =? 8287) || (c =? 12288) || (c =? 65279))%N.

Fixpoint dropWhile {A} (p : A -> bool) (l : list A) : list A :=
  match l with
  | [] => []
  | a :: r => if p a then dropWhile p r else l
  end.

(* s.trim() *)
Definition trim (s : jsstring) : jsstring :=
  rev (dropWhile is_space (rev (dropWhile is_space s))).

(* s.replace(/\n/g, ' ') *)
Definition replace_newlines (s : jsstring) : jsstring :=
  List.map (fun c => if (c =? 10)%N then 32%N else c) s.

(* s.replace(/\s+/g, ' '): [in_run] tells that the previous character was
   white space, whose run has been replaced already. *)
Fixpoint collapse_spaces (in_run : bool) (s : jsstring) : jsstring :=
  match s with
  | [] => []
  | c :: r =>
      if is_space c
      then (if in_run then collapse_spaces true r
            else 32%N :: collapse_spaces true r)
      else c :: collapse_spaces false r
  end.

(* content.replace(/\n/g, ' ').replace(/\s+/g, ' ').trim() *)
Definition singleLine (s : jsstring) : jsstring :=
  trim (collapse_spaces false (replace_newlines s)).

(* a === b *)
Fixpoint string_eqb (a b : jsstring) : bool :=
  match a, b with
  | [], [] => true
  | c :: a', d :: b' => (c =? d)%N && string_eqb a' b'
  | _, _ => false
  end.

(* ToBoolean of an optional string: undefined and '' are falsy. *)
Definition truthy_str (s : option jsstring) : bool :=
  match s with
  | Some (_ :: _) => true
  | _ => false
  end.

(** ** Data model *)

(* SignatureField['type'] *)
Inductive FieldType : Type :=
| signature | initials | name | date | text | company.

Definition FieldType_eqb (a b : FieldType) : bool :=
  match a, b with
  | signature, signature | initials, initials | name, name
  | date, date | text, text | company, company => true
  | _, _ => false
  end.

(* interface SignatureField *)
Module SignatureField.
Record t (num : Type) : Type := mk {
  id : jsstring;
  type : FieldType;
  x : num;
  y : num;
  page : Z;
  width : num;
  height : num;
  content : option jsstring;
  font : option jsstring;
  canvasWidth : option num;
  canvasHeight : option num;
  pdfWidth : option num;
  pdfHeight : option num;
  fontSize : option num
}.
Arguments mk {num}.
End SignatureField.

(* A DOMRect, as getBoundingClientRect() returns it. *)
Module Rect.
Record t (num : Type) : Type := mk {
  left : num;
  top : num;
  width : num;
  height : num
}.
Arguments mk {num}.
End Rect.

(* The result of page.getSize() of pdf-lib. *)
Module Size.
Record t (num : Type) : Type := mk { width : num; height : num }.
Arguments mk {num}.
End Size.

(* The value convertToAbsoluteCoordinates returns. *)
Module Absolute.
Record t (num : Type) : Type := mk {
  absoluteX : num;
  absoluteY : num;
  canvasWidth : num;
  canvasHeight : num;
  pdfWidth : num;
  pdfHeight : num
}.
Arguments mk {num}.
End Absolute.

(* An element of the [signatures] array sent to the rendering backend. *)
Module Signature.
Record t (num : Type) : Type := mk {
  page : Z;
  x : num;
  y : num;
  width : num;
  height : num;
  type : FieldType;
  content : option jsstring;
  font : option jsstring;
  fontSize : option num
}.
Arguments mk {num}.
End Signature.

(* What the component reads from its surroundings when a handler runs: the
   bounding rectangles of the page element and of the canvas inside it, the
   document loaded with pdf-lib (the sizes of its pages), the page shown and
   the status of the document. *)
Module Env.
Record t (num : Type) : Type := mk {
  pageRect : option (Rect.t num);     (* pageRefs.current[currentPage] *)
  canvasRect : option (Rect.t num);   (* its .react-pdf__Page__canvas *)
  pdfDocument : option (list (Size.t num));
  currentPage : Z;
  signed : bool                       (* document.status === 'signed' *)
}.
Arguments mk {num}.
End Env.

(* The state of the component that the handlers below read and set. *)
Module State.
Record t (num : Type) : Type := mk {
  signatureFields : list (SignatureField.t num);
  placementMode : option FieldType;
  selectedField : option jsstring;
  showSignatureModal : bool;
  selectedFieldForEdit : option jsstring;
  finalizing : bool
}.
Arguments mk {num}.
End State.

(* A mouse click, with the two values the handler takes from the clock. *)
Module Click.
Record t (num : Type) : Type := mk {
  clientX : num;
  clientY : num;
  now : jsstring;        (* Date.now().toString() *)
  today : jsstring       (* new Date().toLocaleDateString() *)
}.
Arguments mk {num}.
End Click.

(** ** The signing view (src/pages/PDFSigningView.tsx) *)

Section SigningView.

Context {num : Type} `{JSNumber num}.

Local Open Scope js_scope.

(* The number of a length or a count. *)
Definition of_nat (n : nat) : num := lit (inject_Z (Z.of_nat n)).

(* [a || b] on optional numbers, and [a || b] with a number on the right. *)
Definition or_opt (a b : option num) : option num :=
  match a with
  | Some v => if truthy v then a else b
  | None => b
  end.

Definition or_num (a : option num) (b : num) : num :=
  match a with
  | Some v => if truthy v then v else b
  | None => b
  end.

(* calculateDynamicFontSize(width, height, type, contentLength = 10); every
   call of the program passes the fourth argument. *)
Definition calculateDynamicFontSize
    (width height : num) (type : FieldType) (contentLength : num) : num :=
  let baseFontSize := math_max (lit 8) (math_min (height * lit 0.6) (lit 32)) in
  let baseFontSize :=
    match type with
    | signature => math_max (lit 12) (math_min (height * lit 0.7) (lit 36))
    | initials => math_max (lit 10) (math_min (height * lit 0.65) (lit 28))
    | name => math_max (lit 8) (math_min (height * lit 0.6) (lit 24))
    | _ => math_max (lit 8) (math_min (height * lit 0.55) (lit 20))
    end in
  let estimatedTextWidth := contentLength * (baseFontSize * lit 0.6) in
  let baseFontSize :=
    if estimatedTextWidth >? width - lit 16
    then math_max (lit 8) ((width - lit 16) / (contentLength * lit 0.6))
    else baseFontSize in
  math_round baseFontSize.

Definition getPdfCanvasBounds (env : Env.t num) : option (Rect.t num) :=
  match Env.pageRect env with
  | None => None
  | Some _ => Env.canvasRect env
  end.

Definition getPdfPageDimensions (env : Env.t num) : option (Size.t num) :=
  match Env.pdfDocument env with
  | None => None
  | Some pages =>
      if ((Env.currentPage env <? 1)
          || (Z.of_nat (List.length pages) <? Env.currentPage env))%Z
      then None
      else nth_error pages (Z.to_nat (Env.currentPage env - 1))
  end.

Definition convertToAbsoluteCoordinates
    (env : Env.t num) (canvasX canvasY : num) : Absolute.t num :=
  match getPdfCanvasBounds env, getPdfPageDimensions env with
  | Some canvasBounds, Some pdfDimensions =>
      let canvasWidth := Rect.width canvasBounds in
      let canvasHeight := Rect.height canvasBounds in
      let pdfWidth := Size.width pdfDimensions in
      let pdfHeight := Size.height pdfDimensions in
      let scaleX := pdfWidth / canvasWidth in
      let scaleY := pdfHeight / canvasHeight in
      let absoluteX := canvasX * scaleX in
      let absoluteY := pdfHeight - canvasY * scaleY in
      Absolute.mk absoluteX absoluteY
                  canvasWidth canvasHeight pdfWidth pdfHeight
  | _, _ =>
      Absolute.mk canvasX canvasY (lit 0) (lit 0) (lit 0) (lit 0)
  end.

(* The default box of a field, by type. *)
Definition defaultSize (mode : FieldType) : num * num :=
  match mode with
  | signature => (lit 180, lit 50)
  | initials => (lit 80, lit 35)
  | name => (lit 150, lit 30)
  | _ => (lit 120, lit 30)
  end.

Definition handlePdfClick
    (env : Env.t num) (e : Click.t num) (st : State.t num) : State.t num :=
  match State.placementMode st with
  | None => st
  | Some placementMode =>
  if Env.signed env then st else
  match getPdfCanvasBounds env with
  | None => st
  | Some canvasBounds =>
  match Env.pageRect env with
  | None => st
  | Some pageRect =>
    let relativeX := Click.clientX e - Rect.left pageRect in
    let relativeY := Click.clientY e - Rect.top pageRect in
    let canvasOffsetX := Rect.left canvasBounds - Rect.left pageRect in
    let canvasOffsetY := Rect.top canvasBounds - Rect.top pageRect in
    let canvasX := relativeX - canvasOffsetX in
    let canvasY := relativeY - canvasOffsetY in
    if (canvasX <? lit 0) || (canvasY <? lit 0)
       || (canvasX >? Rect.width canvasBounds)
       || (canvasY >? Rect.height canvasBounds)
    then st
    else
      let fieldWidth := fst (defaultSize placementMode) in
      let fieldHeight := snd (defaultSize placementMode) in
      let padding := lit 10 in
      let adjustedX :=
        math_min canvasX (Rect.width canvasBounds - fieldWidth - padding) in
      let adjustedY :=
        math_min canvasY (Rect.height canvasBounds - fieldHeight - padding) in
      let a := convertToAbsoluteCoordinates env adjustedX adjustedY in
      let initialFontSize :=
        calculateDynamicFontSize fieldWidth fieldHeight placementMode (lit 10) in
      let newField (content : option jsstring) :=
        SignatureField.mk
          (Click.now e) placementMode
          (math_max (lit 0) adjustedX) (math_max (lit 0) adjustedY)
          (Env.currentPage env) fieldWidth fieldHeight
          content None
          (Some (Absolute.canvasWidth a)) (Some (Absolute.canvasHeight a))
          (Some (Absolute.pdfWidth a)) (Some (Absolute.pdfHeight a))
          (Some initialFontSize) in
      match placementMode with
      | signature | initials =>
          State.mk (State.signatureFields st ++ [newField None])
                   None (Some (Click.now e)) true
                   (State.selectedFieldForEdit st) (State.finalizing st)
      | date =>
          State.mk (State.signatureFields st ++ [newField (Some (Click.today e))])
                   None (State.selectedField st) (State.showSignatureModal st)
                   (State.selectedFieldForEdit st) (State.finalizing st)
      | _ =>
          State.mk (State.signatureFields st ++ [newField None])
                   None (State.selectedField st) (State.showSignatureModal st)
                   (State.selectedFieldForEdit st) (State.finalizing st)
      end
  end end end.

(* { ...field, content, fontSize } *)
Definition withContent (field : SignatureField.t num)
    (content : jsstring) (fontSize : num) : SignatureField.t num :=
  SignatureField.mk
    (SignatureField.id field) (SignatureField.type field)
    (SignatureField.x field) (SignatureField.y field)
    (SignatureField.page field)
    (SignatureField.width field) (SignatureField.height field)
    (Some content) (SignatureField.font field)
    (SignatureField.canvasWidth field) (SignatureField.canvasHeight field)
    (SignatureField.pdfWidth field) (SignatureField.pdfHeight field)
    (Some fontSize).

Definition updateFieldContent (fieldId : jsstring) (content : jsstring)
    (fields : list (SignatureField.t num)) : list (SignatureField.t num) :=
  let singleLineContent := singleLine content in
  List.map
    (fun field =>
       if string_eqb (SignatureField.id field) fieldId
       then withContent field singleLineContent
              (calculateDynamicFontSize
                 (SignatureField.width field) (SignatureField.height field)
                 (SignatureField.type field)
                 (of_nat (List.length singleLineContent)))
       else field)
    fields.

(* { ...f, x, y, canvasWidth, canvasHeight } *)
Definition withPosition (f : SignatureField.t num)
    (x y canvasWidth canvasHeight : num) : SignatureField.t num :=
  SignatureField.mk
    (SignatureField.id f) (SignatureField.type f) x y
    (SignatureField.page f)
    (SignatureField.width f) (SignatureField.height f)
    (SignatureField.content f) (SignatureField.font f)
    (Some canvasWidth) (Some canvasHeight)
    (SignatureField.pdfWidth f) (SignatureField.pdfHeight f)
    (SignatureField.fontSize f).

Definition handleFieldDrag (env : Env.t num) (fieldId : jsstring)
    (dataX dataY : num)
    (fields : list (SignatureField.t num)) : list (SignatureField.t num) :=
  match getPdfCanvasBounds env with
  | None => fields
  | Some canvasBounds =>
  match List.find (fun f => string_eqb (SignatureField.id f) fieldId) fields with
  | None => fields
  | Some field =>
      let padding := lit 5 in
      let boundedX :=
        math_max (lit 0)
          (math_min dataX
             (Rect.width canvasBounds - SignatureField.width field - padding)) in
      let boundedY :=
        math_max (lit 0)
          (math_min dataY
             (Rect.height canvasBounds - SignatureField.height field - padding)) in
      List.map
        (fun f =>
           if string_eqb (SignatureField.id f) fieldId
           then withPosition f boundedX boundedY
                  (Rect.width canvasBounds) (Rect.height canvasBounds)
           else f)
        fields
  end end.

(* { ...field, width, height, fontSize } *)
Definition withSize (field : SignatureField.t num)
    (width height fontSize : num) : SignatureField.t num :=
  SignatureField.mk
    (SignatureField.id field) (SignatureField.type field)
    (SignatureField.x field) (SignatureField.y field)
    (SignatureField.page field) width height
    (SignatureField.content field) (SignatureField.font field)
    (SignatureField.canvasWidth field) (SignatureField.canvasHeight field)
    (SignatureField.pdfWidth field) (SignatureField.pdfHeight field)
    (Some fontSize).

(* field.content?.length || 10 *)
Definition contentLengthOr10 (field : SignatureField.t num) : num :=
  or_num (option_map (fun s => of_nat (List.length s))
                     (SignatureField.content field))
         (lit 10).

(* The body of the map of handleFieldResize for the field resized. *)
Definition resizeField (canvasBounds : Rect.t num)
    (newWidth newHeight : num)
    (field : SignatureField.t num) : SignatureField.t num :=
  let maxWidth := Rect.width canvasBounds - SignatureField.x field - lit 10 in
  let maxHeight := Rect.height canvasBounds - SignatureField.y field - lit 10 in
  let finalWidth := math_min (math_max (lit 60) newWidth) maxWidth in
  let finalHeight := math_min (math_max (lit 20) newHeight) maxHeight in
  let newFontSize :=
    calculateDynamicFontSize finalWidth finalHeight
      (SignatureField.type field) (contentLengthOr10 field) in
  withSize field finalWidth finalHeight newFontSize.

Definition handleFieldResize (env : Env.t num) (fieldId : jsstring)
    (newWidth newHeight : num)
    (fields : list (SignatureField.t num)) : list (SignatureField.t num) :=
  match getPdfCanvasBounds env with
  | None => fields
  | Some canvasBounds =>
      List.map
        (fun field =>
           if string_eqb (SignatureField.id field) fieldId
           then resizeField canvasBounds newWidth newHeight field
           else field)
        fields
  end.

(** *** Finalization *)

(* What finalizeDocument does to the world, in order. *)
Inductive Effect : Type :=
| ToastError (msg : string)
| ToastSuccess (msg : string)
| SetFinalizing (b : bool)
| PostSignatures (signatures : list (Signature.t num))   (* the fetch *)
| InsertSignatures (fields : list (SignatureField.t num))
| Navigate (path : string).

(* The answers of the services finalizeDocument awaits. *)
Record Services : Type := {
  session : bool;        (* getSession() gave a session and no error *)
  responseOk : bool      (* the fetch resolved and response.ok *)
}.

(* !field.content || field.content.trim() === '' *)
Definition incomplete (field : SignatureField.t num) : bool :=
  negb (truthy_str (SignatureField.content field))
  || match SignatureField.content field with
     | Some c => string_eqb (trim c) []
     | None => true
     end.

(* The four dimensions finalization converts a field with. *)
Definition finalCanvasWidth (env : Env.t num) (field : SignatureField.t num) : num :=
  or_num (or_opt (SignatureField.canvasWidth field)
                 (option_map (@Rect.width num) (getPdfCanvasBounds env)))
         (lit 595).

Definition finalCanvasHeight (env : Env.t num) (field : SignatureField.t num) : num :=
  or_num (or_opt (SignatureField.canvasHeight field)
                 (option_map (@Rect.height num) (getPdfCanvasBounds env)))
         (lit 842).

Definition finalPdfWidth (env : Env.t num) (field : SignatureField.t num) : num :=
  or_num (or_opt (SignatureField.pdfWidth field)
                 (option_map (@Size.width num) (getPdfPageDimensions env)))
         (lit 595).

Definition finalPdfHeight (env : Env.t num) (field : SignatureField.t num) : num :=
  or_num (or_opt (SignatureField.pdfHeight field)
                 (option_map (@Size.height num) (getPdfPageDimensions env)))
         (lit 842).

(* The body of the map that builds [signatures]. *)
Definition toSignature (env : Env.t num)
    (field : SignatureField.t num) : Signature.t num :=
  let canvasWidth := finalCanvasWidth env field in
  let canvasHeight := finalCanvasHeight env field in
  let pdfWidth := finalPdfWidth env field in
  let pdfHeight := finalPdfHeight env field in
  let scaleX := pdfWidth / canvasWidth in
  let scaleY := pdfHeight / canvasHeight in
  let absoluteX := SignatureField.x field * scaleX in
  let absoluteY := pdfHeight - SignatureField.y field * scaleY in
  Signature.mk
    (SignatureField.page field) absoluteX absoluteY
    (SignatureField.width field) (SignatureField.height field)
    (SignatureField.type field) (SignatureField.content field)
    (SignatureField.font field) (SignatureField.fontSize field).

Definition setFinalizing (b : bool) (st : State.t num) : State.t num :=
  State.mk (State.signatureFields st) (State.placementMode st)
           (State.selectedField st) (State.showSignatureModal st)
           (State.selectedFieldForEdit st) b.

(* finalizeDocument: the state it leaves and the effects it had. *)
Definition finalizeDocument (env : Env.t num) (svc : Services)
    (st : State.t num) : State.t num * list Effect :=
  let signatureFields := State.signatureFields st in
  if (List.length signatureFields =? 0)%nat
  then (st, [ToastError "Please add at least one signature before finalizing"])
  else
    let incompleteFields := List.filter incomplete signatureFields in
    if (0 <? List.length incompleteFields)%nat
    then (st, [ToastError "Please complete all signature fields"])
    else
      let done := setFinalizing false (setFinalizing true st) in
      if negb (session svc)
      then (done, [SetFinalizing true;
                   ToastError "Failed to finalize document";
                   SetFinalizing false])
      else
        let signatures := List.map (toSignature env) signatureFields in
        if negb (responseOk svc)
        then (done, [SetFinalizing true;
                     PostSignatures signatures;
                     ToastError "Failed to finalize document";
                     SetFinalizing false])
        else (done, [SetFinalizing true;
                     PostSignatures signatures;
                     InsertSignatures signatureFields;
                     ToastSuccess "Document signed with 100% positioning accuracy!";
                     Navigate "/dashboard";
                     SetFinalizing false]).

End SigningView.

(** ** The rendering backend
    (supabase/functions/generate-absolute-precision-pdf/index.ts) *)

Inductive StandardFonts : Type :=
| TimesRomanItalic | HelveticaBold | HelveticaOblique
| TimesRomanBold | CourierBold | Helvetica.

Definition getFontMapping (fontValue : jsstring) : StandardFonts :=
  if string_eqb fontValue (str "times-roman-italic") then TimesRomanItalic
  else if string_eqb fontValue (str "helvetica-bold") then HelveticaBold
  else if string_eqb fontValue (str "helvetica-oblique") then HelveticaOblique
  else if string_eqb fontValue (str "times-roman-bold") then TimesRomanBold
  else if string_eqb fontValue (str "courier-bold") then CourierBold
  else if string_eqb fontValue (str "helvetica") then Helvetica
  else TimesRomanItalic.

(* One call of page.drawText. *)
Module Drawn.
Record t (num : Type) : Type := mk {
  text : jsstring;
  x : num;
  y : num;
  size : num;
  font : StandardFonts
}.
Arguments mk {num}.
End Drawn.

(* A page of the document being signed: its size and what was drawn on it. *)
Module PDFPage.
Record t (num : Type) : Type := mk {
  size : Size.t num;
  drawn : list (Drawn.t num)
}.
Arguments mk {num}.
End PDFPage.

(* What became of one signature of the request. *)
Inductive Outcome : Type :=
| Skipped            (* 'Skipping invalid signature' *)
| Placed             (* drawn by the try block *)
| PlacedByFallback   (* drawn by the catch block *)
| Dropped.           (* the catch block failed too; logged only *)

(* What an awaited call of the handler came to: it gave what was asked for,
   it gave an error or nothing, or it threw. *)
Inductive Answer : Type := Yes | No | Throws.


Section Backend.

Context {num : Type} `{JSNumber num}.

(* pdf-lib, as far as the loop depends on it: whether a standard font can
   encode a text (widthOfTextAtSize and drawText throw when it cannot), and
   the width it gives the text at a size.  drawText also throws when the x or
   the y it is given is NaN: its options are validated with
   typeof value === 'number' && !isNaN(value). *)
Variable encodes : StandardFonts -> jsstring -> bool.
Variable widthOfTextAtSize : StandardFonts -> jsstring -> num -> num.

Local Open Scope js_scope.

Definition PDFDocument := list (PDFPage.t num).

Definition drawText (d : Drawn.t num) (index : nat) (pdfDoc : PDFDocument)
    : PDFDocument :=
  List.map
    (fun ip : nat * PDFPage.t num =>
       if (fst ip =? index)%nat
       then PDFPage.mk (PDFPage.size (snd ip)) (PDFPage.drawn (snd ip) ++ [d])
       else snd ip)
    (List.combine (List.seq 0 (List.length pdfDoc)) pdfDoc).

(* signature.content with undefined read as '' where a string is needed
   (reached with truthy content only). *)
Definition contentOf (s : Signature.t num) : jsstring :=
  match Signature.content s with Some c => c | None => [] end.

(* !signature.content || signature.page < 1
   || signature.page > pdfDoc.getPageCount() *)
Definition invalid (pdfDoc : PDFDocument) (s : Signature.t num) : bool :=
  negb (truthy_str (Signature.content s))
  || (Signature.page s <? 1)%Z
  || (Z.of_nat (List.length pdfDoc) <? Signature.page s)%Z.

(* The try block after the validity test; None when it throws. *)
Definition place (pdfDoc : PDFDocument) (s : Signature.t num)
    : option PDFDocument :=
  let index := Z.to_nat (Signature.page s - 1) in
  match nth_error pdfDoc index with
  | None => None
  | Some page =>
      let pageWidth := Size.width (PDFPage.size page) in
      let pageHeight := Size.height (PDFPage.size page) in
      let absoluteX := Signature.x s in
      let absoluteY := Signature.y s in
      let finalX := math_max (lit 10) (math_min absoluteX (pageWidth - lit 50)) in
      let finalY := math_max (lit 15) (math_min absoluteY (pageHeight - lit 15)) in
      let pdfFont :=
        getFontMapping
          (if truthy_str (Signature.font s)
           then match Signature.font s with Some f => f | None => [] end
           else str "times-roman-italic") in
      let fontSize := or_num (Signature.fontSize s) (lit 16) in
      let singleLineContent := singleLine (contentOf s) in
      if encodes pdfFont singleLineContent
      then
        let textWidth := widthOfTextAtSize pdfFont singleLineContent fontSize in
        let adjustedX := math_min finalX (pageWidth - textWidth - lit 10) in
        if isNaN adjustedX || isNaN finalY then None
        else
          Some (drawText
                  (Drawn.mk singleLineContent adjustedX finalY fontSize pdfFont)
                  index pdfDoc)
      else None
  end.

(* The try block inside the catch block; None when it throws. *)
Definition placeFallback (pdfDoc : PDFDocument) (s : Signature.t num)
    : option PDFDocument :=
  let index := Z.to_nat (Signature.page s - 1) in
  match nth_error pdfDoc index with
  | None => None
  | Some page =>
      let pageWidth := Size.width (PDFPage.size page) in
      let pageHeight := Size.height (PDFPage.size page) in
      let singleLineContent := singleLine (contentOf s) in
      let fallbackFontSize := or_num (Signature.fontSize s) (lit 16) in
      let x := math_max (lit 15) (math_min (Signature.x s) (pageWidth - lit 150)) in
      let y := math_max (lit 20) (math_min (Signature.y s) (pageHeight - lit 30)) in
      if encodes TimesRomanItalic singleLineContent
      then
        if isNaN x || isNaN y then None
        else
          Some (drawText
                  (Drawn.mk singleLineContent x y fallbackFontSize TimesRomanItalic)
                  index pdfDoc)
      else None
  end.

(* The body of the for loop. *)
Definition processSignature (pdfDoc : PDFDocument) (s : Signature.t num)
    : PDFDocument * Outcome :=
  if invalid pdfDoc s then (pdfDoc, Skipped)
  else
    match place pdfDoc s with
    | Some pdfDoc' => (pdfDoc', Placed)
    | None =>
        match placeFallback pdfDoc s with
        | Some pdfDoc' => (pdfDoc', PlacedByFallback)
        | None => (pdfDoc, Dropped)
        end
    end.

(* for (const signature of signatures) { ... } *)
Fixpoint processSignatures (pdfDoc : PDFDocument)
    (signatures : list (Signature.t num)) : PDFDocument * list Outcome :=
  match signatures with
  | [] => (pdfDoc, [])
  | s :: rest =>
      let (pdfDoc', o) := processSignature pdfDoc s in
      let (pdfDoc'', os) := processSignatures pdfDoc' rest in
      (pdfDoc'', o :: os)
  end.

(* A request as the handler meets it: its method and body, and the answers
   of the services it awaits, in the order it awaits them.  Whatever throws
   inside the outer try block is answered by its catch block. *)
Record Request : Type := {
  isOptions : bool;                       (* req.method === 'OPTIONS' *)
  client : bool;                          (* createClient returned *)
  json : bool;                            (* await req.json() gave a body whose
                                             signatures is an array *)
  signatures : list (Signature.t num);
  user : Answer;                          (* auth.getUser(): Yes, a user *)
  document : Answer;                      (* the select: Yes, the row *)
  pdfData : Answer;                       (* the download: Yes, the file *)
  loaded : option PDFDocument;            (* PDFDocument.load; None: throws *)
  saved : bool;                           (* pdfDoc.save() returned *)
  upload : Answer;                        (* the upload: No, uploadError *)
  updated : bool                          (* the update of the row returned *)
}.



End Backend.

(** ** Editing sessions

    The three operations on the geometry of a field, as the user performs
    them: choosing a field type in the toolbar and clicking on the page,
    dropping a dragged field, and moving the resize handle. *)

Section Sessions.

Context {num : Type} `{JSNumber num}.

Inductive Op : Type :=
| Place (mode : FieldType) (e : Click.t num)
| Move (fieldId : jsstring) (dataX dataY : num)
| Resize (fieldId : jsstring) (newWidth newHeight : num).

Definition setPlacementMode (mode : FieldType) (st : State.t num) : State.t num :=
  State.mk (State.signatureFields st) (Some mode)
           (State.selectedField st) (State.showSignatureModal st)
           (State.selectedFieldForEdit st) (State.finalizing st).

Definition setSignatureFields (fields : list (SignatureField.t num))
    (st : State.t num) : State.t num :=
  State.mk fields (State.placementMode st)
           (State.selectedField st) (State.showSignatureModal st)
           (State.selectedFieldForEdit st) (State.finalizing st).

Definition step (env : Env.t num) (st : State.t num) (op : Op) : State.t num :=
  match op with
  | Place mode e => handlePdfClick env e (setPlacementMode mode st)
  | Move fieldId dataX dataY =>
      setSignatureFields
        (handleFieldDrag env fieldId dataX dataY (State.signatureFields st)) st
  | Resize fieldId newWidth newHeight =>
      setSignatureFields
        (handleFieldResize env fieldId newWidth newHeight (State.signatureFields st)) st
  end.

Definition run (env : Env.t num) (ops : list Op) (st : State.t num) : State.t num :=
  List.fold_left (step env) ops st.

(* A session that has just been opened. *)
Definition initialState : State.t num :=
  State.mk [] None None false None false.

(* The ids the clicks of a session would give the fields they place. *)
Definition placedIds (ops : list Op) : list jsstring :=
  List.flat_map
    (fun op => match op with Place _ e => [Click.now e] | _ => [] end) ops.

End Sessions.

(** ** Concrete inputs (binary64) *)

Module Scenario.

Local Open Scope float_scope.

(* A one-page A4 document shown in a canvas of 600 by 800 pixels at the origin
   of its page element: the viewport
   {renderedWidth: 600, renderedHeight: 800, nativeWidth: 595, nativeHeight: 842}. *)
Definition a4 : list (Size.t float) := [Size.mk 595 842].

Definition viewport (renderedWidth renderedHeight : float) : Env.t float :=
  Env.mk (Some (Rect.mk 0 0 renderedWidth renderedHeight))
         (Some (Rect.mk 0 0 renderedWidth renderedHeight))
         (Some a4) 1%Z false.

Definition env : Env.t float := viewport 600 800.

(* Before the canvas and the document are there. *)
Definition unmeasured : Env.t float := Env.mk None None None 1%Z false.

(* The canvas is shown, and pdf-lib has not loaded the document yet. *)
Definition loading : Env.t float :=
  Env.mk (Some (Rect.mk 0 0 600 800)) (Some (Rect.mk 0 0 600 800))
         None 1%Z false.

Definition click (x y : float) (now : string) : Click.t float :=
  Click.mk x y (str now) (str "1/1/2025").

Definition fieldId : jsstring := str "1700000000000".

(* A name field placed by a click at (100, 200), then filled in. *)
Definition placed : State.t float :=
  run env [Place name (click 100 200 "1700000000000")] initialState.

Definition filled : State.t float :=
  setSignatureFields
    (updateFieldContent fieldId (str "Jane Doe") (State.signatureFields placed))
    placed.

Definition services : @Services := Build_Services true true.

(* The field of [filled] when it is placed while the document is loading and
   dropped where it is once the document is there: the drag stores the size
   of the canvas and leaves the native size 0. *)
Definition placedEarly : list (SignatureField.t float) :=
  handleFieldDrag env fieldId 100 200
    (updateFieldContent fieldId (str "Jane Doe")
       (State.signatureFields
          (run loading [Place name (click 100 200 "1700000000000")]
               initialState))).

(* The field of [placedEarly]. *)
Definition nativeLost : SignatureField.t float :=
  SignatureField.mk fieldId name 100 200 1%Z 150 30 (Some (str "Jane Doe")) None
                    (Some 600) (Some 800) (Some 0) (Some 0) (Some 18).

(* An empty text field narrowed to 60 by 30. *)
Definition narrowText : SignatureField.t float :=
  SignatureField.mk fieldId text 100 200 1%Z 60 30 None None
                    (Some 600) (Some 800) (Some 595) (Some 842) (Some 8).

(* A name field shrunk to the minimum, dropped in the bottom right corner and
   resized again. *)
Definition cornerOps : list (@Op float) :=
  [Place name (click 100 200 "1700000000000");
   Resize fieldId 60 20;
   Move fieldId 1000 1000;
   Resize fieldId 100 100].

End Scenario.

(** ** The vocabulary of the properties *)

Section Vocabulary.

Context {num : Type} `{JSNumber num}.

(* A stored or measured dimension that [||] passes over: missing, 0 or NaN. *)
Definition falsy (o : option num) : Prop :=
  match o with
  | Some v => truthy v = false
  | None => True
  end.

(* [final] is the stored dimension when there is a usable one, else the live
   measurement when there is a usable one, else the constant. *)
Definition fallsBack (stored live : option num) (constant final : num) : Prop :=
  (forall v, stored = Some v -> truthy v = true -> final = v) /\
  (falsy stored -> forall v, live = Some v -> truthy v = true -> final = v) /\
  (falsy stored -> falsy live -> final = constant).

(* The content of a field is empty after trimming (or was never set). *)
Definition blank (field : SignatureField.t num) : Prop :=
  match SignatureField.content field with
  | Some c => trim c = []
  | None => True
  end.

(* The surroundings present the viewport
   { renderedWidth, renderedHeight, nativeWidth, nativeHeight }. *)
Definition measures (env : Env.t num)
    (renderedWidth renderedHeight nativeWidth nativeHeight : num) : Prop :=
  exists canvasBounds pdfDimensions,
    getPdfCanvasBounds env = Some canvasBounds /\
    getPdfPageDimensions env = Some pdfDimensions /\
    Rect.width canvasBounds = renderedWidth /\
    Rect.height canvasBounds = renderedHeight /\
    Size.width pdfDimensions = nativeWidth /\
    Size.height pdfDimensions = nativeHeight.

End Vocabulary.

(** Containment of a field in the rendered page, and the sessions it is stated
    for, in exact arithmetic. *)


Definition finiteOp (op : @Op Ex.t) : Prop :=
  match op with
  | Place _ e => Ex.finite (Click.clientX e) /\ Ex.finite (Click.clientY e)
  | Move _ dataX dataY => Ex.finite dataX /\ Ex.finite dataY
  | Resize _ newWidth newHeight => Ex.finite newWidth /\ Ex.finite newHeight
  end.

Definition fitsCanvas (renderedWidth renderedHeight : Ex.t) (op : @Op Ex.t) : Prop :=
  match op with
  | Place mode _ =>
      Ex.le (fst (defaultSize mode)) renderedWidth /\
      Ex.le (snd (defaultSize mode)) renderedHeight
  | _ => True
  end.

Definition measuredCanvas (env : Env.t Ex.t) (renderedWidth renderedHeight : Q) : Prop :=
  exists pageLeft pageTop pageWidth pageHeight canvasLeft canvasTop,
    Env.pageRect env =
      Some (Rect.mk (Ex.Fin pageLeft) (Ex.Fin pageTop) pageWidth pageHeight) /\
    Env.canvasRect env =
      Some (Rect.mk (Ex.Fin canvasLeft) (Ex.Fin canvasTop)
                    (Ex.Fin renderedWidth) (Ex.Fin renderedHeight)).

(* Containment with every coordinate a finite number: what the operations
   preserve. *)
Definition inside (cw ch : Q) (f : SignatureField.t Ex.t) : Prop :=
  exists x y w h,
    SignatureField.x f = Ex.Fin x /\ SignatureField.y f = Ex.Fin y /\
    SignatureField.width f = Ex.Fin w /\ SignatureField.height f = Ex.Fin h /\
    0 <= x /\ 0 <= y /\ x + w <= cw /\ y + h <= ch.

(** ** Concrete inputs (exact arithmetic) *)

Module ExScenario.

Definition viewport (renderedWidth renderedHeight : Q) : Env.t Ex.t :=
  Env.mk (Some (Rect.mk (Ex.Fin 0) (Ex.Fin 0)
                        (Ex.Fin renderedWidth) (Ex.Fin renderedHeight)))
         (Some (Rect.mk (Ex.Fin 0) (Ex.Fin 0)
                        (Ex.Fin renderedWidth) (Ex.Fin renderedHeight)))
         (Some [Size.mk (Ex.Fin 595) (Ex.Fin 842)]) 1%Z false.

Definition click (x y : Q) (now : string) : Click.t Ex.t :=
  Click.mk (Ex.Fin x) (Ex.Fin y) (str now) (str "1/1/2025").

Definition cornerOps : list (@Op Ex.t) :=
  [Place name (click 100 200 "1700000000000");
   Resize Scenario.fieldId (Ex.Fin 60) (Ex.Fin 20);
   Move Scenario.fieldId (Ex.Fin 1000) (Ex.Fin 1000);
   Resize Scenario.fieldId (Ex.Fin 100) (Ex.Fin 100)].

End ExScenario.

(** ** Concrete inputs (backend) *)

Module BackendScenario.

Local Open Scope float_scope.

(* pdf-lib's standard fonts encode WinAnsi only; here: the ASCII texts. *)
Definition encodes (_ : StandardFonts) (s : jsstring) : bool :=
  List.forallb (fun c => (c <? 128)%N) s.

Definition widthOfTextAtSize
    (_ : StandardFonts) (s : jsstring) (size : float) : float :=
  of_nat (List.length s) * (size * 0.5).

Definition blankPage : PDFPage.t float := PDFPage.mk (Size.mk 595 842) [].

(* The annotation of the scenario, one without content, one for a page the
   document does not have, and one no standard font encodes (U+4E2D). *)
Definition jane : Signature.t float :=
  Signature.mk 1%Z (100 * (595 / 600)) 631.5 150 30 name
               (Some (str "Jane Doe")) None (Some 18).

Definition noContent : Signature.t float :=
  Signature.mk 1%Z 10 10 120 30 text (Some []) None (Some 17).

Definition page5 : Signature.t float :=
  Signature.mk 5%Z 10 10 120 30 text (Some (str "x")) None (Some 17).

Definition unencodable : Signature.t float :=
  Signature.mk 1%Z 10 10 120 30 text (Some [20013%N]) None (Some 17).

(* An annotation of a request without x: signature.x is undefined, and
   Math.min(undefined, ...) is NaN. *)
Definition noX : Signature.t float :=
  Signature.mk 1%Z nan 400 120 30 text (Some (str "Jo")) None (Some 17).

Definition request : Request :=
  Build_Request false true true [noContent; page5; unencodable; jane; noX]
                Yes Yes Yes (Some [blankPage]) true Yes true.

End BackendScenario.

(** ** The rest of the signing view *)

(* getFontPreviewClass *)
Definition getFontPreviewClass (fontValue : jsstring) : string :=
  if string_eqb fontValue (str "times-roman-italic") then "font-serif italic"%string
  else if string_eqb fontValue (str "helvetica-bold") then "font-sans font-bold"%string
  else if string_eqb fontValue (str "helvetica-oblique") then "font-sans italic"%string
  else if string_eqb fontValue (str "times-roman-bold") then "font-serif font-bold"%string
  else if string_eqb fontValue (str "courier-bold") then "font-mono font-bold"%string
  else if string_eqb fontValue (str "helvetica") then "font-sans"%string
  else "font-serif italic"%string.

(* s.startsWith(prefix) *)
Fixpoint startsWith (s prefix : jsstring) : bool :=
  match prefix, s with
  | [], _ => true
  | p :: prefix', c :: s' => (c =? p)%N && startsWith s' prefix'
  | _ :: _, [] => false
  end.

(* s.split(separator), for a separator that is not empty.  [skip] counts the
   characters of a separator just found that are still to be passed over, and
   [current] holds the part being read, last character first. *)
Fixpoint split_from (separator : jsstring) (skip : nat) (current : jsstring)
    (s : jsstring) : list jsstring :=
  match s with
  | [] => [rev current]
  | c :: r =>
      match skip with
      | S k => split_from separator k current r
      | O =>
          if startsWith s separator
          then rev current
               :: split_from separator (List.length separator - 1) [] r
          else split_from separator 0 (c :: current) r
      end
  end.

Definition split (s separator : jsstring) : list jsstring :=
  split_from separator 0 [] s.

(* s.indexOf(separator), None for -1. *)
Fixpoint indexOf (s separator : jsstring) : option nat :=
  if startsWith s separator then Some 0%nat
  else
    match s with
    | [] => None
    | _ :: r => option_map S (indexOf r separator)
    end.

Definition storageMarker : jsstring := str "/storage/v1/object/documents/".

Definition extractFilePathFromUrl (fileUrl : jsstring) : jsstring :=
  if negb (startsWith fileUrl (str "http")) then fileUrl
  else
    let urlParts := split fileUrl storageMarker in
    if (1 <? List.length urlParts)%nat then List.nth 1 urlParts []
    else fileUrl.

(* The page buttons: the onClick of each, with its disabled attribute. *)
Definition previousPage (currentPage : Z) : Z :=
  if (currentPage =? 1)%Z then currentPage else Z.max 1 (currentPage - 1).

Definition nextPage (numPages currentPage : Z) : Z :=
  if (currentPage =? numPages)%Z then currentPage
  else Z.min numPages (currentPage + 1).

Inductive Zoom : Type := ZoomOut | ZoomIn.

Section MoreSigningView.

Context {num : Type} `{JSNumber num}.

Local Open Scope js_scope.

(* The zoom buttons: setScale(Math.max(0.5, scale - 0.1)) and
   setScale(Math.min(2, scale + 0.1)). *)
Definition zoom (scale : num) (z : Zoom) : num :=
  match z with
  | ZoomOut => math_max (lit 0.5) (scale - lit 0.1)
  | ZoomIn => math_min (lit 2) (scale + lit 0.1)
  end.

(* { ...field, content, font, fontSize } *)
Definition withSignature (field : SignatureField.t num)
    (content font : jsstring) (fontSize : num) : SignatureField.t num :=
  SignatureField.mk
    (SignatureField.id field) (SignatureField.type field)
    (SignatureField.x field) (SignatureField.y field)
    (SignatureField.page field)
    (SignatureField.width field) (SignatureField.height field)
    (Some content) (Some font)
    (SignatureField.canvasWidth field) (SignatureField.canvasHeight field)
    (SignatureField.pdfWidth field) (SignatureField.pdfHeight field)
    (Some fontSize).

Definition handleSignatureConfirm (name font : jsstring)
    (st : State.t num) : State.t num :=
  if negb (truthy_str (State.selectedField st)) then st
  else
    let selectedField :=
      match State.selectedField st with Some i => i | None => [] end in
    let singleLineName := singleLine name in
    State.mk
      (List.map
         (fun field =>
            if string_eqb (SignatureField.id field) selectedField
            then withSignature field singleLineName font
                   (calculateDynamicFontSize
                      (SignatureField.width field) (SignatureField.height field)
                      (SignatureField.type field)
                      (of_nat (List.length singleLineName)))
            else field)
         (State.signatureFields st))
      (State.placementMode st) None false
      (State.selectedFieldForEdit st) (State.finalizing st).

(* handleConfirm of SignatureModal, with handleSignatureConfirm for onConfirm:
   if (!name.trim()) return; onConfirm(name, selectedFont) *)
Definition handleConfirm (name selectedFont : jsstring)
    (st : State.t num) : State.t num :=
  if negb (truthy_str (Some (trim name))) then st
  else handleSignatureConfirm name selectedFont st.

(* selectedFieldForEdit === fieldId *)
Definition isSelectedForEdit (st : State.t num) (fieldId : jsstring) : bool :=
  match State.selectedFieldForEdit st with
  | Some i => string_eqb i fieldId
  | None => false
  end.

Definition removeField (fieldId : jsstring) (st : State.t num) : State.t num :=
  State.mk
    (List.filter
       (fun field => negb (string_eqb (SignatureField.id field) fieldId))
       (State.signatureFields st))
    (State.placementMode st) (State.selectedField st)
    (State.showSignatureModal st)
    (if isSelectedForEdit st fieldId then None
     else State.selectedFieldForEdit st)
    (State.finalizing st).

End MoreSigningView.

(* The zoom levels the buttons lead to from the initial scale 1, in binary64:
   the closure of [1] under the two buttons. *)
Fixpoint insertLevel (a : float) (l : list float) : list float :=
  match l with
  | [] => [a]
  | b :: r => if PrimFloat.Leibniz.eqb a b then l else b :: insertLevel a r
  end.

Definition growLevels (l : list float) : list float :=
  List.fold_left
    (fun acc s => insertLevel (zoom s ZoomIn) (insertLevel (zoom s ZoomOut) acc))
    l l.

Fixpoint iterate {A} (n : nat) (f : A -> A) (a : A) : A :=
  match n with
  | O => a
  | S k => iterate k f (f a)
  end.

Definition zoomLevels : list float :=
  Eval vm_compute in iterate 48 growLevels [1%float].

(** ** The vocabulary of the further properties *)

(* The values of AVAILABLE_PDF_FONTS (src/components/SignatureModal.tsx). *)
Definition AVAILABLE_PDF_FONTS : list jsstring :=
  [str "times-roman-italic"; str "helvetica-bold"; str "helvetica-oblique";
   str "times-roman-bold"; str "courier-bold"; str "helvetica"].

(* A text in which white space is the character 32 only and never follows
   white space; [after_space] tells that the text comes after white space. *)
Fixpoint spacedOnce (after_space : bool) (s : jsstring) : bool :=
  match s with
  | [] => true
  | c :: r =>
      if is_space c then (c =? 32)%N && negb after_space && spacedOnce true r
      else spacedOnce false r
  end.

(* Whether a text that comes after white space (or not) ends in white space. *)
Fixpoint endsInSpace (b : bool) (s : jsstring) : bool :=
  match s with
  | [] => b
  | c :: r => endsInSpace (is_space c) r
  end.

Section MoreVocabulary.

Context {num : Type} `{JSNumber num}.

Local Open Scope js_scope.

(* The label between the zoom buttons: {Math.round(scale * 100)}% *)
Definition zoomPercent (scale : num) : num := math_round (scale * lit 100).

Definition isToast (e : @Effect num) : bool :=
  match e with
  | ToastError _ | ToastSuccess _ => true
  | _ => false
  end.

(* The texts drawn on the pages of a document, and their number. *)
Definition allDrawn (pdfDoc : list (PDFPage.t num)) : list (Drawn.t num) :=
  List.concat (List.map (@PDFPage.drawn _) pdfDoc).

Definition drawnCount (pdfDoc : list (PDFPage.t num)) : nat :=
  List.length (allDrawn pdfDoc).

(* drawText on the pages numbered from [a]. *)
Definition drawTextFrom (d : Drawn.t num) (index a : nat)
    (l : list (PDFPage.t num)) : list (PDFPage.t num) :=
  List.map
    (fun ip : nat * PDFPage.t num =>
       if (fst ip =? index)%nat
       then PDFPage.mk (PDFPage.size (snd ip)) (PDFPage.drawn (snd ip) ++ [d])
       else snd ip)
    (List.combine (List.seq a (List.length l)) l).

End MoreVocabulary.

(* The outcomes that draw a text. *)
Definition isPlaced (o : Outcome) : bool :=
  match o with
  | Placed | PlacedByFallback => true
  | _ => false
  end.

(* A text as the backend draws it: written on one line, at a usable size and
   not below the bottom margin. *)
Definition wellDrawn (d : Drawn.t float) : Prop :=
  singleLine (Drawn.text d) = Drawn.text d /\
  F64.truthy (Drawn.size d) = true /\
  PrimFloat.ltb (Drawn.y d) 15 = false.

Definition inZoomRange (scale : float) : bool :=
  PrimFloat.leb 0.5 scale && PrimFloat.leb scale 2.


(** ** Signing sessions *)

Section Signing.

Context {num : Type} `{JSNumber num}.

(* What a signer does to the fields of a session: the operations on their
   geometry, typing into a text field, confirming the signature modal, and
   removing a field. *)
Inductive Action : Type :=
| Arrange (op : @Op num)
| TypeText (fieldId content : jsstring)
| ConfirmSignature (signerName selectedFont : jsstring)
| RemoveField (fieldId : jsstring).

Definition act (env : Env.t num) (st : State.t num) (a : Action) : State.t num :=
  match a with
  | Arrange op => step env st op
  | TypeText fieldId content =>
      setSignatureFields
        (updateFieldContent fieldId content (State.signatureFields st)) st
  | ConfirmSignature signerName selectedFont =>
      handleConfirm signerName selectedFont st
  | RemoveField fieldId => removeField fieldId st
  end.

Definition signingSession (env : Env.t num) (actions : list Action) : State.t num :=
  List.fold_left (act env) actions initialState.

Definition arranged (actions : list Action) : list (@Op num) :=
  List.flat_map
    (fun a => match a with Arrange op => [op] | _ => [] end) actions.

End Signing.

(* The box of a posted signature, scaled to PDF points with the viewport
   {cw, ch, pw, ph}, lies on the page.  The signature holds the top left
   corner (x, y) of the box in PDF points, where the y axis points up, and
   its width and height in rendered pixels: from its left edge x to its right
   edge x + w * (pw / cw), and from its bottom edge y - h * (ph / ch) to its
   top edge y, the box is inside the page of pw by ph. *)
Definition onPage (cw ch pw ph : Q) (s : Signature.t Ex.t) : Prop :=
  exists x y w h,
    Signature.x s = Ex.Fin x /\ Signature.y s = Ex.Fin y /\
    Signature.width s = Ex.Fin w /\ Signature.height s = Ex.Fin h /\
    0 <= x /\ x <= x + w * (pw / cw) /\ x + w * (pw / cw) <= pw /\
    0 <= y - h * (ph / ch) /\ y - h * (ph / ch) <= y /\ y <= ph.

(* A box whose width and height are not negative. *)
Definition properBox (s : Signature.t Ex.t) : Prop :=
  Ex.le (Ex.Fin 0) (Signature.width s) /\
  Ex.le (Ex.Fin 0) (Signature.height s).

Definition properField (f : SignatureField.t Ex.t) : Prop :=
  Ex.le (Ex.Fin 0) (SignatureField.width f) /\
  Ex.le (Ex.Fin 0) (SignatureField.height f).

(* An operation that is not a resize. *)
Definition noResize (op : @Op Ex.t) : Prop :=
  match op with
  | Resize _ _ _ => False
  | _ => True
  end.

(* The viewport snapshot a field holds. *)
Definition snapshot (cw ch pw ph : Q) (f : SignatureField.t Ex.t) : Prop :=
  SignatureField.canvasWidth f = Some (Ex.Fin cw) /\
  SignatureField.canvasHeight f = Some (Ex.Fin ch) /\
  SignatureField.pdfWidth f = Some (Ex.Fin pw) /\
  SignatureField.pdfHeight f = Some (Ex.Fin ph).


Module Ratchet.

(* Dropping the field of [cornerOps] in the bottom right corner and resizing
   it there, [n] times over, and dropping it once more. *)
Definition cycle : list (@Op float) :=
  [Move Scenario.fieldId 1000 1000; Resize Scenario.fieldId 100 100]%float.

Definition ops (n : nat) : list (@Op float) :=
  Scenario.cornerOps ++ List.concat (List.repeat cycle n)
  ++ [Move Scenario.fieldId 1000 1000]%float.







End Ratchet.

Module ExSigning.

(* A text field typed into, a signature confirmed, a date placed and removed. *)
Definition actions : list (@Action Ex.t) :=
  [Arrange (Place text (ExScenario.click 100 200 "1700000000000"));
   TypeText Scenario.fieldId (str "Jane Doe");
   Arrange (Place signature (ExScenario.click 590 790 "1700000000001"));
   ConfirmSignature (str "J. Doe") (str "helvetica");
   Arrange (Move Scenario.fieldId (Ex.Fin 1000) (Ex.Fin 1000));
   Arrange (Place date (ExScenario.click 5 5 "1700000000002"));
   RemoveField (str "1700000000002");
   Arrange (Resize Scenario.fieldId (Ex.Fin 300) (Ex.Fin 10))].

End ExSigning.

(** * Properties *)

(** ** The binary64 instance *)

(* The literals of the program and some values of Math.round. *)
Lemma F64_literals :
  F64.lit 0.6 = 0x1.3333333333333p-1%float /\
  F64.lit 0.55 = 0x1.199999999999ap-1%float /\
  F64.lit 0.65 = 0x1.4cccccccccccdp-1%float /\
  F64.lit 0.7 = 0x1.6666666666666p-1%float /\
  F64.lit 595 = 595%float.
Proof. repeat split; vm_compute; reflexivity. Qed.

Lemma F64_round_values :
  List.map F64.round [16.5; 0.5; 2.25; -2.5; -3.5; 7.75]%float
  = [17; 1; 2; -2; -3; 8]%float.
Proof. vm_compute; reflexivity. Qed.

(** ** Finalization: the coordinate transform of a field *)

Section FinalizationFacts.

Context {num : Type} `{JSNumber num}.

Lemma or_opt_truthy (v : num) (b : option num) :
  truthy v = true -> or_opt (Some v) b = Some v.
Proof. intros Hv; unfold or_opt; now rewrite Hv. Qed.

Lemma or_num_truthy (v d : num) :
  truthy v = true -> or_num (Some v) d = v.
Proof. intros Hv; unfold or_num; now rewrite Hv. Qed.

Lemma toSignature_stored (env : Env.t num) (field : SignatureField.t num)
    (cw ch pw ph : num) :
  SignatureField.canvasWidth field = Some cw ->
  SignatureField.canvasHeight field = Some ch ->
  SignatureField.pdfWidth field = Some pw ->
  SignatureField.pdfHeight field = Some ph ->
  truthy cw = true -> truthy ch = true ->
  truthy pw = true -> truthy ph = true ->
  toSignature env field =
  Signature.mk (SignatureField.page field)
    (SignatureField.x field * (pw / cw))%js
    (ph - SignatureField.y field * (ph / ch))%js
    (SignatureField.width field) (SignatureField.height field)
    (SignatureField.type field) (SignatureField.content field)
    (SignatureField.font field) (SignatureField.fontSize field).
Proof.
  intros Ecw Ech Epw Eph Tcw Tch Tpw Tph.
  unfold toSignature, finalCanvasWidth, finalCanvasHeight,
    finalPdfWidth, finalPdfHeight.
  rewrite Ecw, Ech, Epw, Eph.
  rewrite !or_opt_truthy by assumption.
  rewrite !or_num_truthy by assumption.
  reflexivity.
Qed.

End FinalizationFacts.

(** C1, as stated, fails: the claim asks only the rendered size of the
    snapshot to be nonzero.  A field placed while pdf-lib is still loading
    the document and dragged afterwards holds the rendered size 600 by 800
    and the native size 0 by 0.  It is complete, and it is finalized with the
    live native size 595 by 842 (with the constants 595 and 842 when there is
    no live measurement): the emitted x is 100 * (595 / 600) and the emitted
    y is 631.5, not 100 * (0 / 600) and 0 - 200 * (0 / 800) (binary64). *)
Lemma finalize_zero_native_size_counterexample :
  Scenario.placedEarly = [Scenario.nativeLost] /\
  SignatureField.canvasWidth Scenario.nativeLost = Some 600%float /\
  SignatureField.canvasHeight Scenario.nativeLost = Some 800%float /\
  SignatureField.pdfWidth Scenario.nativeLost = Some 0%float /\
  SignatureField.pdfHeight Scenario.nativeLost = Some 0%float /\
  truthy 600%float = true /\ truthy 800%float = true /\
  incomplete Scenario.nativeLost = false /\
  Signature.x (toSignature Scenario.env Scenario.nativeLost)
    = (100 * (595 / 600))%float /\
  Signature.y (toSignature Scenario.env Scenario.nativeLost)
    = 631.5%float /\
  toSignature Scenario.unmeasured Scenario.nativeLost
    = toSignature Scenario.env Scenario.nativeLost /\
  PrimFloat.eqb (Signature.x (toSignature Scenario.env Scenario.nativeLost))
                (100 * (0 / 600))%float = false /\
  PrimFloat.eqb (Signature.y (toSignature Scenario.env Scenario.nativeLost))
                (0 - 200 * (0 / 800))%float = false.
Proof. repeat split; vm_compute; reflexivity. Qed.

(** C1, amended: for every field finalized with a stored viewport snapshot
    whose rendered and native width and height are all nonzero numbers, the
    emitted annotation has x = field.x * (nativeWidth / renderedWidth) and
    y = nativeHeight - field.y * (nativeHeight / renderedHeight), and passes
    page, width, height, type, content, font and fontSize through unchanged
    (in any arithmetic).  In particular, in binary64, for the viewport
    {600, 800, 595, 842} a click at (100, 200) places a name field at
    (100, 200) of size 150 by 30, and with the content "Jane Doe" finalization
    posts exactly one annotation, with x = 100 * (595 / 600), which lies
    between 99.16 and 99.18, and y = 631.5. *)
Theorem finalize_emits_transformed_field :
  (forall (num : Type) (N : JSNumber num)
          (env : Env.t num) (field : SignatureField.t num) (cw ch pw ph : num),
      SignatureField.canvasWidth field = Some cw ->
      SignatureField.canvasHeight field = Some ch ->
      SignatureField.pdfWidth field = Some pw ->
      SignatureField.pdfHeight field = Some ph ->
      truthy cw = true -> truthy ch = true ->
      truthy pw = true -> truthy ph = true ->
      toSignature env field =
      Signature.mk (SignatureField.page field)
        (SignatureField.x field * (pw / cw))%js
        (ph - SignatureField.y field * (ph / ch))%js
        (SignatureField.width field) (SignatureField.height field)
        (SignatureField.type field) (SignatureField.content field)
        (SignatureField.font field) (SignatureField.fontSize field))
  /\ State.signatureFields Scenario.placed =
       [SignatureField.mk Scenario.fieldId name 100%float 200%float 1%Z
          150%float 30%float None None
          (Some 600%float) (Some 800%float) (Some 595%float) (Some 842%float)
          (Some 18%float)]
  /\ (exists rest,
        snd (finalizeDocument Scenario.env Scenario.services Scenario.filled) =
        SetFinalizing true
        :: PostSignatures
             [Signature.mk 1%Z (100 * (595 / 600))%float 631.5%float
                150%float 30%float name (Some (str "Jane Doe")) None
                (Some 18%float)]
        :: rest)
  /\ PrimFloat.ltb (F64.lit 99.16%Q) (100 * (595 / 600))%float = true
  /\ PrimFloat.ltb (100 * (595 / 600))%float (F64.lit 99.18%Q) = true
  /\ (842 - 200 * (842 / 800))%float = 631.5%float.
Proof.
  split; [ intros; now apply toSignature_stored | ].
  split; [ vm_compute; reflexivity | ].
  split; [ eexists; vm_compute; reflexivity | ].
  repeat split; vm_compute; reflexivity.
Qed.

Lemma finalize_emits_transformed_field_witness :
  toSignature Scenario.env
    (SignatureField.mk Scenario.fieldId name 100%float 200%float 1%Z
       150%float 30%float (Some (str "Jane Doe")) None
       (Some 600%float) (Some 800%float) (Some 595%float) (Some 842%float)
       (Some 18%float)) =
  Signature.mk 1%Z (100 * (595 / 600))%float (842 - 200 * (842 / 800))%float
    150%float 30%float name (Some (str "Jane Doe")) None (Some 18%float).
Proof.
  apply (proj1 finalize_emits_transformed_field float Float64 Scenario.env
           (SignatureField.mk Scenario.fieldId name 100%float 200%float 1%Z
              150%float 30%float (Some (str "Jane Doe")) None
              (Some 600%float) (Some 800%float) (Some 595%float) (Some 842%float)
              (Some 18%float))
           600%float 800%float 595%float 842%float);
    reflexivity.
Defined.

(** ** Finalization: the dimensions a field is converted with *)

Section Fallback.

Context {num : Type} `{JSNumber num}.

Lemma or_chain_fallsBack (stored live : option num) (constant : num) :
  fallsBack stored live constant (or_num (or_opt stored live) constant).
Proof.
  unfold fallsBack, falsy, or_num, or_opt.
  repeat split.
  - intros v -> Hv. now rewrite Hv, Hv.
  - intros Hs v -> Hv. destruct stored as [s|].
    + now rewrite Hs, Hv.
    + now rewrite Hv.
  - intros Hs Hl. destruct stored as [s|]; [rewrite Hs|];
      (destruct live as [l|]; [now rewrite Hl | reflexivity]).
Qed.

Lemma or_chain_truthy (stored live : option num) (constant : num) :
  truthy constant = true ->
  truthy (or_num (or_opt stored live) constant) = true.
Proof.
  intros Hc. unfold or_num, or_opt.
  destruct stored as [s|].
  - destruct (truthy s) eqn:Hs.
    + now rewrite Hs.
    + destruct live as [l|]; [|assumption].
      destruct (truthy l) eqn:Hl; assumption.
  - destruct live as [l|]; [|assumption].
    destruct (truthy l) eqn:Hl; assumption.
Qed.

End Fallback.

Lemma F64_truthy_nonzero (v : float) :
  F64.truthy v = true ->
  PrimFloat.eqb v 0%float = false /\ F64.is_nan v = false.
Proof.
  unfold F64.truthy. intros Hv.
  apply andb_true_iff in Hv. destruct Hv as [Hz Hn].
  apply negb_true_iff in Hz. apply negb_true_iff in Hn.
  split; assumption.
Qed.

(** C9: at finalization each of the four dimensions of a field is the stored
    one when it is there and not zero, else the live measurement of the
    canvas or of the PDF page when it is there and not zero, else 595
    (widths) or 842 (heights); so each of the four is a nonzero number, and
    the emitted x and y are field.x * (pdfWidth / canvasWidth) and
    pdfHeight - field.y * (pdfHeight / canvasHeight) over these, with
    divisors that are never zero (binary64). *)
Theorem finalize_divides_by_nonzero_dimensions :
  forall (env : Env.t float) (field : SignatureField.t float),
    fallsBack (SignatureField.canvasWidth field)
              (option_map (@Rect.width float) (getPdfCanvasBounds env))
              595%float (finalCanvasWidth env field) /\
    fallsBack (SignatureField.canvasHeight field)
              (option_map (@Rect.height float) (getPdfCanvasBounds env))
              842%float (finalCanvasHeight env field) /\
    fallsBack (SignatureField.pdfWidth field)
              (option_map (@Size.width float) (getPdfPageDimensions env))
              595%float (finalPdfWidth env field) /\
    fallsBack (SignatureField.pdfHeight field)
              (option_map (@Size.height float) (getPdfPageDimensions env))
              842%float (finalPdfHeight env field) /\
    (PrimFloat.eqb (finalCanvasWidth env field) 0%float = false /\
     F64.is_nan (finalCanvasWidth env field) = false) /\
    (PrimFloat.eqb (finalCanvasHeight env field) 0%float = false /\
     F64.is_nan (finalCanvasHeight env field) = false) /\
    (PrimFloat.eqb (finalPdfWidth env field) 0%float = false /\
     F64.is_nan (finalPdfWidth env field) = false) /\
    (PrimFloat.eqb (finalPdfHeight env field) 0%float = false /\
     F64.is_nan (finalPdfHeight env field) = false) /\
    Signature.x (toSignature env field) =
      (SignatureField.x field
       * (finalPdfWidth env field / finalCanvasWidth env field))%float /\
    Signature.y (toSignature env field) =
      (finalPdfHeight env field
       - SignatureField.y field
         * (finalPdfHeight env field / finalCanvasHeight env field))%float.
Proof.
  intros env field.
  repeat match goal with
         | |- fallsBack _ _ _ _ /\ _ => split; [ apply or_chain_fallsBack | ]
         end.
  repeat match goal with
         | |- (PrimFloat.eqb _ _ = false /\ _) /\ _ =>
             split; [ apply F64_truthy_nonzero;
                      apply (or_chain_truthy (H := Float64)); reflexivity | ]
         end.
  split; reflexivity.
Qed.

(** ** Finalization: the guard *)

Section Guard.

Context {num : Type} `{JSNumber num}.

Lemma string_eqb_nil (s : jsstring) : string_eqb s [] = true <-> s = [].
Proof. destruct s; simpl; split; intros E; congruence. Qed.

Lemma incomplete_blank (field : SignatureField.t num) :
  incomplete field = true <-> blank field.
Proof.
  unfold incomplete, blank, truthy_str.
  destruct (SignatureField.content field) as [[|c s]|]; simpl.
  - split; reflexivity.
  - apply string_eqb_nil.
  - split; trivial.
Qed.

End Guard.

(** C5: finalization is rejected whenever there is no field or some field has
    a content that is empty after trimming: all it does is show one error
    message; nothing is posted to the rendering backend, and the state of the
    session, its fields and its finalizing flag included, is left as it
    was. *)
Theorem finalize_rejects_incomplete :
  forall (num : Type) (N : JSNumber num)
         (env : Env.t num) (svc : Services) (st : State.t num),
    State.signatureFields st = [] \/
    (exists field, In field (State.signatureFields st) /\ blank field) ->
    exists msg, finalizeDocument env svc st = (st, [ToastError msg]).
Proof.
  intros num N env svc st Hrej. unfold finalizeDocument.
  destruct (State.signatureFields st) as [|f0 fs] eqn:Efields.
  - eexists; reflexivity.
  - destruct Hrej as [Hnil | [field [Hin Hblank]]]; [discriminate|].
    cbn [List.length Nat.eqb].
    assert (Hfil : In field (List.filter incomplete (f0 :: fs))).
    { apply filter_In. split; [assumption | now apply incomplete_blank]. }
    destruct (List.filter incomplete (f0 :: fs)) as [|g gs]; [destruct Hfil|].
    eexists; reflexivity.
Qed.

Lemma finalize_rejects_incomplete_witness :
  exists msg,
    finalizeDocument Scenario.env Scenario.services Scenario.placed
    = (Scenario.placed, [ToastError msg]).
Proof.
  apply (finalize_rejects_incomplete Float64 Scenario.env Scenario.services
           Scenario.placed).
  right. eexists. split; [left; reflexivity | exact I].
Defined.

(** ** The transform on a canvas without size *)

(** C4, at the failing input: a canvas that is there but measures 0 by 0.
    The guard of convertToAbsoluteCoordinates tests only that the bounds and
    the page size exist, so the scale factors are 595 / 0 and 842 / 0.  A
    click at the origin of such a canvas in name mode passes the test of the
    canvas bounds, the transform is called for the point
    (min(0, 0 - 150 - 10), min(0, 0 - 30 - 10)) = (-160, -40) and returns
    x = -Infinity and y = Infinity, and the field is stored with the canvas
    size 0 by 0; for the point (0, 0) the transform returns NaN for both
    (binary64). *)
Theorem convert_on_empty_canvas_is_not_finite :
  convertToAbsoluteCoordinates (Scenario.viewport 0 0) (-160)%float (-40)%float
  = Absolute.mk neg_infinity infinity 0%float 0%float 595%float 842%float /\
  (math_min 0 (0 - 150 - 10))%float = (-160)%float /\
  (math_min 0 (0 - 30 - 10))%float = (-40)%float /\
  State.signatureFields
    (run (Scenario.viewport 0 0)
         [Place name (Scenario.click 0 0 "1700000000000")] initialState)
  = [SignatureField.mk Scenario.fieldId name 0%float 0%float 1%Z
       150%float 30%float None None
       (Some 0%float) (Some 0%float) (Some 595%float) (Some 842%float)
       (Some 18%float)] /\
  F64.is_nan
    (Absolute.absoluteX
       (convertToAbsoluteCoordinates (Scenario.viewport 0 0) 0%float 0%float))
  = true /\
  F64.is_nan
    (Absolute.absoluteY
       (convertToAbsoluteCoordinates (Scenario.viewport 0 0) 0%float 0%float))
  = true.
Proof. repeat split; vm_compute; reflexivity. Qed.

(** ** The font size of a field without content *)

(** C7, at the failing input: an empty text field of 60 by 30 whose input
    receives a single space.  updateFieldContent stores the content '' and
    passes its length, 0, to calculateDynamicFontSize, so the width fit never
    applies and the font size becomes 17; with the nominal length 10 it is 8,
    which is what handleFieldResize computes for the same empty field and the
    same box (binary64). *)
Theorem updateFieldContent_empty_uses_length_zero :
  updateFieldContent Scenario.fieldId (str " ") [Scenario.narrowText]
  = [withContent Scenario.narrowText [] 17%float] /\
  calculateDynamicFontSize 60%float 30%float text (of_nat 0) = 17%float /\
  calculateDynamicFontSize 60%float 30%float text (of_nat 10) = 8%float /\
  handleFieldResize Scenario.env Scenario.fieldId 60%float 30%float
    [Scenario.narrowText]
  = [withSize Scenario.narrowText 60%float 30%float 8%float].
Proof. repeat split; vm_compute; reflexivity. Qed.

(** ** Resizing: the minimum size *)

(** *** The order of binary64 *)

Lemma SFcompare_antisym (a b : spec_float) (c : comparison) :
  SFcompare a b = Some c -> SFcompare b a = Some (CompOpp c).
Proof.
  destruct a as [sa|sa| |sa ma ea], b as [sb|sb| |sb mb eb]; simpl;
    try discriminate;
    try (destruct sa; intros E; injection E as <-; reflexivity);
    try (destruct sb; intros E; injection E as <-; reflexivity);
    try (destruct sa, sb; intros E; injection E as <-; reflexivity).
  destruct sa, sb; intros E; injection E as <-; try reflexivity;
    rewrite (Z.compare_antisym ea eb);
    destruct (ea ?= eb)%Z; simpl; try reflexivity; f_equal.
  - rewrite CompOpp_involutive.
    now rewrite (Pos.compare_cont_antisym mb ma Eq).
  - now rewrite (Pos.compare_cont_antisym ma mb Eq).
Qed.

Lemma F64_ltb_asym (a b : float) :
  PrimFloat.ltb a b = true -> PrimFloat.ltb b a = false.
Proof.
  rewrite !FloatAxioms.ltb_spec. unfold SFltb.
  destruct (SFcompare (Prim2SF a) (Prim2SF b)) as [[]|] eqn:E; try discriminate.
  intros _. now rewrite (@SFcompare_antisym _ _ _ E).
Qed.

Lemma F64_leb_not_ltb (a b : float) :
  PrimFloat.leb a b = true -> PrimFloat.ltb b a = false.
Proof.
  rewrite FloatAxioms.leb_spec, FloatAxioms.ltb_spec. unfold SFleb, SFltb.
  destruct (SFcompare (Prim2SF a) (Prim2SF b)) as [[]|] eqn:E; try discriminate;
    intros _; now rewrite (@SFcompare_antisym _ _ _ E).
Qed.

Lemma F64_nan_not_ltb (a b : float) :
  F64.is_nan a = true -> PrimFloat.ltb a b = false.
Proof.
  unfold F64.is_nan. rewrite FloatAxioms.eqb_spec, FloatAxioms.ltb_spec. unfold SFeqb, SFltb.
  destruct (SFcompare (Prim2SF a) (Prim2SF a)) as [c|] eqn:E.
  - pose proof (@SFcompare_antisym _ _ _ E) as E'. rewrite E in E'.
    destruct c; simpl in *; discriminate.
  - intros _. destruct (Prim2SF a) as [s|s| |s m e]; simpl in *;
      try discriminate; try reflexivity.
Qed.

Lemma F64_ltb_irrefl (c : float) : PrimFloat.ltb c c = false.
Proof.
  destruct (PrimFloat.ltb c c) eqn:Hcc; [|reflexivity].
  pose proof (@F64_ltb_asym _ _ Hcc); congruence.
Qed.

Lemma F64_max_not_below (c v : float) :
  F64.is_nan c = false ->
  PrimFloat.ltb (F64.max c v) c = false.
Proof.
  intros Hc. unfold F64.max. rewrite Hc.
  destruct (F64.is_nan v) eqn:Hv; [now apply F64_nan_not_ltb|].
  destruct (PrimFloat.ltb c v) eqn:Hcv; [now apply F64_ltb_asym|].
  destruct (PrimFloat.ltb v c) eqn:Hvc.
  - destruct (PrimFloat.ltb c c) eqn:Hcc; [|reflexivity].
    pose proof (@F64_ltb_asym _ _ Hcc); congruence.
  - destruct (get_sign c); [assumption|].
    destruct (PrimFloat.ltb c c) eqn:Hcc; [|reflexivity].
    pose proof (@F64_ltb_asym _ _ Hcc); congruence.
Qed.

Lemma F64_min_not_below (a b c : float) :
  PrimFloat.ltb a c = false ->
  PrimFloat.ltb b c = false ->
  PrimFloat.ltb (F64.min a b) c = false.
Proof.
  intros Ha Hb. unfold F64.min.
  repeat match goal with |- context [if ?t then _ else _] => destruct t end;
    assumption.
Qed.

(** C6: the code does not keep the minimum size its own comments name
    (Min 60px, Min 20px).  handleFieldResize computes
    min(max(60, newWidth), renderedWidth - x - 10): the canvas bound is
    applied after the minimum, and the drag handler lets a field come within
    5 pixels of the edge.  A name field is resized to 60 by 20, dropped at
    (1000, 1000), which the drag handler bounds to (535, 775), and resized to
    100 by 100: the room left is 600 - 535 - 10 = 55 by 800 - 775 - 10 = 15,
    and the resize leaves a box of 55 by 15.  Every further drop in the
    corner and resize takes 5 pixels more: after thirteen more rounds the box
    is -10 by -50 and the field is dropped at (605, 845), outside the 600 by
    800 canvas (binary64; every value is an integer). *)
Theorem resize_goes_below_minimum_size :
  (exists f,
     State.signatureFields
       (run Scenario.env (List.firstn 3 Scenario.cornerOps) initialState) = [f] /\
     SignatureField.x f = 535%float /\ SignatureField.y f = 775%float /\
     SignatureField.width f = 60%float /\ SignatureField.height f = 20%float) /\
  (exists f,
     State.signatureFields
       (run Scenario.env Scenario.cornerOps initialState) = [f] /\
     SignatureField.width f = 55%float /\ SignatureField.height f = 15%float /\
     PrimFloat.ltb (SignatureField.width f) 60%float = true /\
     PrimFloat.ltb (SignatureField.height f) 20%float = true) /\
  (exists f,
     State.signatureFields
       (run Scenario.env (Ratchet.ops 13) initialState) = [f] /\
     SignatureField.width f = (-10)%float /\
     SignatureField.height f = (-50)%float /\
     SignatureField.x f = 605%float /\ SignatureField.y f = 845%float).
Proof.
  repeat apply conj; eexists; (split; [vm_compute; reflexivity|]);
    repeat split; vm_compute; reflexivity.
Qed.

(* Where there is room, the minimum is kept: when renderedWidth - x - 10 and
   renderedHeight - y - 10 are at least 60 and 20, the result of a resize is
   not below 60 by 20 (binary64). *)
Lemma resize_keeps_minimum_size_given_room :
  forall (canvasBounds : Rect.t float) (newWidth newHeight : float)
         (field : SignatureField.t float),
    (60 <=? Rect.width canvasBounds - SignatureField.x field - 10)%float = true ->
    (20 <=? Rect.height canvasBounds - SignatureField.y field - 10)%float = true ->
    (SignatureField.width
       (resizeField canvasBounds newWidth newHeight field) <? 60)%float = false /\
    (SignatureField.height
       (resizeField canvasBounds newWidth newHeight field) <? 20)%float = false.
Proof.
  intros cb nw nh field Hw Hh. simpl.
  split; apply F64_min_not_below;
    try (apply F64_max_not_below; reflexivity);
    now apply F64_leb_not_ltb.
Qed.

Lemma resize_keeps_minimum_size_given_room_witness :
  PrimFloat.ltb
    (SignatureField.width
       (resizeField (Rect.mk 0 0 600 800)%float 10%float 5%float
          Scenario.narrowText)) 60%float = false /\
  PrimFloat.ltb
    (SignatureField.height
       (resizeField (Rect.mk 0 0 600 800)%float 10%float 5%float
          Scenario.narrowText)) 20%float = false.
Proof.
  apply (@resize_keeps_minimum_size_given_room
           (Rect.mk 0 0 600 800)%float 10%float 5%float Scenario.narrowText);
    reflexivity.
Defined.

(** ** Exact arithmetic *)

Lemma Qltb_spec (a b : Q) : reflect (a < b) (Ex.Qltb a b).
Proof.
  unfold Ex.Qltb. destruct (a ?= b) eqn:E; constructor.
  - apply Qeq_alt in E. lra.
  - now apply Qlt_alt.
  - apply Qgt_alt in E. lra.
Qed.

Lemma Qeq_bool_spec (a b : Q) : reflect (a == b) (Qeq_bool a b).
Proof.
  destruct (Qeq_bool a b) eqn:E; constructor.
  - now apply Qeq_bool_iff.
  - now apply Qeq_bool_neq.
Qed.

Ltac qcases :=
  repeat match goal with
         | |- context [Ex.Qltb ?a ?b] => destruct (Qltb_spec a b)
         | |- context [Qeq_bool ?a ?b] => destruct (Qeq_bool_spec a b)
         | H : context [Ex.Qltb ?a ?b] |- _ => destruct (Qltb_spec a b)
         | H : context [Qeq_bool ?a ?b] |- _ => destruct (Qeq_bool_spec a b)
         end.

Ltac exsimpl :=
  unfold Ex.sub, Ex.inf_signed;
  cbn [Ex.mul Ex.div Ex.add Ex.opp Ex.min Ex.max Ex.ltb Ex.round Ex.le Ex.eq].

Ltac exsolve := repeat (exsimpl; qcases; try lra; try contradiction).

(** ** Zoom *)

(** C2, as stated, fails in the arithmetic of the program: for the viewport
    {600, 800, 595, 842}, the point (100, 200) and k = 3, the scaled point
    (300, 600) under the viewport {1800, 2400, 595, 842} is sent to
    x = 300 * (595 / 1800), which is not the binary64 number
    100 * (595 / 600) the unscaled point is sent to: the two quotients are
    rounded separately. *)
Lemma zoom_changes_binary64_result_counterexample :
  PrimFloat.ltb 0 3 = true /\
  measures Scenario.env 600%float 800%float 595%float 842%float /\
  measures (Scenario.viewport (3 * 600) (3 * 800))
    (3 * 600)%float (3 * 800)%float 595%float 842%float /\
  Absolute.absoluteX
    (convertToAbsoluteCoordinates (Scenario.viewport (3 * 600) (3 * 800))
       (3 * 100)%float (3 * 200)%float) = (300 * (595 / 1800))%float /\
  Absolute.absoluteX
    (convertToAbsoluteCoordinates Scenario.env 100%float 200%float)
  = (100 * (595 / 600))%float /\
  PrimFloat.eqb
    (Absolute.absoluteX
       (convertToAbsoluteCoordinates (Scenario.viewport (3 * 600) (3 * 800))
          (3 * 100)%float (3 * 200)%float))
    (Absolute.absoluteX
       (convertToAbsoluteCoordinates Scenario.env 100%float 200%float))
  = false /\
  PrimFloat.ltb (300 * (595 / 1800))%float (100 * (595 / 600))%float = true.
Proof.
  split; [vm_compute; reflexivity|].
  split; [do 2 eexists; repeat split; vm_compute; reflexivity|].
  split; [do 2 eexists; repeat split; vm_compute; reflexivity|].
  repeat split; vm_compute; reflexivity.
Qed.

(** C2, amended: in exact arithmetic (binary64 without rounding), for every
    point (px, py), every viewport with nonzero rendered dimensions and every
    scale factor k > 0, the transform sends (k*px, k*py) under the viewport
    with renderedWidth and renderedHeight multiplied by k to the same (X, Y)
    as (px, py) under the viewport itself.  (In binary64 the two results
    can differ, as they do for k = 3 above.) *)
Theorem zoom_invariant_in_exact_arithmetic :
  forall (env env' : Env.t Ex.t) (px py k rw rh nw nh : Q),
    0 < k -> ~ rw == 0 -> ~ rh == 0 ->
    measures env (Ex.Fin rw) (Ex.Fin rh) (Ex.Fin nw) (Ex.Fin nh) ->
    measures env' (Ex.Fin (k * rw)) (Ex.Fin (k * rh)) (Ex.Fin nw) (Ex.Fin nh) ->
    Ex.eq (Absolute.absoluteX
             (convertToAbsoluteCoordinates env' (Ex.Fin (k * px)) (Ex.Fin (k * py))))
          (Absolute.absoluteX
             (convertToAbsoluteCoordinates env (Ex.Fin px) (Ex.Fin py))) /\
    Ex.eq (Absolute.absoluteY
             (convertToAbsoluteCoordinates env' (Ex.Fin (k * px)) (Ex.Fin (k * py))))
          (Absolute.absoluteY
             (convertToAbsoluteCoordinates env (Ex.Fin px) (Ex.Fin py))).
Proof.
  intros env env' px py k rw rh nw nh Hk Hrw Hrh
    (cb & pd & Ecb & Epd & Ew & Eh & Enw & Enh)
    (cb' & pd' & Ecb' & Epd' & Ew' & Eh' & Enw' & Enh').
  unfold convertToAbsoluteCoordinates.
  rewrite Ecb, Epd, Ecb', Epd'. cbn [Absolute.absoluteX Absolute.absoluteY].
  rewrite Ew, Eh, Enw, Enh, Ew', Eh', Enw', Enh'.
  cbn [div mul sub Exact Ex.div Ex.mul Ex.sub Ex.add Ex.opp].
  assert (Hkw : ~ k * rw == 0) by (intros E; apply Qmult_integral in E; destruct E; lra).
  assert (Hkh : ~ k * rh == 0) by (intros E; apply Qmult_integral in E; destruct E; lra).
  qcases; try contradiction.
  cbn [Ex.mul Ex.add Ex.opp Ex.eq].
  split; field; repeat split; lra.
Qed.


Lemma zoom_invariant_in_exact_arithmetic_witness :
  Ex.eq (Absolute.absoluteX
           (convertToAbsoluteCoordinates (ExScenario.viewport (3 * 600) (3 * 800))
              (Ex.Fin (3 * 100)) (Ex.Fin (3 * 200))))
        (Absolute.absoluteX
           (convertToAbsoluteCoordinates (ExScenario.viewport 600 800)
              (Ex.Fin 100) (Ex.Fin 200))) /\
  Ex.eq (Absolute.absoluteY
           (convertToAbsoluteCoordinates (ExScenario.viewport (3 * 600) (3 * 800))
              (Ex.Fin (3 * 100)) (Ex.Fin (3 * 200))))
        (Absolute.absoluteY
           (convertToAbsoluteCoordinates (ExScenario.viewport 600 800)
              (Ex.Fin 100) (Ex.Fin 200))).
Proof.
  apply (@zoom_invariant_in_exact_arithmetic
           (ExScenario.viewport 600 800) (ExScenario.viewport (3 * 600) (3 * 800))
           100 200 3 600 800 595 842).
  - reflexivity.
  - unfold Qeq; simpl; lia.
  - unfold Qeq; simpl; lia.
  - do 2 eexists; repeat split; reflexivity.
  - do 2 eexists; repeat split; reflexivity.
Defined.

(** ** The font size and the height of the box *)

(** C8, as stated, fails in the arithmetic of the program: for a signature
    field of width 118.89999999999999 (0x1.db99999999999p+6) and a content of
    7 characters, the height 35 gives the base size 24.5, whose estimated text
    width 7 * (24.5 * 0.6) does not exceed width - 16, and the font size is
    Math.round(24.5) = 25; the height 36 gives the base size 25.2, which is
    too wide, and the width fit (width - 16) / (7 * 0.6) is rounded to
    24.499999999999996, so the font size is 24. *)
Lemma font_size_not_monotone_in_binary64_counterexample :
  PrimFloat.leb 35 36 = true /\
  calculateDynamicFontSize 0x1.db99999999999p+6%float 35%float signature (of_nat 7)
  = 25%float /\
  calculateDynamicFontSize 0x1.db99999999999p+6%float 36%float signature (of_nat 7)
  = 24%float /\
  PrimFloat.ltb
    (calculateDynamicFontSize 0x1.db99999999999p+6%float 36%float signature (of_nat 7))
    (calculateDynamicFontSize 0x1.db99999999999p+6%float 35%float signature (of_nat 7))
  = true.
Proof. repeat split; vm_compute; reflexivity. Qed.

Lemma clamp_height_mono (lo c hi : Q) (h1 h2 : Ex.t) :
  0 < c -> lo <= hi -> Ex.le h1 h2 ->
  exists b1 b2,
    Ex.max (Ex.Fin lo) (Ex.min (Ex.mul h1 (Ex.Fin c)) (Ex.Fin hi)) = Ex.Fin b1 /\
    Ex.max (Ex.Fin lo) (Ex.min (Ex.mul h2 (Ex.Fin c)) (Ex.Fin hi)) = Ex.Fin b2 /\
    lo <= b1 /\ b1 <= b2 /\ b2 <= hi.
Proof.
  intros Hc Hlh Hle.
  destruct h1 as [q1| | |], h2 as [q2| | |]; simpl in Hle; try contradiction;
    try (assert (Hm : q1 * c <= q2 * c) by (apply Qmult_le_compat_r; lra));
    exsolve;
    do 2 eexists; (split; [reflexivity|]); (split; [reflexivity|]); lra.
Qed.

Lemma fit_width_mono (w : Ex.t) (N r b1 b2 : Q) :
  0 <= N -> 0 < r -> 8 <= b1 -> b1 <= b2 ->
  exists a1 a2,
    (if Ex.ltb (Ex.sub w (Ex.Fin 16)) (Ex.mul (Ex.Fin N) (Ex.mul (Ex.Fin b1) (Ex.Fin r)))
     then Ex.max (Ex.Fin 8) (Ex.div (Ex.sub w (Ex.Fin 16)) (Ex.mul (Ex.Fin N) (Ex.Fin r)))
     else Ex.Fin b1) = Ex.Fin a1 /\
    (if Ex.ltb (Ex.sub w (Ex.Fin 16)) (Ex.mul (Ex.Fin N) (Ex.mul (Ex.Fin b2) (Ex.Fin r)))
     then Ex.max (Ex.Fin 8) (Ex.div (Ex.sub w (Ex.Fin 16)) (Ex.mul (Ex.Fin N) (Ex.Fin r)))
     else Ex.Fin b2) = Ex.Fin a2 /\
    a1 <= a2.
Proof.
  intros HN Hr Hb1 Hb12.
  assert (Hd : 0 <= N * r) by (apply Qmult_le_0_compat; lra).
  assert (H1 : N * (b1 * r) == b1 * (N * r)) by ring.
  assert (H2 : N * (b2 * r) == b2 * (N * r)) by ring.
  assert (Hmono : b1 * (N * r) <= b2 * (N * r))
    by (apply Qmult_le_compat_r; lra).
  destruct w as [q| | |]; exsimpl.
  - destruct (Qeq_bool_spec (N * r) 0) as [Hz|Hz].
    + rewrite Hz in H1, H2.
      destruct (Qltb_spec (q + - (16)) (N * (b1 * r))),
               (Qltb_spec (q + - (16)) (N * (b2 * r))); try lra;
        exsolve; do 2 eexists; (split; [reflexivity|]);
        (split; [reflexivity|]); lra.
    + assert (Hpos : 0 < N * r) by lra.
      destruct (Qltb_spec (q + - (16)) (N * (b1 * r))),
               (Qltb_spec (q + - (16)) (N * (b2 * r))); try lra;
        exsimpl;
        try (assert (HbW : b1 <= (q + - (16)) / (N * r))
              by (apply Qle_shift_div_l; lra));
        qcases; do 2 eexists; (split; [reflexivity|]);
        (split; [reflexivity|]); lra.
  - do 2 eexists; (split; [reflexivity|]); (split; [reflexivity|]); lra.
  - destruct (Qltb_spec (N * r) 0); [lra|]. exsimpl.
    do 2 eexists; (split; [reflexivity|]); (split; [reflexivity|]); lra.
  - do 2 eexists; (split; [reflexivity|]); (split; [reflexivity|]); lra.
Qed.

Lemma round_mono (a1 a2 : Q) :
  a1 <= a2 -> Ex.le (Ex.round (Ex.Fin a1)) (Ex.round (Ex.Fin a2)).
Proof.
  intros Ha. cbn [Ex.round Ex.le].
  rewrite <- Zle_Qle. apply Qfloor_resp_le. lra.
Qed.

Lemma font_fit_mono (lo c hi N r : Q) (w h1 h2 : Ex.t) :
  0 < c -> 8 <= lo -> lo <= hi -> 0 <= N -> 0 < r -> Ex.le h1 h2 ->
  Ex.le
    (Ex.round
       (if Ex.ltb (Ex.sub w (Ex.Fin 16))
             (Ex.mul (Ex.Fin N)
                (Ex.mul (Ex.max (Ex.Fin lo) (Ex.min (Ex.mul h1 (Ex.Fin c)) (Ex.Fin hi)))
                        (Ex.Fin r)))
        then Ex.max (Ex.Fin 8) (Ex.div (Ex.sub w (Ex.Fin 16)) (Ex.mul (Ex.Fin N) (Ex.Fin r)))
        else Ex.max (Ex.Fin lo) (Ex.min (Ex.mul h1 (Ex.Fin c)) (Ex.Fin hi))))
    (Ex.round
       (if Ex.ltb (Ex.sub w (Ex.Fin 16))
             (Ex.mul (Ex.Fin N)
                (Ex.mul (Ex.max (Ex.Fin lo) (Ex.min (Ex.mul h2 (Ex.Fin c)) (Ex.Fin hi)))
                        (Ex.Fin r)))
        then Ex.max (Ex.Fin 8) (Ex.div (Ex.sub w (Ex.Fin 16)) (Ex.mul (Ex.Fin N) (Ex.Fin r)))
        else Ex.max (Ex.Fin lo) (Ex.min (Ex.mul h2 (Ex.Fin c)) (Ex.Fin hi)))).
Proof.
  intros Hc Hlo Hlh HN Hr Hle.
  destruct (@clamp_height_mono lo c hi h1 h2 Hc Hlh Hle)
    as (b1 & b2 & -> & -> & Hb1 & Hb & Hb2).
  destruct (@fit_width_mono w N r b1 b2 HN Hr) as (a1 & a2 & -> & -> & Ha);
    [lra | assumption | now apply round_mono].
Qed.

(** C8, amended: in exact arithmetic (binary64 without rounding), for every
    field type, every box width and content length, and every pair of box
    heights h1 <= h2, the font size computed for h1 is at most the font size
    computed for h2.  (In binary64 the rounding of the width fit can take the
    size of the higher box below a half that the lower box reaches.) *)
Theorem font_size_monotone_in_height :
  forall (type : FieldType) (width : Ex.t) (contentLength : nat) (h1 h2 : Ex.t),
    Ex.le h1 h2 ->
    Ex.le (calculateDynamicFontSize width h1 type (of_nat contentLength))
          (calculateDynamicFontSize width h2 type (of_nat contentLength)).
Proof.
  intros type width n h1 h2 Hle.
  assert (HN : 0 <= inject_Z (Z.of_nat n)).
  { change 0 with (inject_Z 0). rewrite <- Zle_Qle. lia. }
  unfold calculateDynamicFontSize, of_nat.
  cbn [lit mul sub div ltb math_max math_min math_round Exact].
  destruct type; apply font_fit_mono;
    try assumption; try reflexivity; discriminate.
Qed.

Lemma font_size_monotone_in_height_witness :
  Ex.le (calculateDynamicFontSize (Ex.Fin 120) (Ex.Fin 20) text (of_nat 5))
        (calculateDynamicFontSize (Ex.Fin 120) (Ex.Fin 30) text (of_nat 5)).
Proof.
  apply (@font_size_monotone_in_height text (Ex.Fin 120) 5 (Ex.Fin 20) (Ex.Fin 30)).
  unfold Ex.le, Qle; simpl; lia.
Defined.

(** ** Containment *)



Lemma clamp_position (d cw w p : Q) :
  0 <= p -> w <= cw ->
  exists x,
    Ex.max (Ex.Fin 0) (Ex.min (Ex.Fin d) (Ex.sub (Ex.sub (Ex.Fin cw) (Ex.Fin w)) (Ex.Fin p)))
    = Ex.Fin x /\ 0 <= x /\ x + w <= cw.
Proof.
  intros Hp Hw. exsolve; eexists; (split; [reflexivity|]); lra.
Qed.

Lemma clamp_size (lo n cw x : Q) :
  exists w,
    Ex.min (Ex.max (Ex.Fin lo) (Ex.Fin n)) (Ex.sub (Ex.sub (Ex.Fin cw) (Ex.Fin x)) (Ex.Fin 10))
    = Ex.Fin w /\ x + w <= cw.
Proof.
  exsolve; eexists; (split; [reflexivity|]); lra.
Qed.

Lemma string_eqb_eq (a b : jsstring) : string_eqb a b = true <-> a = b.
Proof.
  revert b. induction a as [|c a IH]; intros [|d b]; simpl;
    try (split; congruence).
  rewrite andb_true_iff, N.eqb_eq, IH. split.
  - intros [-> ->]; reflexivity.
  - intros E; injection E; auto.
Qed.

Lemma NoDup_map_eq {A B} (g : A -> B) (l : list A) (a b : A) :
  NoDup (List.map g l) -> In a l -> In b l -> g a = g b -> a = b.
Proof.
  induction l as [|c l IH]; simpl; intros Hnd Ha Hb E; [contradiction|].
  inversion Hnd as [|? ? Hnotin Hnd']; subst.
  destruct Ha as [<-|Ha], Hb as [<-|Hb]; auto.
  - exfalso. apply Hnotin. rewrite E. now apply in_map.
  - exfalso. apply Hnotin. rewrite <- E. now apply in_map.
Qed.

Section Step.

Variable env : Env.t Ex.t.
Variables cw ch : Q.
Hypothesis Henv : measuredCanvas env cw ch.

Lemma measured_bounds :
  exists pl pt pw ph cl ct,
    Env.pageRect env = Some (Rect.mk (Ex.Fin pl) (Ex.Fin pt) pw ph) /\
    getPdfCanvasBounds env = Some (Rect.mk (Ex.Fin cl) (Ex.Fin ct) (Ex.Fin cw) (Ex.Fin ch)).
Proof.
  destruct Henv as (pl & pt & pw & ph & cl & ct & Ep & Ec).
  exists pl, pt, pw, ph, cl, ct. split; [assumption|].
  unfold getPdfCanvasBounds. now rewrite Ep.
Qed.

Lemma resize_inside (fieldId : jsstring) (nw nh : Ex.t)
    (fields : list (SignatureField.t Ex.t)) :
  Ex.finite nw -> Ex.finite nh ->
  Forall (inside cw ch) fields ->
  Forall (inside cw ch) (handleFieldResize env fieldId nw nh fields).
Proof.
  intros Hnw Hnh Hall.
  destruct measured_bounds as (pl & pt & pw & ph & cl & ct & _ & Ecb).
  unfold handleFieldResize. rewrite Ecb.
  apply Forall_map. revert Hall. apply Forall_impl. intros f Hf.
  destruct (string_eqb (SignatureField.id f) fieldId); [|assumption].
  destruct Hf as (x & y & w & h & Ex & Ey & Ew & Eh & Hx & Hy & Hw & Hh).
  destruct nw as [qw| | |], nh as [qh| | |]; try contradiction.
  unfold resizeField, inside.
  cbn [withSize SignatureField.x SignatureField.y SignatureField.width
       SignatureField.height Rect.width Rect.height].
  rewrite Ex, Ey.
  cbn [lit sub math_min math_max Exact].
  destruct (clamp_size 60 qw cw x) as (w' & -> & Hw').
  destruct (clamp_size 20 qh ch y) as (h' & -> & Hh').
  exists x, y, w', h'. repeat split; assumption.
Qed.

Lemma resize_ids (fieldId : jsstring) (nw nh : Ex.t)
    (fields : list (SignatureField.t Ex.t)) :
  List.map (@SignatureField.id _) (handleFieldResize env fieldId nw nh fields)
  = List.map (@SignatureField.id _) fields.
Proof.
  unfold handleFieldResize. destruct (getPdfCanvasBounds env); [|reflexivity].
  rewrite map_map. apply map_ext. intros f.
  now destruct (string_eqb (SignatureField.id f) fieldId).
Qed.

Lemma drag_inside (fieldId : jsstring) (dx dy : Ex.t)
    (fields : list (SignatureField.t Ex.t)) :
  Ex.finite dx -> Ex.finite dy ->
  NoDup (List.map (@SignatureField.id _) fields) ->
  Forall (inside cw ch) fields ->
  Forall (inside cw ch) (handleFieldDrag env fieldId dx dy fields).
Proof.
  intros Hdx Hdy Hnd Hall.
  destruct measured_bounds as (pl & pt & pw & ph & cl & ct & _ & Ecb).
  unfold handleFieldDrag. rewrite Ecb.
  destruct (find _ fields) as [field|] eqn:Efind; [|assumption].
  apply find_some in Efind. destruct Efind as [Hin Hid].
  apply string_eqb_eq in Hid.
  apply Forall_map. apply Forall_forall. intros f Hf.
  rewrite Forall_forall in Hall.
  destruct (string_eqb (SignatureField.id f) fieldId) eqn:Ef; [|now apply Hall].
  apply string_eqb_eq in Ef.
  assert (f = field) as -> by (apply (@NoDup_map_eq _ _ _ _ _ _ Hnd Hf Hin); congruence).
  destruct (Hall _ Hin) as (x & y & w & h & Ex & Ey & Ew & Eh & Hx & Hy & Hw & Hh).
  destruct dx as [qx| | |], dy as [qy| | |]; try contradiction.
  unfold inside.
  cbn [withPosition SignatureField.x SignatureField.y SignatureField.width
       SignatureField.height Rect.width Rect.height].
  rewrite Ew, Eh.
  cbn [lit sub math_min math_max Exact].
  destruct (@clamp_position qx cw w 5) as (x' & -> & Hx0 & Hx'); [lra|lra|].
  destruct (@clamp_position qy ch h 5) as (y' & -> & Hy0 & Hy'); [lra|lra|].
  exists x', y', w, h. repeat split; assumption.
Qed.

Lemma drag_ids (fieldId : jsstring) (dx dy : Ex.t)
    (fields : list (SignatureField.t Ex.t)) :
  List.map (@SignatureField.id _) (handleFieldDrag env fieldId dx dy fields)
  = List.map (@SignatureField.id _) fields.
Proof.
  unfold handleFieldDrag. destruct (getPdfCanvasBounds env); [|reflexivity].
  destruct (find _ fields); [|reflexivity].
  rewrite map_map. apply map_ext. intros f.
  now destruct (string_eqb (SignatureField.id f) fieldId).
Qed.

Lemma place_inside (mode : FieldType) (e : Click.t Ex.t) (st : State.t Ex.t) :
  Ex.finite (Click.clientX e) -> Ex.finite (Click.clientY e) ->
  Ex.le (fst (defaultSize mode)) (Ex.Fin cw) ->
  Ex.le (snd (defaultSize mode)) (Ex.Fin ch) ->
  State.signatureFields (handlePdfClick env e (setPlacementMode mode st))
  = State.signatureFields st \/
  exists f,
    State.signatureFields (handlePdfClick env e (setPlacementMode mode st))
    = State.signatureFields st ++ [f] /\
    SignatureField.id f = Click.now e /\ inside cw ch f.
Proof.
  intros Hcx Hcy Hfw Hfh.
  destruct measured_bounds as (pl & pt & pw & ph & cl & ct & Ep & Ecb).
  destruct e as [cx cy now today]. cbn [Click.clientX Click.clientY] in Hcx, Hcy.
  destruct cx as [qx| | |], cy as [qy| | |]; try contradiction.
  unfold handlePdfClick.
  cbn [setPlacementMode State.placementMode State.signatureFields
       State.selectedField State.showSignatureModal
       State.selectedFieldForEdit State.finalizing].
  destruct (Env.signed env); [left; reflexivity|].
  rewrite Ecb, Ep.
  cbn [Click.clientX Click.clientY Click.now Click.today
       Rect.left Rect.top Rect.width Rect.height].
  match goal with
  | |- context [if ?c then _ else _] => destruct c; [left; reflexivity|]
  end.
  right.
  set (canvasX := (Ex.Fin qx - Ex.Fin pl - (Ex.Fin cl - Ex.Fin pl))%js).
  set (canvasY := (Ex.Fin qy - Ex.Fin pt - (Ex.Fin ct - Ex.Fin pt))%js).
  assert (EX : exists c, canvasX = Ex.Fin c) by (eexists; reflexivity).
  assert (EY : exists c, canvasY = Ex.Fin c) by (eexists; reflexivity).
  destruct EX as (c1 & ->). destruct EY as (c2 & ->).
  assert (Hin : forall fw fh : Q, fw <= cw -> fh <= ch ->
            forall i t p c o a1 a2 a3 a4 a5,
              inside cw ch
                (SignatureField.mk i t
                   (math_max (lit 0) (math_min (Ex.Fin c1) (Ex.Fin cw - Ex.Fin fw - lit 10)%js))
                   (math_max (lit 0) (math_min (Ex.Fin c2) (Ex.Fin ch - Ex.Fin fh - lit 10)%js))
                   p (Ex.Fin fw) (Ex.Fin fh) c o a1 a2 a3 a4 a5)).
  { intros fw fh Hw Hh i t p c o a1 a2 a3 a4 a5. unfold inside.
    cbn [SignatureField.x SignatureField.y SignatureField.width
         SignatureField.height lit sub math_min math_max Exact].
    destruct (@clamp_position c1 cw fw 10) as (x' & -> & Hx0 & Hx'); [lra|lra|].
    destruct (@clamp_position c2 ch fh 10) as (y' & -> & Hy0 & Hy'); [lra|lra|].
    exists x', y', fw, fh. repeat split; assumption. }
  destruct mode; cbn [defaultSize fst snd lit Exact Ex.le] in Hfw, Hfh;
    cbn [State.signatureFields];
    eexists; (split; [reflexivity|]); (split; [reflexivity|]);
    apply Hin; assumption.
Qed.

End Step.





(** ** The rendering backend *)

Section BackendFacts.
Context {num : Type} `{JSNumber num}.
Variable encodes : StandardFonts -> jsstring -> bool.
Variable widthOfTextAtSize : StandardFonts -> jsstring -> num -> num.

Lemma processSignatures_outcomes (sigs : list (Signature.t num)) :
  forall pdfDoc,
    List.length (snd (processSignatures encodes widthOfTextAtSize pdfDoc sigs))
    = List.length sigs.
Proof.
  induction sigs as [|s rest IH]; intros pdfDoc; [reflexivity|].
  cbn [processSignatures].
  destruct (processSignature encodes widthOfTextAtSize pdfDoc s) as [d o].
  specialize (IH d).
  destruct (processSignatures encodes widthOfTextAtSize d rest) as [d' os].
  cbn [snd List.length] in *. now rewrite IH.
Qed.



End BackendFacts.

Section BackendInvariants.

Context {num : Type} `{JSNumber num}.
Variable encodes : StandardFonts -> jsstring -> bool.
Variable widthOfTextAtSize : StandardFonts -> jsstring -> num -> num.

Lemma drawTextFrom_cons (d : Drawn.t num) (index a : nat)
    (p : PDFPage.t num) (l : list (PDFPage.t num)) :
  drawTextFrom d index a (p :: l)
  = (if (a =? index)%nat
     then PDFPage.mk (PDFPage.size p) (PDFPage.drawn p ++ [d]) else p)
    :: drawTextFrom d index (S a) l.
Proof. reflexivity. Qed.

Lemma drawText_from (d : Drawn.t num) (index : nat) (l : list (PDFPage.t num)) :
  forall a,
    List.map (@PDFPage.size _) (drawTextFrom d index a l)
    = List.map (@PDFPage.size _) l /\
    drawnCount (drawTextFrom d index a l)
    = (drawnCount l
       + (if (a <=? index)%nat && (index <? a + List.length l)%nat
          then 1 else 0))%nat /\
    (forall d', In d' (allDrawn (drawTextFrom d index a l)) ->
                d' = d \/ In d' (allDrawn l)).
Proof.
  induction l as [|p l IH]; intros a.
  - repeat split; auto. unfold drawnCount, allDrawn, drawTextFrom.
    cbn [List.length List.seq List.combine List.map List.concat].
    destruct (Nat.leb_spec a index), (Nat.ltb_spec index (a + 0)); cbn; lia.
  - destruct (IH (S a)) as (Hs & Hc & Hd).
    rewrite drawTextFrom_cons. unfold drawnCount, allDrawn in *.
    cbn [List.map List.concat]. rewrite !length_app, Hs, Hc.
    destruct (Nat.eqb_spec a index) as [->|Hne];
      cbn [PDFPage.size PDFPage.drawn]; repeat split.
    + rewrite length_app. cbn [List.length].
      destruct (Nat.leb_spec (S index) index); [lia|].
      destruct (Nat.leb_spec index index); [|lia].
      destruct (Nat.ltb_spec index (index + S (List.length l))); [|lia].
      cbn [andb]. lia.
    + intros d' Hin. rewrite in_app_iff in Hin. rewrite in_app_iff.
      destruct Hin as [Hin|Hin].
      * rewrite in_app_iff in Hin. destruct Hin as [Hin|[<-|[]]]; auto.
      * destruct (Hd d' Hin); auto.
    + cbn [List.length].
      destruct (Nat.leb_spec (S a) index), (Nat.leb_spec a index),
        (Nat.ltb_spec index (S a + List.length l)),
        (Nat.ltb_spec index (a + S (List.length l))); cbn [andb]; lia.
    + intros d' Hin. rewrite in_app_iff in Hin. rewrite in_app_iff.
      destruct Hin as [Hin|Hin]; auto.
      destruct (Hd d' Hin); auto.
Qed.

Lemma drawText_spec (d : Drawn.t num) (index : nat) (pdfDoc : list (PDFPage.t num)) :
  (index < List.length pdfDoc)%nat ->
  List.map (@PDFPage.size _) (drawText d index pdfDoc)
  = List.map (@PDFPage.size _) pdfDoc /\
  drawnCount (drawText d index pdfDoc) = S (drawnCount pdfDoc) /\
  (forall d', In d' (allDrawn (drawText d index pdfDoc)) ->
              d' = d \/ In d' (allDrawn pdfDoc)).
Proof.
  intros Hi. destruct (drawText_from d index pdfDoc 0) as (Hs & Hc & Hd).
  change (drawText d index pdfDoc) with (drawTextFrom d index 0 pdfDoc).
  repeat split; try assumption.
  rewrite Hc. cbn [Nat.leb andb Nat.add].
  destruct (Nat.ltb_spec index (List.length pdfDoc)); lia.
Qed.

(* What one signature does to the document. *)
Lemma processSignature_spec (pdfDoc : list (PDFPage.t num)) (s : Signature.t num) :
  List.map (@PDFPage.size _)
           (fst (processSignature encodes widthOfTextAtSize pdfDoc s))
  = List.map (@PDFPage.size _) pdfDoc /\
  drawnCount (fst (processSignature encodes widthOfTextAtSize pdfDoc s))
  = (drawnCount pdfDoc
     + (if isPlaced (snd (processSignature encodes widthOfTextAtSize pdfDoc s))
        then 1 else 0))%nat /\
  (forall d', In d' (allDrawn (fst (processSignature encodes widthOfTextAtSize pdfDoc s))) ->
              In d' (allDrawn pdfDoc) \/
              (invalid pdfDoc s = false /\
               Drawn.text d' = singleLine (contentOf s) /\
               Drawn.size d' = or_num (Signature.fontSize s) (lit 16) /\
               exists v page,
                 nth_error pdfDoc (Z.to_nat (Signature.page s - 1)) = Some page /\
                 (Drawn.y d' = math_max (lit 15) v \/
                  Drawn.y d' = math_max (lit 20) v))).
Proof.
  unfold processSignature.
  destruct (invalid pdfDoc s) eqn:Einv.
  { cbn. repeat split; auto. }
  unfold place, placeFallback.
  destruct (nth_error pdfDoc (Z.to_nat (Signature.page s - 1))) as [page|] eqn:Epage.
  2:{ cbn. repeat split; auto. }
  assert (Hi : (Z.to_nat (Signature.page s - 1) < List.length pdfDoc)%nat).
  { apply nth_error_Some. congruence. }
  assert (Hsame : forall o, isPlaced o = false ->
            List.map (@PDFPage.size _) (fst (pdfDoc, o))
            = List.map (@PDFPage.size _) pdfDoc /\
            drawnCount (fst (pdfDoc, o))
            = (drawnCount pdfDoc + (if isPlaced (snd (pdfDoc, o)) then 1 else 0))%nat /\
            (forall d', In d' (allDrawn (fst (pdfDoc, o))) ->
                        In d' (allDrawn pdfDoc) \/
                        (false = false /\
                         Drawn.text d' = singleLine (contentOf s) /\
                         Drawn.size d' = or_num (Signature.fontSize s) (lit 16) /\
                         exists v page0,
                           Some page = Some page0 /\
                           (Drawn.y d' = math_max (lit 15) v \/
                            Drawn.y d' = math_max (lit 20) v)))).
  { intros o Ho. cbn [fst snd]. rewrite Ho. repeat split; auto. }
  assert (Hdrawn : forall x v f o, isPlaced o = true ->
            (v = (math_min (Signature.y s) (Size.height (PDFPage.size page) - lit 15))%js
             \/ v = (math_min (Signature.y s) (Size.height (PDFPage.size page) - lit 30))%js) ->
            forall y, (y = math_max (lit 15) v \/ y = math_max (lit 20) v) ->
            let d := Drawn.mk (singleLine (contentOf s)) x y
                       (or_num (Signature.fontSize s) (lit 16)) f in
            let r := (drawText d (Z.to_nat (Signature.page s - 1)) pdfDoc, o) in
            List.map (@PDFPage.size _) (fst r)
            = List.map (@PDFPage.size _) pdfDoc /\
            drawnCount (fst r)
            = (drawnCount pdfDoc + (if isPlaced (snd r) then 1 else 0))%nat /\
            (forall d', In d' (allDrawn (fst r)) ->
                        In d' (allDrawn pdfDoc) \/
                        (false = false /\
                         Drawn.text d' = singleLine (contentOf s) /\
                         Drawn.size d' = or_num (Signature.fontSize s) (lit 16) /\
                         exists v page0,
                           Some page = Some page0 /\
                           (Drawn.y d' = math_max (lit 15) v \/
                            Drawn.y d' = math_max (lit 20) v)))).
  { intros x v f o Ho _ y Hy d r. subst r. cbn [fst snd]. rewrite Ho.
    destruct (@drawText_spec d (Z.to_nat (Signature.page s - 1)) pdfDoc Hi)
      as (Hs & Hc & Hd).
    repeat split; try assumption; try lia.
    intros d' Hin. destruct (Hd d' Hin) as [-> | Hold]; [right | now left].
    subst d. cbn [Drawn.text Drawn.size Drawn.y]. repeat split.
    exists v, page. split; [reflexivity | assumption]. }
  cbv zeta.
  repeat match goal with
         | |- context [if encodes ?f ?t then _ else _] => destruct (encodes f t)
         | |- context [if isNaN ?a || isNaN ?b then _ else _] =>
             destruct (isNaN a || isNaN b)
         end;
    first [ apply Hsame; reflexivity
          | eapply Hdrawn; [reflexivity | left; reflexivity | left; reflexivity]
          | eapply Hdrawn; [reflexivity | right; reflexivity | right; reflexivity] ].
Qed.

Lemma processSignature_sizes (pdfDoc : list (PDFPage.t num)) (s : Signature.t num) :
  List.map (@PDFPage.size _)
           (fst (processSignature encodes widthOfTextAtSize pdfDoc s))
  = List.map (@PDFPage.size _) pdfDoc.
Proof. exact (proj1 (processSignature_spec pdfDoc s)). Qed.


Lemma processSignatures_sizes (sigs : list (Signature.t num)) :
  forall pdfDoc,
    List.map (@PDFPage.size _)
             (fst (processSignatures encodes widthOfTextAtSize pdfDoc sigs))
    = List.map (@PDFPage.size _) pdfDoc.
Proof.
  induction sigs as [|s rest IH]; intros pdfDoc; [reflexivity|].
  cbn [processSignatures].
  pose proof (processSignature_sizes pdfDoc s) as Hs.
  destruct (processSignature encodes widthOfTextAtSize pdfDoc s) as [d o].
  specialize (IH d).
  destruct (processSignatures encodes widthOfTextAtSize d rest) as [d' os].
  cbn [fst] in *. congruence.
Qed.


End BackendInvariants.



(** * Further properties of the code *)

(** ** Texts on one line *)

Section SingleLine.

Lemma collapse_spacedOnce (s : jsstring) :
  forall b, spacedOnce b (collapse_spaces b s) = true.
Proof.
  induction s as [|c r IH]; intros b; [reflexivity|].
  cbn [collapse_spaces]. destruct (is_space c) eqn:Ec.
  - destruct b; [apply IH|].
    cbn [spacedOnce]. change (is_space 32) with true. cbn. apply IH.
  - cbn [spacedOnce]. rewrite Ec. apply IH.
Qed.

Lemma spacedOnce_collapse (s : jsstring) :
  forall b, spacedOnce b s = true -> collapse_spaces b s = s.
Proof.
  induction s as [|c r IH]; intros b Hok; [reflexivity|].
  cbn [spacedOnce collapse_spaces] in *. destruct (is_space c) eqn:Ec.
  - apply andb_true_iff in Hok. destruct Hok as [Hok Hr].
    apply andb_true_iff in Hok. destruct Hok as [Hc Hb].
    apply N.eqb_eq in Hc. apply negb_true_iff in Hb. subst b c.
    now rewrite (IH true Hr).
  - now rewrite (IH false Hok).
Qed.

Lemma spacedOnce_weaken (s : jsstring) :
  spacedOnce true s = true -> spacedOnce false s = true.
Proof.
  destruct s as [|c r]; [reflexivity|]. cbn [spacedOnce].
  destruct (is_space c); [|auto].
  rewrite andb_false_r. discriminate.
Qed.

Lemma spacedOnce_any (b : bool) (s : jsstring) :
  spacedOnce b s = true -> spacedOnce false s = true.
Proof. destruct b; [apply spacedOnce_weaken | auto]. Qed.

Lemma spacedOnce_no_newline (s : jsstring) :
  forall b, spacedOnce b s = true -> replace_newlines s = s.
Proof.
  induction s as [|c r IH]; intros b Hok; [reflexivity|].
  cbn [spacedOnce replace_newlines List.map] in *.
  destruct (is_space c) eqn:Ec.
  - apply andb_true_iff in Hok. destruct Hok as [Hok Hr].
    apply andb_true_iff in Hok. destruct Hok as [Hc _].
    apply N.eqb_eq in Hc. subst c. cbn.
    f_equal. exact (IH true Hr).
  - destruct (c =? 10)%N eqn:E10.
    + apply N.eqb_eq in E10. subst c. discriminate.
    + f_equal. exact (IH false Hok).
Qed.

Lemma spacedOnce_only_32 (s : jsstring) :
  forall b, spacedOnce b s = true ->
            Forall (fun c => is_space c = true -> c = 32%N) s.
Proof.
  induction s as [|c r IH]; intros b Hok; constructor;
    cbn [spacedOnce] in Hok; destruct (is_space c) eqn:Ec.
  - intros _. apply andb_true_iff in Hok. destruct Hok as [Hok _].
    apply andb_true_iff in Hok. destruct Hok as [Hc _]. now apply N.eqb_eq.
  - discriminate.
  - apply andb_true_iff in Hok. destruct Hok as [_ Hr]. exact (IH true Hr).
  - exact (IH false Hok).
Qed.

Lemma spacedOnce_app (l1 l2 : jsstring) :
  forall b, spacedOnce b (l1 ++ l2)
            = spacedOnce b l1 && spacedOnce (endsInSpace b l1) l2.
Proof.
  induction l1 as [|c r IH]; intros b; [reflexivity|].
  cbn [app spacedOnce endsInSpace]. destruct (is_space c) eqn:Ec.
  - rewrite IH. now rewrite !andb_assoc.
  - now rewrite IH.
Qed.

Lemma endsInSpace_snoc (l : jsstring) (c : N) :
  forall b, endsInSpace b (l ++ [c]) = is_space c.
Proof. induction l as [|d r IH]; intros b; [reflexivity|]. apply IH. Qed.

Lemma spacedOnce_no_double (l1 l2 : jsstring) (b : bool) :
  spacedOnce b (l1 ++ 32%N :: 32%N :: l2) = false.
Proof.
  rewrite spacedOnce_app. cbn [spacedOnce].
  change (is_space 32) with true. cbn.
  now rewrite !andb_false_r.
Qed.

Lemma spacedOnce_rev (s : jsstring) :
  spacedOnce false s = true -> spacedOnce false (rev s) = true.
Proof.
  induction s as [|c r IH]; intros Hok; [reflexivity|].
  cbn [rev]. rewrite spacedOnce_app. cbn [spacedOnce] in *.
  destruct (is_space c) eqn:Ec.
  - apply andb_true_iff in Hok. destruct Hok as [Hok Hr].
    apply andb_true_iff in Hok. destruct Hok as [Hc _].
    rewrite (IH (spacedOnce_weaken _ Hr)), Hc. cbn.
    destruct r as [|d r']; [reflexivity|].
    cbn [rev]. rewrite endsInSpace_snoc.
    cbn [spacedOnce] in Hr. destruct (is_space d); [|reflexivity].
    rewrite andb_false_r in Hr. discriminate.
  - rewrite (IH Hok). reflexivity.
Qed.

Lemma spacedOnce_dropWhile (s : jsstring) :
  forall b, spacedOnce b s = true ->
            spacedOnce false (dropWhile is_space s) = true.
Proof.
  induction s as [|c r IH]; intros b Hok; [reflexivity|].
  cbn [dropWhile]. destruct (is_space c) eqn:Ec.
  - cbn [spacedOnce] in Hok. rewrite Ec in Hok.
    apply andb_true_iff in Hok. destruct Hok as [_ Hr]. exact (IH true Hr).
  - cbn [spacedOnce] in *. now rewrite Ec in *.
Qed.

Lemma dropWhile_idem {A} (p : A -> bool) (l : list A) :
  dropWhile p (dropWhile p l) = dropWhile p l.
Proof.
  induction l as [|a r IH]; [reflexivity|].
  cbn [dropWhile]. destruct (p a) eqn:Ea; [assumption|].
  cbn [dropWhile]. now rewrite Ea.
Qed.

Lemma dropWhile_suffix {A} (p : A -> bool) (l : list A) :
  exists pre, l = pre ++ dropWhile p l.
Proof.
  induction l as [|a r [pre IH]]; [now exists []|].
  cbn [dropWhile]. destruct (p a).
  - exists (a :: pre). cbn. now f_equal.
  - now exists [].
Qed.

Lemma dropWhile_head {A} (p : A -> bool) (l : list A) :
  match dropWhile p l with
  | [] => True
  | a :: _ => p a = false
  end.
Proof.
  induction l as [|a r IH]; [exact I|].
  cbn [dropWhile]. destruct (p a) eqn:Ea; assumption.
Qed.

Lemma dropWhile_fixed {A} (p : A -> bool) (l : list A) :
  match l with [] => True | a :: _ => p a = false end ->
  dropWhile p l = l.
Proof. destruct l as [|a r]; [reflexivity|]. cbn. now intros ->. Qed.

Lemma trim_trim (s : jsstring) : trim (trim s) = trim s.
Proof.
  unfold trim.
  set (A := dropWhile is_space s).
  set (B := dropWhile is_space (rev A)).
  assert (HB : dropWhile is_space B = B) by apply dropWhile_idem.
  assert (HA : dropWhile is_space (rev B) = rev B).
  { apply dropWhile_fixed.
    destruct (dropWhile_suffix is_space (rev A)) as [pre Hpre].
    fold B in Hpre.
    assert (EA : A = rev B ++ rev pre).
    { rewrite <- rev_app_distr, <- Hpre. now rewrite rev_involutive. }
    pose proof (dropWhile_head is_space s) as Hh. fold A in Hh.
    destruct (rev B) as [|c r]; [exact I|].
    rewrite EA in Hh. exact Hh. }
  rewrite HA, rev_involutive, HB. reflexivity.
Qed.

Lemma trim_spacedOnce (s : jsstring) (b : bool) :
  spacedOnce b s = true -> spacedOnce false (trim s) = true.
Proof.
  intros Hok. unfold trim.
  apply spacedOnce_rev. eapply spacedOnce_dropWhile.
  apply spacedOnce_rev. eapply spacedOnce_dropWhile. exact Hok.
Qed.

Lemma singleLine_spacedOnce (s : jsstring) :
  spacedOnce false (singleLine s) = true.
Proof.
  unfold singleLine. eapply trim_spacedOnce. apply collapse_spacedOnce.
Qed.

Lemma singleLine_idempotent (s : jsstring) :
  singleLine (singleLine s) = singleLine s.
Proof.
  pose proof (singleLine_spacedOnce s) as Hok.
  unfold singleLine at 1.
  rewrite (spacedOnce_no_newline _ _ Hok), (spacedOnce_collapse _ _ Hok).
  unfold singleLine. apply trim_trim.
Qed.

End SingleLine.

(** X1: the text the signing view stores and the backend draws,
    [s.replace(/\n/g, ' ').replace(/\s+/g, ' ').trim()], is in normal form:
    normalising it again changes nothing, it has no white space at either
    end, its only white space character is the space (code 32), and no two
    spaces are adjacent. *)
Theorem singleLine_is_normal_form :
  forall s : jsstring,
    singleLine (singleLine s) = singleLine s /\
    trim (singleLine s) = singleLine s /\
    Forall (fun c => is_space c = true -> c = 32%N) (singleLine s) /\
    (forall l1 l2, singleLine s <> l1 ++ 32%N :: 32%N :: l2).
Proof.
  intros s. pose proof (singleLine_spacedOnce s) as Hok.
  assert (Ht : trim (singleLine s) = singleLine s)
    by (unfold singleLine; apply trim_trim).
  repeat split.
  - apply singleLine_idempotent.
  - exact Ht.
  - exact (spacedOnce_only_32 _ _ Hok).
  - intros l1 l2 E. rewrite E, spacedOnce_no_double in Hok. discriminate.
Qed.

(** ** The storage path of a document *)

Lemma startsWith_nil (s : jsstring) : startsWith s [] = true.
Proof. now destruct s. Qed.

Lemma startsWith_app (s rest : jsstring) : startsWith (s ++ rest) s = true.
Proof.
  induction s as [|c r IH]; [apply startsWith_nil|].
  cbn. now rewrite N.eqb_refl, IH.
Qed.

Lemma startsWith_app_l (s prefix rest : jsstring) :
  startsWith s prefix = true -> startsWith (s ++ rest) prefix = true.
Proof.
  revert s. induction prefix as [|p prefix IH]; intros [|c s] Hs;
    try apply startsWith_nil; try discriminate.
  cbn in *. apply andb_true_iff in Hs. destruct Hs as [-> Hs].
  now rewrite (IH _ Hs).
Qed.

Lemma split_from_skip (separator s : jsstring) :
  forall k current,
    (k <= List.length s)%nat ->
    split_from separator k current s
    = split_from separator 0 current (skipn k s).
Proof.
  induction s as [|c r IH]; intros k current Hk.
  - destruct k; [reflexivity | cbn in Hk; lia].
  - destruct k as [|k]; [reflexivity|].
    cbn [split_from skipn]. apply IH. cbn in Hk. lia.
Qed.

Lemma split_from_none (separator s : jsstring) :
  forall current,
    indexOf s separator = None ->
    split_from separator 0 current s = [rev current ++ s].
Proof.
  induction s as [|c r IH]; intros current Hnone.
  - cbn. now rewrite app_nil_r.
  - cbn [indexOf] in Hnone. cbn [split_from].
    destruct (startsWith (c :: r) separator); [discriminate|].
    destruct (indexOf r separator) eqn:Er; [discriminate|].
    rewrite (IH (c :: current) eq_refl). cbn [rev].
    now rewrite <- app_assoc.
Qed.

Lemma split_from_at_separator (separator path current : jsstring) :
  separator <> [] ->
  split_from separator 0 current (separator ++ path)
  = rev current :: split_from separator 0 [] path.
Proof.
  intros Hsep.
  pose proof (startsWith_app separator path) as Hst.
  pose proof (@skipn_app _ (List.length separator - 1) (tl separator) path) as Hskip.
  destruct separator as [|p sep']; [contradiction|].
  cbn [app split_from tl List.length] in *. rewrite Hst. f_equal.
  rewrite Nat.sub_succ, Nat.sub_0_r in *.
  rewrite split_from_skip by (rewrite length_app; lia).
  rewrite Hskip, skipn_all, Nat.sub_diag. reflexivity.
Qed.

Lemma split_from_first (separator base path : jsstring) :
  separator <> [] ->
  forall current,
    indexOf (base ++ separator ++ path) separator = Some (List.length base) ->
    split_from separator 0 current (base ++ separator ++ path)
    = (rev current ++ base) :: split_from separator 0 [] path.
Proof.
  intros Hsep. induction base as [|c b IH]; intros current Hidx.
  - cbn [app]. rewrite app_nil_r. now apply split_from_at_separator.
  - cbn [app List.length indexOf] in Hidx. cbn [app split_from].
    destruct (startsWith (c :: b ++ separator ++ path) separator);
      [discriminate|].
    destruct (indexOf (b ++ separator ++ path) separator) as [i|] eqn:Ei;
      [|discriminate].
    cbn in Hidx. injection Hidx as ->.
    rewrite (IH (c :: current) eq_refl). cbn [rev].
    now rewrite <- app_assoc.
Qed.

(** X2: for a public URL that starts with http and holds the storage marker
    /storage/v1/object/documents/ once, after [base], extractFilePathFromUrl
    gives back the path after the marker; and a path that does not start
    with http is given back as it is, so extracting twice is extracting
    once. *)
Theorem extractFilePathFromUrl_recovers_storage_path :
  forall base path : jsstring,
    startsWith base (str "http") = true ->
    indexOf (base ++ storageMarker ++ path) storageMarker
      = Some (List.length base) ->
    indexOf path storageMarker = None ->
    extractFilePathFromUrl (base ++ storageMarker ++ path) = path /\
    (startsWith path (str "http") = false ->
     extractFilePathFromUrl path = path).
Proof.
  intros base path Hhttp Hfirst Hnone. split.
  - unfold extractFilePathFromUrl.
    rewrite (startsWith_app_l _ _ _ Hhttp). cbn [negb].
    unfold split.
    rewrite split_from_first by (assumption || discriminate).
    rewrite (@split_from_none _ _ _ Hnone). reflexivity.
  - intros Hp. unfold extractFilePathFromUrl. now rewrite Hp.
Qed.

Lemma extractFilePathFromUrl_recovers_storage_path_witness :
  extractFilePathFromUrl
    (str "https://x.supabase.co" ++ storageMarker ++ str "u1/1700000000000_a.pdf")
  = str "u1/1700000000000_a.pdf" /\
  (startsWith (str "u1/1700000000000_a.pdf") (str "http") = false ->
   extractFilePathFromUrl (str "u1/1700000000000_a.pdf")
   = str "u1/1700000000000_a.pdf").
Proof.
  apply (@extractFilePathFromUrl_recovers_storage_path
           (str "https://x.supabase.co") (str "u1/1700000000000_a.pdf"));
    vm_compute; reflexivity.
Defined.

(** ** The fonts of the preview and of the backend *)

(** X3: the preview class of the signing view follows the font the backend
    draws with: two font values the backend maps to one standard font have
    one preview class; the six fonts of the signature modal are mapped to six
    different standard fonts; and every other value is drawn in Times Roman
    Italic and previewed with the class of times-roman-italic. *)
Theorem preview_class_follows_backend_font :
  (forall v w : jsstring,
      getFontMapping v = getFontMapping w ->
      getFontPreviewClass v = getFontPreviewClass w) /\
  NoDup (List.map getFontMapping AVAILABLE_PDF_FONTS) /\
  (forall v : jsstring,
      ~ In v AVAILABLE_PDF_FONTS ->
      getFontMapping v = TimesRomanItalic /\
      getFontPreviewClass v = getFontPreviewClass (str "times-roman-italic")).
Proof.
  split; [|split].
  - intros v w. unfold getFontMapping, getFontPreviewClass.
    repeat match goal with
           | |- context [string_eqb ?a ?b] => destruct (string_eqb a b)
           end; intros E; try reflexivity; discriminate E.
  - vm_compute. repeat constructor; simpl; intuition discriminate.
  - intros v Hv. unfold getFontMapping, getFontPreviewClass.
    repeat match goal with
           | |- context [string_eqb v ?b] =>
               let E := fresh "E" in
               destruct (string_eqb v b) eqn:E;
               [ apply string_eqb_eq in E; exfalso; apply Hv; subst v;
                 unfold AVAILABLE_PDF_FONTS; simpl; tauto | ]
           end.
    split; reflexivity.
Qed.

(** ** Placing and removing fields *)

(** X4: a click on the page changes nothing when no placement mode is
    chosen, when the document is signed, when the page or its canvas is not
    measured, and when the click is off the canvas.  Otherwise it appends
    exactly one field to the fields there are and leaves the placement mode.
    The field has the id of the click, the type of the mode, the current
    page, the default box of its type, the position of the click on the
    canvas bounded by renderedWidth - width - 10 and
    renderedHeight - height - 10 and then by 0, no font, the date as content
    for a date field and no content otherwise, the font size fitted to its
    box, and the viewport it was placed in: the rendered and the native
    width and height (zeros, all four, when the page size is not known).
    The modal opens, with the new field selected, exactly for signatures and
    initials. *)
Theorem click_appends_at_most_one_default_field :
  forall (num : Type) (N : JSNumber num)
         (env : Env.t num) (e : Click.t num) (st : State.t num),
    (State.placementMode st = None \/ Env.signed env = true \/
     getPdfCanvasBounds env = None ->
     handlePdfClick env e st = st) /\
    (forall mode canvasBounds pageRect canvasX canvasY,
        State.placementMode st = Some mode ->
        Env.signed env = false ->
        getPdfCanvasBounds env = Some canvasBounds ->
        Env.pageRect env = Some pageRect ->
        canvasX = (Click.clientX e - Rect.left pageRect
                   - (Rect.left canvasBounds - Rect.left pageRect))%js ->
        canvasY = (Click.clientY e - Rect.top pageRect
                   - (Rect.top canvasBounds - Rect.top pageRect))%js ->
        ((canvasX <? lit 0)%js = true \/ (canvasY <? lit 0)%js = true \/
         (canvasX >? Rect.width canvasBounds)%js = true \/
         (canvasY >? Rect.height canvasBounds)%js = true ->
         handlePdfClick env e st = st) /\
        ((canvasX <? lit 0)%js = false ->
         (canvasY <? lit 0)%js = false ->
         (canvasX >? Rect.width canvasBounds)%js = false ->
         (canvasY >? Rect.height canvasBounds)%js = false ->
         exists f,
           State.signatureFields (handlePdfClick env e st)
             = State.signatureFields st ++ [f] /\
           State.placementMode (handlePdfClick env e st) = None /\
           State.finalizing (handlePdfClick env e st) = State.finalizing st /\
           State.selectedFieldForEdit (handlePdfClick env e st)
             = State.selectedFieldForEdit st /\
           State.showSignatureModal (handlePdfClick env e st)
             = match mode with
               | signature | initials => true
               | _ => State.showSignatureModal st
               end /\
           State.selectedField (handlePdfClick env e st)
             = match mode with
               | signature | initials => Some (Click.now e)
               | _ => State.selectedField st
               end /\
           SignatureField.id f = Click.now e /\
           SignatureField.type f = mode /\
           SignatureField.page f = Env.currentPage env /\
           (SignatureField.width f, SignatureField.height f) = defaultSize mode /\
           SignatureField.x f
             = math_max (lit 0)
                 (math_min canvasX
                    (Rect.width canvasBounds - fst (defaultSize mode) - lit 10)%js) /\
           SignatureField.y f
             = math_max (lit 0)
                 (math_min canvasY
                    (Rect.height canvasBounds - snd (defaultSize mode) - lit 10)%js) /\
           SignatureField.font f = None /\
           SignatureField.content f
             = match mode with date => Some (Click.today e) | _ => None end /\
           SignatureField.fontSize f
             = Some (calculateDynamicFontSize (SignatureField.width f)
                       (SignatureField.height f) mode (lit 10)) /\
           (SignatureField.canvasWidth f, SignatureField.canvasHeight f,
            SignatureField.pdfWidth f, SignatureField.pdfHeight f)
             = match getPdfPageDimensions env with
               | Some pdfDimensions =>
                   (Some (Rect.width canvasBounds),
                    Some (Rect.height canvasBounds),
                    Some (Size.width pdfDimensions),
                    Some (Size.height pdfDimensions))
               | None => (Some (lit 0), Some (lit 0), Some (lit 0), Some (lit 0))
               end)).
Proof.
  intros num N env e st. split.
  - unfold handlePdfClick. intros [E | [E | E]].
    + now rewrite E.
    + rewrite E. now destruct (State.placementMode st).
    + rewrite E. destruct (State.placementMode st); [|reflexivity].
      now destruct (Env.signed env).
  - intros mode cb pr canvasX canvasY Emode Esigned Ecb Epr -> ->.
    unfold handlePdfClick. rewrite Emode, Esigned, Ecb, Epr. cbv zeta. split.
    + intros Hout.
      match goal with
      | |- context [if ?a || ?b || ?c || ?d then _ else _] =>
          destruct a; [reflexivity|];
          destruct b; [reflexivity|];
          destruct c; [reflexivity|];
          destruct d; [reflexivity|]
      end.
      destruct Hout as [H | [H | [H | H]]]; discriminate H.
    + intros Ha Hb Hc Hd. rewrite Ha, Hb, Hc, Hd. cbn [orb].
      unfold convertToAbsoluteCoordinates. rewrite Ecb.
      destruct (getPdfPageDimensions env) as [pd|];
        destruct mode; cbn [State.signatureFields];
        eexists; repeat split; reflexivity.
Qed.

Lemma handlePdfClick_fields (num : Type) (N : JSNumber num)
    (env : Env.t num) (e : Click.t num) (st : State.t num) :
  State.signatureFields (handlePdfClick env e st) = State.signatureFields st \/
  exists f,
    State.signatureFields (handlePdfClick env e st)
    = State.signatureFields st ++ [f] /\
    SignatureField.id f = Click.now e.
Proof.
  unfold handlePdfClick.
  destruct (State.placementMode st) as [mode|]; [|now left].
  destruct (Env.signed env); [now left|].
  destruct (getPdfCanvasBounds env) as [cb|]; [|now left].
  destruct (Env.pageRect env) as [pr|]; [|now left].
  match goal with
  | |- context [if ?c then _ else _] => destruct c; [now left|]
  end.
  right. destruct mode; cbn [State.signatureFields];
    eexists; split; reflexivity.
Qed.

Section Remove.

Context {num : Type} `{JSNumber num}.

Lemma filter_all {A} (p : A -> bool) (l : list A) :
  Forall (fun a => p a = true) l -> List.filter p l = l.
Proof.
  induction 1 as [|a r Ha _ IH]; [reflexivity|].
  cbn. now rewrite Ha, IH.
Qed.

End Remove.

(** X5: after removeField no field has the removed id, every other field is
    still there, a removed field is no longer selected for editing, removing
    twice is removing once, and removing the field a click has just placed
    (under an id no field had) gives back the fields there were. *)
Theorem removeField_undoes_placement :
  forall (num : Type) (N : JSNumber num)
         (env : Env.t num) (e : Click.t num) (st : State.t num)
         (fieldId : jsstring),
    Forall (fun f => SignatureField.id f <> fieldId)
           (State.signatureFields (removeField fieldId st)) /\
    (forall f, In f (State.signatureFields st) ->
               SignatureField.id f <> fieldId ->
               In f (State.signatureFields (removeField fieldId st))) /\
    (State.selectedFieldForEdit st = Some fieldId ->
     State.selectedFieldForEdit (removeField fieldId st) = None) /\
    removeField fieldId (removeField fieldId st) = removeField fieldId st /\
    (~ In (Click.now e) (List.map (@SignatureField.id _) (State.signatureFields st)) ->
     State.signatureFields (removeField (Click.now e) (handlePdfClick env e st))
     = State.signatureFields st).
Proof.
  intros num N env e st fieldId.
  assert (Hneq : forall (i j : jsstring), negb (string_eqb i j) = true <-> i <> j).
  { intros i j. rewrite negb_true_iff. split.
    - intros E1 E2. apply string_eqb_eq in E2. congruence.
    - intros Hne. destruct (string_eqb i j) eqn:E; [|reflexivity].
      apply string_eqb_eq in E. contradiction. }
  repeat split.
  - apply Forall_forall. intros f Hf. cbn [removeField State.signatureFields] in Hf.
    apply filter_In in Hf. now apply Hneq.
  - intros f Hf Hid. cbn [removeField State.signatureFields].
    apply filter_In. split; [assumption | now apply Hneq].
  - intros Esel. unfold removeField, isSelectedForEdit.
    cbn [State.selectedFieldForEdit]. rewrite Esel.
    now rewrite (proj2 (string_eqb_eq fieldId fieldId) eq_refl).
  - unfold removeField, isSelectedForEdit.
    cbn [State.signatureFields State.placementMode State.selectedField
         State.showSignatureModal State.selectedFieldForEdit State.finalizing].
    f_equal.
    + apply filter_all. apply Forall_forall. intros f Hf.
      now apply filter_In in Hf.
    + destruct (State.selectedFieldForEdit st) as [i|]; [|reflexivity].
      destruct (string_eqb i fieldId) eqn:E; [reflexivity|]. now rewrite E.
  - intros Hfresh.
    assert (Hkeep : List.filter
                      (fun f => negb (string_eqb (SignatureField.id f) (Click.now e)))
                      (State.signatureFields st) = State.signatureFields st).
    { apply filter_all. apply Forall_forall. intros f Hf. apply Hneq.
      intros E. apply Hfresh. rewrite <- E. now apply in_map. }
    cbn [removeField State.signatureFields].
    destruct (handlePdfClick_fields N env e st) as [-> | (f & Ef & Eid)].
    + exact Hkeep.
    + rewrite Ef, filter_app, Hkeep.
      cbn [List.filter]. rewrite Eid.
      rewrite (proj2 (string_eqb_eq (Click.now e) (Click.now e)) eq_refl).
      cbn. apply app_nil_r.
Qed.

(** ** Confirming the signature modal *)

Lemma dropWhile_nil {A} (p : A -> bool) (l : list A) :
  dropWhile p l = [] <-> forallb p l = true.
Proof.
  induction l as [|a r IH]; [now split|].
  cbn. destruct (p a); [exact IH|]. split; discriminate.
Qed.

Lemma forallb_rev {A} (p : A -> bool) (l : list A) :
  forallb p (rev l) = forallb p l.
Proof.
  induction l as [|a r IH]; [reflexivity|].
  cbn. rewrite forallb_app, IH. cbn. now rewrite andb_true_r, andb_comm.
Qed.

Lemma trim_nil (s : jsstring) : trim s = [] <-> forallb is_space s = true.
Proof.
  unfold trim. split.
  - intros E. apply (f_equal (@rev N)) in E. rewrite rev_involutive in E.
    cbn in E. apply dropWhile_nil in E. rewrite forallb_rev in E.
    pose proof (dropWhile_head is_space s) as Hh.
    destruct (dropWhile is_space s) as [|c r] eqn:Ed.
    + now apply dropWhile_nil.
    + cbn in E. rewrite Hh in E. discriminate.
  - intros Hall. apply dropWhile_nil in Hall. now rewrite Hall.
Qed.

Lemma collapse_all_space (s : jsstring) :
  forall b, forallb is_space (collapse_spaces b (replace_newlines s))
            = forallb is_space s.
Proof.
  induction s as [|c r IH]; intros b; [reflexivity|].
  cbn [replace_newlines List.map collapse_spaces forallb].
  fold (replace_newlines r).
  destruct (c =? 10)%N eqn:E10.
  - apply N.eqb_eq in E10. subst c. change (is_space 32) with true.
    change (is_space 10) with true. cbn [andb].
    destruct b; cbn [forallb]; [apply IH|].
    change (is_space 32) with true. apply IH.
  - destruct (is_space c) eqn:Ec.
    + destruct b; cbn [forallb andb]; [apply IH|].
      change (is_space 32) with true. apply IH.
    + cbn [forallb]. now rewrite Ec.
Qed.

Lemma singleLine_nil (s : jsstring) : singleLine s = [] <-> trim s = [].
Proof.
  unfold singleLine. rewrite !trim_nil. now rewrite collapse_all_space.
Qed.

(** X6: the Apply button of the signature modal does nothing for a name that
    is blank; for any other name, with a field selected, it closes the
    modal, clears the selection, keeps the ids of the fields in order, gives
    the selected field the name on one line and the chosen font, which makes
    it complete for finalization, and leaves every other field as it was. *)
Theorem confirmed_signature_is_complete :
  forall (num : Type) (N : JSNumber num)
         (name font : jsstring) (st : State.t num),
    (trim name = [] -> handleConfirm name font st = st) /\
    (trim name <> [] ->
     forall selected,
       State.selectedField st = Some selected -> selected <> [] ->
       State.showSignatureModal (handleConfirm name font st) = false /\
       State.selectedField (handleConfirm name font st) = None /\
       List.map (@SignatureField.id _)
                (State.signatureFields (handleConfirm name font st))
       = List.map (@SignatureField.id _) (State.signatureFields st) /\
       forall f,
         In f (State.signatureFields (handleConfirm name font st)) ->
         (SignatureField.id f = selected /\
          SignatureField.content f = Some (singleLine name) /\
          SignatureField.font f = Some font /\
          incomplete f = false) \/
         (SignatureField.id f <> selected /\ In f (State.signatureFields st))).
Proof.
  intros num N name font st. unfold handleConfirm. split.
  - intros ->. reflexivity.
  - intros Hname selected Esel Hsel.
    destruct (trim name) as [|c t] eqn:Et; [contradiction|].
    cbn [truthy_str negb]. unfold handleSignatureConfirm.
    rewrite Esel. destruct selected as [|c0 sel]; [contradiction|].
    cbn [truthy_str negb State.showSignatureModal State.selectedField
         State.signatureFields].
    repeat split.
    + rewrite map_map. apply map_ext. intros f.
      now destruct (string_eqb (SignatureField.id f) (c0 :: sel)).
    + intros f Hf. apply in_map_iff in Hf. destruct Hf as (g & <- & Hg).
      destruct (string_eqb (SignatureField.id g) (c0 :: sel)) eqn:Eg.
      * left. apply string_eqb_eq in Eg.
        cbn [withSignature SignatureField.id SignatureField.content
             SignatureField.font].
        repeat split; try assumption.
        unfold incomplete. cbn [withSignature SignatureField.content].
        assert (Hne : singleLine name <> []).
        { intros E. apply (proj1 (singleLine_nil name)) in E. congruence. }
        assert (Htrim : trim (singleLine name) = singleLine name)
          by (unfold singleLine; apply trim_trim).
        rewrite Htrim.
        destruct (singleLine name) as [|d r]; [contradiction|]. reflexivity.
      * right. split; [|assumption].
        intros E. apply string_eqb_eq in E. congruence.
Qed.

(** ** What the edits keep *)

Section Frame.

Context {num : Type} `{JSNumber num}.


End Frame.



(** ** Finalization: what is posted *)

Lemma filter_nil {A} (p : A -> bool) (l : list A) :
  List.filter p l = [] -> Forall (fun a => p a = false) l.
Proof.
  induction l as [|a r IH]; [constructor|].
  cbn. destruct (p a) eqn:Ea; [discriminate|].
  intros E. constructor; auto.
Qed.

Ltac effects_in :=
  repeat match goal with
         | H : _ \/ _ |- _ => destruct H
         | H : False |- _ => destruct H
         | H : In _ _ |- _ => progress cbn in H
         | H : _ = _ |- _ => first [discriminate H | injection H as <-]
         end.

(** X8: finalizeDocument never changes the fields.  It posts at most once,
    and only with a session, at least one field and no incomplete field:
    what it posts is the transform of every field, in order.  It stores the
    fields and leaves for the dashboard only after a response that is ok,
    it shows exactly one toast, and whenever it set the finalizing flag the
    flag is off again at the end. *)
Theorem finalize_posts_complete_fields_once :
  forall (num : Type) (N : JSNumber num)
         (env : Env.t num) (svc : Services) (st : State.t num),
    State.signatureFields (fst (finalizeDocument env svc st))
      = State.signatureFields st /\
    (forall sigs,
        In (PostSignatures sigs) (snd (finalizeDocument env svc st)) ->
        session svc = true /\
        State.signatureFields st <> [] /\
        Forall (fun f => incomplete f = false) (State.signatureFields st) /\
        sigs = List.map (toSignature env) (State.signatureFields st)) /\
    (forall fields,
        In (InsertSignatures fields) (snd (finalizeDocument env svc st)) ->
        session svc = true /\ responseOk svc = true /\
        fields = State.signatureFields st) /\
    (forall path,
        In (Navigate path) (snd (finalizeDocument env svc st)) ->
        session svc = true /\ responseOk svc = true) /\
    (forall b,
        In (SetFinalizing b) (snd (finalizeDocument env svc st)) ->
        State.finalizing (fst (finalizeDocument env svc st)) = false) /\
    List.length (List.filter isToast (snd (finalizeDocument env svc st))) = 1%nat /\
    (List.length
       (List.filter (fun e => match e with PostSignatures _ => true | _ => false end)
          (snd (finalizeDocument env svc st))) <= 1)%nat.
Proof.
  intros num N env svc st. unfold finalizeDocument.
  destruct (State.signatureFields st) as [|f0 fs] eqn:Ef.
  - cbn. rewrite Ef. repeat split; intros; effects_in; auto.
  - cbn [List.length Nat.eqb].
    destruct (List.filter incomplete (f0 :: fs)) as [|g gs] eqn:Einc.
    + apply filter_nil in Einc. cbn [List.length Nat.ltb Nat.leb].
      destruct (session svc), (responseOk svc); cbn; rewrite ?Ef;
        repeat split; intros; effects_in; auto; discriminate.
    + cbn. rewrite Ef. repeat split; intros; effects_in; auto.
Qed.

(** ** The page buttons *)

(** X9: from a page between 1 and numPages the page buttons lead to a page
    between 1 and numPages; below the last page, next goes one page on and
    previous comes back, and above the first page, previous goes one page
    back and next comes back. *)
Theorem page_navigation_stays_in_range :
  forall numPages currentPage : Z,
    (1 <= currentPage <= numPages)%Z ->
    (1 <= previousPage currentPage <= numPages)%Z /\
    (1 <= nextPage numPages currentPage <= numPages)%Z /\
    (currentPage < numPages ->
     nextPage numPages currentPage = currentPage + 1 /\
     previousPage (nextPage numPages currentPage) = currentPage)%Z /\
    (1 < currentPage ->
     previousPage currentPage = currentPage - 1 /\
     nextPage numPages (previousPage currentPage) = currentPage)%Z.
Proof.
  intros numPages cp Hr. unfold previousPage, nextPage.
  repeat split;
    repeat match goal with
           | |- context [(?a =? ?b)%Z] => destruct (Z.eqb_spec a b)
           end; intros; lia.
Qed.

Lemma page_navigation_stays_in_range_witness :
  (1 <= previousPage 2 <= 3)%Z /\
  (1 <= nextPage 3 2 <= 3)%Z /\
  (2 < 3 -> nextPage 3 2 = 2 + 1 /\ previousPage (nextPage 3 2) = 2)%Z /\
  (1 < 2 -> previousPage 2 = 2 - 1 /\ nextPage 3 (previousPage 2) = 2)%Z.
Proof. apply (@page_navigation_stays_in_range 3 2). lia. Defined.

(** ** The transform without measurements *)

(** X10: the page size is known exactly when a document is loaded and the
    current page is one of its pages, the canvas bounds exactly when both
    the page element and its canvas are there; and when either is missing,
    convertToAbsoluteCoordinates gives back the point it was given with a
    viewport of zeros. *)
Theorem transform_passes_through_when_not_measured :
  forall (num : Type) (N : JSNumber num) (env : Env.t num),
    ((exists size, getPdfPageDimensions env = Some size) <->
     (exists pages,
         Env.pdfDocument env = Some pages /\
         (1 <= Env.currentPage env <= Z.of_nat (List.length pages))%Z)) /\
    ((exists rect, getPdfCanvasBounds env = Some rect) <->
     (Env.pageRect env <> None /\ Env.canvasRect env <> None)) /\
    (getPdfCanvasBounds env = None \/ getPdfPageDimensions env = None ->
     forall canvasX canvasY,
       convertToAbsoluteCoordinates env canvasX canvasY
       = Absolute.mk canvasX canvasY (lit 0) (lit 0) (lit 0) (lit 0)).
Proof.
  intros num N env. repeat split.
  - unfold getPdfPageDimensions. intros [size Hs].
    destruct (Env.pdfDocument env) as [pages|]; [|discriminate].
    exists pages. split; [reflexivity|].
    destruct (Z.ltb_spec (Env.currentPage env) 1);
      destruct (Z.ltb_spec (Z.of_nat (List.length pages)) (Env.currentPage env));
      cbn in Hs; try discriminate. lia.
  - unfold getPdfPageDimensions. intros (pages & -> & Hlo & Hhi).
    destruct (Z.ltb_spec (Env.currentPage env) 1); [lia|].
    destruct (Z.ltb_spec (Z.of_nat (List.length pages)) (Env.currentPage env));
      [lia|]. cbn [orb].
    destruct (nth_error pages (Z.to_nat (Env.currentPage env - 1))) as [s|] eqn:E.
    + now exists s.
    + apply nth_error_None in E. lia.
  - unfold getPdfCanvasBounds in H. destruct H as [rect Hr].
    destruct (Env.pageRect env); [discriminate | discriminate].
  - unfold getPdfCanvasBounds in H. destruct H as [rect Hr].
    destruct (Env.pageRect env); [|discriminate]. now rewrite Hr.
  - unfold getPdfCanvasBounds. intros [Hp Hc].
    destruct (Env.pageRect env); [|contradiction].
    destruct (Env.canvasRect env) as [r|]; [now exists r | contradiction].
  - intros Hmiss x y. unfold convertToAbsoluteCoordinates.
    destruct Hmiss as [-> | ->]; [reflexivity|].
    now destruct (getPdfCanvasBounds env).
Qed.

(** ** The backend: requests *)



(** ** The backend: what is drawn *)

(** X12: processing the signatures keeps the number and the sizes of the
    pages, and draws exactly one text for every signature placed (at the
    first attempt or by the fallback) and none for a signature skipped or
    dropped: at most one text for each signature. *)
Theorem drawing_keeps_pages_and_counts :
  forall (num : Type) (N : JSNumber num)
         (encodes : StandardFonts -> jsstring -> bool)
         (widthOfTextAtSize : StandardFonts -> jsstring -> num -> num)
         (sigs : list (Signature.t num)) (pdfDoc : list (PDFPage.t num)),
    List.map (@PDFPage.size _)
             (fst (processSignatures encodes widthOfTextAtSize pdfDoc sigs))
    = List.map (@PDFPage.size _) pdfDoc /\
    drawnCount (fst (processSignatures encodes widthOfTextAtSize pdfDoc sigs))
    = (drawnCount pdfDoc
       + List.length
           (List.filter isPlaced
              (snd (processSignatures encodes widthOfTextAtSize pdfDoc sigs))))%nat /\
    (drawnCount (fst (processSignatures encodes widthOfTextAtSize pdfDoc sigs))
     <= drawnCount pdfDoc + List.length sigs)%nat.
Proof.
  intros num N encodes width sigs.
  induction sigs as [|s rest IH]; intros pdfDoc.
  - cbn [processSignatures fst snd List.filter List.length].
    repeat split; lia.
  - cbn [processSignatures].
    pose proof (processSignature_spec encodes width pdfDoc s) as Hone.
    destruct (processSignature encodes width pdfDoc s) as [d o].
    cbn [fst snd] in Hone. destruct Hone as (Hs & Hc & _).
    specialize (IH d).
    destruct (processSignatures encodes width d rest) as [d' os].
    cbn [fst snd List.length List.filter] in *.
    destruct IH as (IHs & IHc & IHle).
    repeat split.
    + now rewrite IHs.
    + rewrite IHc, Hc. destruct (isPlaced o); cbn [List.length]; lia.
    + rewrite Hc in IHle. destruct (isPlaced o); lia.
Qed.

(** ** Drag and resize in binary64 *)

Lemma F64_is_nan_spec (a : float) :
  F64.is_nan a = true -> Prim2SF a = S754_nan.
Proof.
  unfold F64.is_nan. rewrite FloatAxioms.eqb_spec. unfold SFeqb.
  destruct (Prim2SF a) as [s|s| |s m e]; cbn; try discriminate; try reflexivity.
  - destruct s; discriminate.
  - destruct s; rewrite Z.compare_refl, Pos.compare_cont_refl; discriminate.
Qed.

Lemma F64_not_ltb_nan (a b : float) :
  F64.is_nan b = true -> PrimFloat.ltb a b = false.
Proof.
  intros Hb. rewrite FloatAxioms.ltb_spec, (F64_is_nan_spec _ Hb).
  unfold SFltb. now destruct (Prim2SF a) as [s|s| |s m e].
Qed.

Lemma F64_min_not_above (a b : float) :
  PrimFloat.ltb b (F64.min a b) = false.
Proof.
  unfold F64.min.
  destruct (F64.is_nan a) eqn:Ha; [now apply F64_not_ltb_nan|].
  destruct (F64.is_nan b) eqn:Hb; [apply F64_ltb_irrefl|].
  destruct (PrimFloat.ltb a b) eqn:Hab; [now apply F64_ltb_asym|].
  destruct (PrimFloat.ltb b a) eqn:Hba; [apply F64_ltb_irrefl|].
  destruct (get_sign a); [assumption | apply F64_ltb_irrefl].
Qed.

Lemma F64_max_20_not_below_15 (v : float) :
  PrimFloat.ltb (F64.max 20 v) 15 = false.
Proof.
  unfold F64.max.
  assert (En : F64.is_nan 20 = false) by (vm_compute; reflexivity).
  rewrite En.
  destruct (F64.is_nan v) eqn:Hv; [now apply F64_nan_not_ltb|].
  destruct (PrimFloat.ltb 20 v) eqn:H20.
  - rewrite FloatAxioms.ltb_spec in *. unfold SFltb in *.
    assert (E20 : Prim2SF 20 = S754_finite false 5629499534213120 (-48))
      by (vm_compute; reflexivity).
    assert (E15 : Prim2SF 15 = S754_finite false 8444249301319680 (-49))
      by (vm_compute; reflexivity).
    rewrite E20 in H20. rewrite E15. clear E20 E15.
    destruct (Prim2SF v) as [s|s| |s m e]; cbn [SFcompare] in *;
      try discriminate.
    + now destruct s.
    + destruct s; [discriminate|].
      destruct (Z.compare_spec (-48) e), (Z.compare_spec e (-49));
        try reflexivity; try discriminate; lia.
  - assert (Es : get_sign 20 = false) by (vm_compute; reflexivity).
    rewrite Es. destruct (PrimFloat.ltb v 20); vm_compute; reflexivity.
Qed.

(** X13: in binary64, for any arguments (infinite or NaN too), every field
    after a drag is a field there was before, or is the field dragged, and
    then neither its x nor its y is below 0 and the viewport it holds is the
    canvas as measured at the drag. *)
Theorem drag_never_leaves_through_the_top_left :
  forall (env : Env.t float) (fieldId : jsstring) (dataX dataY : float)
         (fields : list (SignatureField.t float)) (f' : SignatureField.t float),
    In f' (handleFieldDrag env fieldId dataX dataY fields) ->
    In f' fields \/
    (SignatureField.id f' = fieldId /\
     PrimFloat.ltb (SignatureField.x f') 0 = false /\
     PrimFloat.ltb (SignatureField.y f') 0 = false /\
     exists canvasBounds,
       getPdfCanvasBounds env = Some canvasBounds /\
       SignatureField.canvasWidth f' = Some (Rect.width canvasBounds) /\
       SignatureField.canvasHeight f' = Some (Rect.height canvasBounds)).
Proof.
  intros env fieldId dx dy fields f'. unfold handleFieldDrag.
  destruct (getPdfCanvasBounds env) as [cb|]; [|now left].
  destruct (find _ fields) as [field|]; [|now left].
  intros Hin. apply in_map_iff in Hin. destruct Hin as (f & <- & Hf).
  destruct (string_eqb (SignatureField.id f) fieldId) eqn:E; [|now left].
  right. apply string_eqb_eq in E.
  cbn [withPosition SignatureField.id SignatureField.x SignatureField.y
       SignatureField.canvasWidth SignatureField.canvasHeight].
  repeat split; try assumption;
    try (apply F64_max_not_below; vm_compute; reflexivity).
  exists cb. repeat split.
Qed.

Lemma drag_never_leaves_through_the_top_left_witness :
  In (withPosition Scenario.narrowText 0%float 0%float 600%float 800%float)
     [Scenario.narrowText] \/
  (SignatureField.id
     (withPosition Scenario.narrowText 0%float 0%float 600%float 800%float)
   = Scenario.fieldId /\
   PrimFloat.ltb
     (SignatureField.x
        (withPosition Scenario.narrowText 0%float 0%float 600%float 800%float))
     0 = false /\
   PrimFloat.ltb
     (SignatureField.y
        (withPosition Scenario.narrowText 0%float 0%float 600%float 800%float))
     0 = false /\
   exists canvasBounds,
     getPdfCanvasBounds Scenario.env = Some canvasBounds /\
     SignatureField.canvasWidth
       (withPosition Scenario.narrowText 0%float 0%float 600%float 800%float)
     = Some (Rect.width canvasBounds) /\
     SignatureField.canvasHeight
       (withPosition Scenario.narrowText 0%float 0%float 600%float 800%float)
     = Some (Rect.height canvasBounds)).
Proof.
  apply (@drag_never_leaves_through_the_top_left Scenario.env Scenario.fieldId
           (-50)%float (-70)%float [Scenario.narrowText]).
  vm_compute. left. reflexivity.
Defined.

(** X14: in binary64, for any arguments, every field after a resize is a
    field there was before, or is the field resized, at the position it
    had, and then its width does not exceed renderedWidth - x - 10 and its
    height does not exceed renderedHeight - y - 10. *)
Theorem resize_never_exceeds_the_room :
  forall (env : Env.t float) (fieldId : jsstring) (newWidth newHeight : float)
         (fields : list (SignatureField.t float)) (f' : SignatureField.t float),
    In f' (handleFieldResize env fieldId newWidth newHeight fields) ->
    In f' fields \/
    exists f canvasBounds,
      In f fields /\ SignatureField.id f = fieldId /\
      getPdfCanvasBounds env = Some canvasBounds /\
      SignatureField.x f' = SignatureField.x f /\
      SignatureField.y f' = SignatureField.y f /\
      PrimFloat.ltb
        (Rect.width canvasBounds - SignatureField.x f - 10)%float
        (SignatureField.width f') = false /\
      PrimFloat.ltb
        (Rect.height canvasBounds - SignatureField.y f - 10)%float
        (SignatureField.height f') = false.
Proof.
  intros env fieldId nw nh fields f'. unfold handleFieldResize.
  destruct (getPdfCanvasBounds env) as [cb|]; [|now left].
  intros Hin. apply in_map_iff in Hin. destruct Hin as (f & <- & Hf).
  destruct (string_eqb (SignatureField.id f) fieldId) eqn:E; [|now left].
  right. apply string_eqb_eq in E. exists f, cb.
  repeat split; try assumption; apply F64_min_not_above.
Qed.

Lemma resize_never_exceeds_the_room_witness :
  In (resizeField (Rect.mk 0 0 600 800)%float 1000%float 1000%float
        Scenario.narrowText) [Scenario.narrowText] \/
  exists f canvasBounds,
    In f [Scenario.narrowText] /\ SignatureField.id f = Scenario.fieldId /\
    getPdfCanvasBounds Scenario.env = Some canvasBounds /\
    SignatureField.x
      (resizeField (Rect.mk 0 0 600 800)%float 1000%float 1000%float
         Scenario.narrowText) = SignatureField.x f /\
    SignatureField.y
      (resizeField (Rect.mk 0 0 600 800)%float 1000%float 1000%float
         Scenario.narrowText) = SignatureField.y f /\
    PrimFloat.ltb
      (Rect.width canvasBounds - SignatureField.x f - 10)%float
      (SignatureField.width
         (resizeField (Rect.mk 0 0 600 800)%float 1000%float 1000%float
            Scenario.narrowText)) = false /\
    PrimFloat.ltb
      (Rect.height canvasBounds - SignatureField.y f - 10)%float
      (SignatureField.height
         (resizeField (Rect.mk 0 0 600 800)%float 1000%float 1000%float
            Scenario.narrowText)) = false.
Proof.
  apply (@resize_never_exceeds_the_room Scenario.env Scenario.fieldId
           1000%float 1000%float [Scenario.narrowText]).
  left. reflexivity.
Defined.

Lemma or_num_truthy_default (o : option float) (c : float) :
  F64.truthy c = true -> truthy (or_num o c) = true.
Proof.
  intros Hc. unfold or_num. destruct o as [v|]; [|exact Hc].
  destruct (truthy v) eqn:Hv; [exact Hv | exact Hc].
Qed.

(** X15: in binary64, if every text on the pages is written on one line, at a
    font size that is neither 0 nor NaN and not below y = 15, then so is
    every text on the pages after the signatures are processed: a text the
    backend draws is the normalised content, at the font size of the
    signature or 16, and not below the bottom margin, whatever coordinates
    the request holds. *)
Theorem backend_draws_single_line_above_the_margin :
  forall (encodes : StandardFonts -> jsstring -> bool)
         (widthOfTextAtSize : StandardFonts -> jsstring -> float -> float)
         (sigs : list (Signature.t float)) (pdfDoc : list (PDFPage.t float)),
    Forall wellDrawn (allDrawn pdfDoc) ->
    Forall wellDrawn
           (allDrawn (fst (processSignatures encodes widthOfTextAtSize pdfDoc sigs))).
Proof.
  intros encodes width sigs.
  induction sigs as [|s rest IH]; intros pdfDoc Hall; [exact Hall|].
  cbn [processSignatures].
  pose proof (processSignature_spec encodes width pdfDoc s) as Hone.
  destruct (processSignature encodes width pdfDoc s) as [d o].
  cbn [fst snd] in Hone. destruct Hone as (_ & _ & Hd).
  specialize (IH d).
  destruct (processSignatures encodes width d rest) as [d' os].
  cbn [fst] in *. apply IH.
  apply Forall_forall. intros x Hx.
  destruct (Hd x Hx) as [Hold | (_ & Et & Es & v & page & _ & Hy)].
  - rewrite Forall_forall in Hall. now apply Hall.
  - unfold wellDrawn. rewrite Et, Es. repeat split.
    + apply singleLine_idempotent.
    + apply or_num_truthy_default. vm_compute. reflexivity.
    + destruct Hy as [-> | ->].
      * apply F64_max_not_below. vm_compute. reflexivity.
      * apply F64_max_20_not_below_15.
Qed.

Lemma backend_draws_single_line_above_the_margin_witness :
  Forall wellDrawn
         (allDrawn
            (fst (processSignatures BackendScenario.encodes
                    BackendScenario.widthOfTextAtSize
                    [BackendScenario.blankPage]
                    (signatures BackendScenario.request)))).
Proof.
  apply (@backend_draws_single_line_above_the_margin
           BackendScenario.encodes BackendScenario.widthOfTextAtSize
           (signatures BackendScenario.request) [BackendScenario.blankPage]).
  apply Forall_nil.
Defined.

(** ** The zoom buttons *)

Lemma existsb_In (a : float) (l : list float) :
  existsb (PrimFloat.Leibniz.eqb a) l = true -> In a l.
Proof.
  intros H. apply existsb_exists in H. destruct H as (b & Hb & E).
  apply FloatAxioms.Leibniz.eqb_spec in E. now subst.
Qed.

Lemma zoomLevels_closed (s : float) (z : Zoom) :
  In s zoomLevels -> In (zoom s z) zoomLevels.
Proof.
  assert (Hall : forallb
                   (fun s => existsb (PrimFloat.Leibniz.eqb (zoom s ZoomOut)) zoomLevels
                             && existsb (PrimFloat.Leibniz.eqb (zoom s ZoomIn)) zoomLevels)
                   zoomLevels = true) by (vm_compute; reflexivity).
  intros Hs. rewrite forallb_forall in Hall. specialize (Hall s Hs).
  apply andb_true_iff in Hall. destruct Hall as [Ho Hi].
  destruct z; now apply existsb_In.
Qed.

Lemma zoomLevels_reached (zs : list Zoom) :
  In (List.fold_left zoom zs 1%float) zoomLevels.
Proof.
  assert (Hin : forall s, In s zoomLevels ->
                          In (List.fold_left zoom zs s) zoomLevels).
  { induction zs as [|z zs IH]; intros s Hs; [exact Hs|].
    cbn [List.fold_left]. apply IH. now apply zoomLevels_closed. }
  apply Hin. apply existsb_In. vm_compute. reflexivity.
Qed.

(** X16: in binary64, whatever the zoom buttons are clicked, in any order and
    any number of times from the initial scale 1, the scale stays between
    0.5 and 2 and the label between the buttons shows a multiple of ten
    between 50 and 200, although the scale itself drifts off the multiples
    of 0.1. *)
Theorem zoom_stays_between_half_and_double :
  forall zs : list Zoom,
    inZoomRange (List.fold_left zoom zs 1%float) = true /\
    (exists k : Z,
        (5 <= k <= 20)%Z /\
        zoomPercent (List.fold_left zoom zs 1%float) = F64.of_Z (10 * k)) /\
    (exists zs' : list Zoom,
        List.fold_left zoom zs' 1%float <> 1%float /\
        zoomPercent (List.fold_left zoom zs' 1%float) = 100%float).
Proof.
  intros zs. pose proof (zoomLevels_reached zs) as Hin.
  assert (Hrange : forallb inZoomRange zoomLevels = true)
    by (vm_compute; reflexivity).
  assert (Hlabel :
            forallb
              (fun s =>
                 existsb
                   (fun k => PrimFloat.Leibniz.eqb (zoomPercent s) (F64.of_Z (10 * k)))
                   (List.map Z.of_nat (List.seq 5 16)))
              zoomLevels = true)
    by (vm_compute; reflexivity).
  rewrite forallb_forall in Hrange, Hlabel.
  split; [now apply Hrange|]. split.
  - specialize (Hlabel _ Hin). apply existsb_exists in Hlabel.
    destruct Hlabel as (k & Hk & E).
    apply FloatAxioms.Leibniz.eqb_spec in E.
    exists k. split; [|exact E].
    apply in_map_iff in Hk. destruct Hk as (n & <- & Hn).
    apply in_seq in Hn. lia.
  - exists (List.repeat ZoomIn 10 ++ List.repeat ZoomOut 10)%list. split.
    + intros E. apply (f_equal (fun a => PrimFloat.Leibniz.eqb a 1)) in E.
      vm_compute in E. discriminate E.
    + vm_compute. reflexivity.
Qed.

(** ** From the session to the page *)

Lemma scaled_box_on_page (c p a w : Q) :
  0 < c -> 0 < p -> 0 <= a -> a + w <= c -> 0 <= w ->
  0 <= a * (p / c) /\ a * (p / c) + w * (p / c) <= p /\ 0 <= w * (p / c).
Proof.
  intros Hc Hp Ha Haw Hw.
  assert (Hs : 0 < p / c) by (apply Qlt_shift_div_l; lra).
  assert (Hcs : c * (p / c) == p) by (field; lra).
  repeat split.
  - apply Qmult_le_0_compat; lra.
  - rewrite <- Hcs at 3. rewrite <- Qmult_plus_distr_l.
    apply Qmult_le_compat_r; lra.
  - apply Qmult_le_0_compat; lra.
Qed.

Lemma toSignature_onPage (env : Env.t Ex.t) (cw ch pw ph : Q)
    (f : SignatureField.t Ex.t) :
  0 < cw -> 0 < ch -> 0 < pw -> 0 < ph ->
  inside cw ch f -> snapshot cw ch pw ph f -> properField f ->
  onPage cw ch pw ph (toSignature env f).
Proof.
  intros Hcw Hch Hpw Hph
         (x & y & w & h & Ex & Ey & Ew & Eh & Hx & Hy & Hw & Hh)
         (Scw & Sch & Spw & Sph) [Pw Ph].
  rewrite Ew in Pw. rewrite Eh in Ph. cbn [Ex.le] in Pw, Ph.
  assert (T : forall q, 0 < q -> truthy (Ex.Fin q) = true).
  { intros q Hq. cbn. destruct (Qeq_bool_spec q 0); [lra|reflexivity]. }
  rewrite (toSignature_stored env f Scw Sch Spw Sph) by (apply T; assumption).
  rewrite Ex, Ey.
  destruct (scaled_box_on_page Hcw Hpw Hx Hw Pw) as (X0 & X1 & X2).
  destruct (scaled_box_on_page Hch Hph Hy Hh Ph) as (Y0 & Y1 & Y2).
  unfold onPage.
  cbn [Signature.x Signature.y Signature.width Signature.height
       mul sub div Exact Ex.div Ex.mul].
  destruct (Qeq_bool_spec cw 0); [lra|].
  destruct (Qeq_bool_spec ch 0); [lra|].
  cbn [Ex.mul Ex.sub Ex.add Ex.opp]. unfold Ex.sub. cbn [Ex.add Ex.opp].
  exists (x * (pw / cw)), (ph + - (y * (ph / ch))), w, h.
  repeat split; try assumption; lra.
Qed.

Section Kept.

Variable env : Env.t Ex.t.
Variables cw ch pw ph : Q.
Hypothesis Henv : measuredCanvas env cw ch.
Hypothesis Hpage : getPdfPageDimensions env = Some (Size.mk (Ex.Fin pw) (Ex.Fin ph)).

Lemma place_snapshot (e : Click.t Ex.t) (st : State.t Ex.t) :
  Forall (snapshot cw ch pw ph) (State.signatureFields st) ->
  Forall (snapshot cw ch pw ph) (State.signatureFields (handlePdfClick env e st)).
Proof.
  intros Hall.
  destruct (measured_bounds Henv) as (pl & pt & w0 & h0 & cl & ct & Ep & Ecb).
  unfold handlePdfClick.
  destruct (State.placementMode st) as [mode|]; [|assumption].
  destruct (Env.signed env); [assumption|].
  rewrite Ecb, Ep.
  match goal with
  | |- context [if ?c then _ else _] => destruct c; [assumption|]
  end.
  unfold convertToAbsoluteCoordinates. rewrite Ecb, Hpage.
  destruct mode; cbn [State.signatureFields];
    (apply Forall_app; split; [assumption|]);
    (apply Forall_cons; [|apply Forall_nil]);
    unfold snapshot; cbn; auto.
Qed.

Lemma drag_snapshot (fieldId : jsstring) (dx dy : Ex.t)
    (fields : list (SignatureField.t Ex.t)) :
  Forall (snapshot cw ch pw ph) fields ->
  Forall (snapshot cw ch pw ph) (handleFieldDrag env fieldId dx dy fields).
Proof.
  intros Hall.
  destruct (measured_bounds Henv) as (pl & pt & w0 & h0 & cl & ct & Ep & Ecb).
  unfold handleFieldDrag. rewrite Ecb.
  destruct (find _ fields); [|assumption].
  apply Forall_map. revert Hall. apply Forall_impl. intros f Hf.
  destruct (string_eqb (SignatureField.id f) fieldId); [|assumption].
  destruct Hf as (_ & _ & Spw & Sph). unfold snapshot. cbn. auto.
Qed.

Lemma resize_snapshot (fieldId : jsstring) (nw nh : Ex.t)
    (fields : list (SignatureField.t Ex.t)) :
  Forall (snapshot cw ch pw ph) fields ->
  Forall (snapshot cw ch pw ph) (handleFieldResize env fieldId nw nh fields).
Proof.
  intros Hall. unfold handleFieldResize.
  destruct (getPdfCanvasBounds env); [|assumption].
  apply Forall_map. revert Hall. apply Forall_impl. intros f Hf.
  destruct (string_eqb (SignatureField.id f) fieldId); [|assumption].
  exact Hf.
Qed.

End Kept.

(* An edit of the content keeps the box and the snapshot of every field
   ([P] reads only these). *)
Section ContentEdits.

Variable P : SignatureField.t Ex.t -> Prop.
Hypothesis Pgeom :
  forall f g : SignatureField.t Ex.t,
    SignatureField.x g = SignatureField.x f ->
    SignatureField.y g = SignatureField.y f ->
    SignatureField.width g = SignatureField.width f ->
    SignatureField.height g = SignatureField.height f ->
    SignatureField.canvasWidth g = SignatureField.canvasWidth f ->
    SignatureField.canvasHeight g = SignatureField.canvasHeight f ->
    SignatureField.pdfWidth g = SignatureField.pdfWidth f ->
    SignatureField.pdfHeight g = SignatureField.pdfHeight f ->
    P f -> P g.

Lemma type_kept (fieldId content : jsstring)
    (fields : list (SignatureField.t Ex.t)) :
  Forall P fields -> Forall P (updateFieldContent fieldId content fields).
Proof.
  intros Hall. unfold updateFieldContent.
  apply Forall_map. revert Hall. apply Forall_impl. intros f Hf.
  destruct (string_eqb (SignatureField.id f) fieldId); [|assumption].
  revert Hf. apply Pgeom; reflexivity.
Qed.

Lemma confirm_kept (name font : jsstring) (st : State.t Ex.t) :
  Forall P (State.signatureFields st) ->
  Forall P (State.signatureFields (handleConfirm name font st)).
Proof.
  intros Hall. unfold handleConfirm, handleSignatureConfirm.
  destruct (negb (truthy_str (Some (trim name)))); [assumption|].
  destruct (negb (truthy_str (State.selectedField st))); [assumption|].
  cbn [State.signatureFields].
  apply Forall_map. revert Hall. apply Forall_impl. intros f Hf.
  match goal with
  | |- context [if ?c then _ else _] => destruct c; [|assumption]
  end.
  revert Hf. apply Pgeom; reflexivity.
Qed.

Lemma remove_kept (fieldId : jsstring) (st : State.t Ex.t) :
  Forall P (State.signatureFields st) ->
  Forall P (State.signatureFields (removeField fieldId st)).
Proof.
  intros Hall. cbn [removeField State.signatureFields].
  rewrite Forall_forall in *. intros f Hf.
  apply filter_In in Hf. now apply Hall.
Qed.

End ContentEdits.

Lemma inside_geometry (cw ch : Q) (f g : SignatureField.t Ex.t) :
  SignatureField.x g = SignatureField.x f ->
  SignatureField.y g = SignatureField.y f ->
  SignatureField.width g = SignatureField.width f ->
  SignatureField.height g = SignatureField.height f ->
  SignatureField.canvasWidth g = SignatureField.canvasWidth f ->
  SignatureField.canvasHeight g = SignatureField.canvasHeight f ->
  SignatureField.pdfWidth g = SignatureField.pdfWidth f ->
  SignatureField.pdfHeight g = SignatureField.pdfHeight f ->
  inside cw ch f -> inside cw ch g.
Proof.
  intros Ex Ey Ew Eh _ _ _ _. unfold inside. now rewrite Ex, Ey, Ew, Eh.
Qed.

Lemma snapshot_geometry (cw ch pw ph : Q) (f g : SignatureField.t Ex.t) :
  SignatureField.x g = SignatureField.x f ->
  SignatureField.y g = SignatureField.y f ->
  SignatureField.width g = SignatureField.width f ->
  SignatureField.height g = SignatureField.height f ->
  SignatureField.canvasWidth g = SignatureField.canvasWidth f ->
  SignatureField.canvasHeight g = SignatureField.canvasHeight f ->
  SignatureField.pdfWidth g = SignatureField.pdfWidth f ->
  SignatureField.pdfHeight g = SignatureField.pdfHeight f ->
  snapshot cw ch pw ph f -> snapshot cw ch pw ph g.
Proof.
  intros _ _ _ _ E1 E2 E3 E4. unfold snapshot. now rewrite E1, E2, E3, E4.
Qed.

Lemma type_ids (num : Type) (N : JSNumber num) (fieldId content : jsstring)
    (fields : list (SignatureField.t num)) :
  List.map (@SignatureField.id _) (updateFieldContent fieldId content fields)
  = List.map (@SignatureField.id _) fields.
Proof.
  unfold updateFieldContent. rewrite map_map. apply map_ext. intros f.
  now destruct (string_eqb (SignatureField.id f) fieldId).
Qed.

Lemma confirm_ids (num : Type) (N : JSNumber num) (name font : jsstring)
    (st : State.t num) :
  List.map (@SignatureField.id _) (State.signatureFields (handleConfirm name font st))
  = List.map (@SignatureField.id _) (State.signatureFields st).
Proof.
  unfold handleConfirm, handleSignatureConfirm.
  destruct (negb (truthy_str (Some (trim name)))); [reflexivity|].
  destruct (negb (truthy_str (State.selectedField st))); [reflexivity|].
  cbn [State.signatureFields]. rewrite map_map. apply map_ext. intros f.
  match goal with
  | |- context [if ?c then _ else _] => now destruct c
  end.
Qed.

Lemma NoDup_map_filter {A B} (g : A -> B) (p : A -> bool) (l : list A) (r : list B) :
  NoDup (List.map g l ++ r) -> NoDup (List.map g (List.filter p l) ++ r).
Proof.
  induction l as [|a l IH]; [auto|].
  cbn [List.map List.filter app]. intros Hnd.
  inversion Hnd as [|? ? Hnotin Hnd']; subst.
  destruct (p a); [|now apply IH].
  cbn [List.map app]. constructor; [|now apply IH].
  intros Hin. apply Hnotin. apply in_app_iff in Hin. apply in_app_iff.
  destruct Hin as [Hin|Hin]; [left|now right].
  apply in_map_iff in Hin. destruct Hin as (b & <- & Hb).
  apply filter_In in Hb. apply in_map. tauto.
Qed.

Lemma signing_kept (env : Env.t Ex.t) (cw ch pw ph : Q)
    (actions : list (@Action Ex.t)) :
  measuredCanvas env cw ch ->
  getPdfPageDimensions env = Some (Size.mk (Ex.Fin pw) (Ex.Fin ph)) ->
  forall st : State.t Ex.t,
    Forall finiteOp (arranged actions) ->
    Forall (fitsCanvas (Ex.Fin cw) (Ex.Fin ch)) (arranged actions) ->
    Forall (inside cw ch) (State.signatureFields st) ->
    Forall (snapshot cw ch pw ph) (State.signatureFields st) ->
    NoDup (List.map (@SignatureField.id _) (State.signatureFields st)
           ++ placedIds (arranged actions)) ->
    Forall (inside cw ch)
           (State.signatureFields (List.fold_left (act env) actions st)) /\
    Forall (snapshot cw ch pw ph)
           (State.signatureFields (List.fold_left (act env) actions st)).
Proof.
  intros Henv Hpage.
  induction actions as [|a actions IH]; intros st Hfin Hfit Hin Hsnap Hnd.
  - split; assumption.
  - cbn [fold_left].
    destruct a as [op|fieldId content|signerName font|fieldId];
      cbn [arranged flat_map app] in Hfin, Hfit, Hnd;
      fold (arranged actions) in Hfin, Hfit, Hnd.
    + inversion Hfin as [|? ? Hfin1 Hfin']; subst.
      inversion Hfit as [|? ? Hfit1 Hfit']; subst.
      destruct op as [mode e|fid dx dy|fid nw nh];
        cbn [act step placedIds flat_map app] in *;
        fold (placedIds (arranged actions)) in *.
      * destruct Hfin1 as [Hx Hy]. destruct Hfit1 as [Hw Hh].
        pose proof (@place_snapshot env cw ch pw ph Henv Hpage e
                      (setPlacementMode mode st) Hsnap) as Hsnap'.
        destruct (place_inside Henv mode e st Hx Hy Hw Hh)
          as [E | (f & E & Eid & Hf)].
        -- apply IH; try assumption.
           ++ now rewrite E.
           ++ rewrite E. apply NoDup_remove_1 in Hnd. exact Hnd.
        -- apply IH; try assumption.
           ++ rewrite E. apply Forall_app. split; [assumption|].
              now constructor.
           ++ rewrite E, map_app. cbn [List.map]. rewrite Eid, <- app_assoc.
              exact Hnd.
      * destruct Hfin1 as [Hx Hy].
        apply IH; try assumption; cbn [setSignatureFields State.signatureFields].
        -- apply drag_inside; try assumption.
           now apply NoDup_app_remove_r in Hnd.
        -- now apply drag_snapshot.
        -- now rewrite drag_ids.
      * destruct Hfin1 as [Hx Hy].
        apply IH; try assumption; cbn [setSignatureFields State.signatureFields].
        -- now apply resize_inside.
        -- now apply resize_snapshot.
        -- now rewrite resize_ids.
    + cbn [act]. apply IH; try assumption;
        cbn [setSignatureFields State.signatureFields].
      * apply type_kept; [apply inside_geometry|assumption].
      * apply type_kept; [apply snapshot_geometry|assumption].
      * now rewrite type_ids.
    + cbn [act]. apply IH; try assumption.
      * apply confirm_kept; [apply inside_geometry|assumption].
      * apply confirm_kept; [apply snapshot_geometry|assumption].
      * now rewrite confirm_ids.
    + cbn [act]. apply IH; try assumption.
      * now apply remove_kept.
      * now apply remove_kept.
      * cbn [removeField State.signatureFields]. now apply NoDup_map_filter.
Qed.

Lemma proper_geometry (f g : SignatureField.t Ex.t) :
  SignatureField.x g = SignatureField.x f ->
  SignatureField.y g = SignatureField.y f ->
  SignatureField.width g = SignatureField.width f ->
  SignatureField.height g = SignatureField.height f ->
  SignatureField.canvasWidth g = SignatureField.canvasWidth f ->
  SignatureField.canvasHeight g = SignatureField.canvasHeight f ->
  SignatureField.pdfWidth g = SignatureField.pdfWidth f ->
  SignatureField.pdfHeight g = SignatureField.pdfHeight f ->
  properField f -> properField g.
Proof.
  intros _ _ Ew Eh _ _ _ _. unfold properField. now rewrite Ew, Eh.
Qed.

Lemma place_proper (env : Env.t Ex.t) (e : Click.t Ex.t) (st : State.t Ex.t) :
  Forall properField (State.signatureFields st) ->
  Forall properField (State.signatureFields (handlePdfClick env e st)).
Proof.
  intros Hall. unfold handlePdfClick.
  destruct (State.placementMode st) as [mode|]; [|assumption].
  destruct (Env.signed env); [assumption|].
  destruct (getPdfCanvasBounds env) as [cb|]; [|assumption].
  destruct (Env.pageRect env) as [pr|]; [|assumption].
  match goal with
  | |- context [if ?c then _ else _] => destruct c; [assumption|]
  end.
  destruct mode; cbn [State.signatureFields];
    (apply Forall_app; split; [assumption|]);
    (apply Forall_cons; [|apply Forall_nil]);
    split; cbn; unfold Qle; simpl; lia.
Qed.

Lemma drag_proper (env : Env.t Ex.t) (fieldId : jsstring) (dx dy : Ex.t)
    (fields : list (SignatureField.t Ex.t)) :
  Forall properField fields ->
  Forall properField (handleFieldDrag env fieldId dx dy fields).
Proof.
  intros Hall. unfold handleFieldDrag.
  destruct (getPdfCanvasBounds env); [|assumption].
  destruct (find _ fields); [|assumption].
  apply Forall_map. revert Hall. apply Forall_impl. intros f Hf.
  destruct (string_eqb (SignatureField.id f) fieldId); [|assumption].
  exact Hf.
Qed.

Lemma signing_proper (env : Env.t Ex.t) (actions : list (@Action Ex.t)) :
  Forall noResize (arranged actions) ->
  forall st : State.t Ex.t,
    Forall properField (State.signatureFields st) ->
    Forall properField
           (State.signatureFields (List.fold_left (act env) actions st)).
Proof.
  induction actions as [|a actions IH]; intros Hno st Hall; [exact Hall|].
  cbn [fold_left].
  destruct a as [op|fieldId content|signerName font|fieldId];
    cbn [arranged flat_map app] in Hno; fold (arranged actions) in Hno.
  - inversion Hno as [|? ? Hop Hno']; subst.
    apply IH; [assumption|].
    destruct op as [mode e|fid dx dy|fid nw nh]; cbn [act step].
    + now apply place_proper.
    + cbn [setSignatureFields State.signatureFields]. now apply drag_proper.
    + destruct Hop.
  - apply IH; [assumption|]. cbn [act setSignatureFields State.signatureFields].
    apply type_kept; [apply proper_geometry|assumption].
  - apply IH; [assumption|]. cbn [act].
    apply confirm_kept; [apply proper_geometry|assumption].
  - apply IH; [assumption|]. cbn [act]. now apply remove_kept.
Qed.

Lemma posted_signatures (num : Type) (N : JSNumber num)
    (env : Env.t num) (svc : Services) (st : State.t num)
    (sigs : list (Signature.t num)) :
  In (PostSignatures sigs) (snd (finalizeDocument env svc st)) ->
  sigs = List.map (toSignature env) (State.signatureFields st).
Proof.
  unfold finalizeDocument.
  destruct (List.length (State.signatureFields st) =? 0)%nat;
    [cbn; intros; effects_in|].
  destruct (0 <? List.length (List.filter incomplete (State.signatureFields st)))%nat;
    [cbn; intros; effects_in|].
  destruct (session svc), (responseOk svc); cbn; intros; effects_in; auto.
Qed.

(** X17: in exact arithmetic, for every signing session (placing, moving
    and resizing fields with finite arguments, typing into fields,
    confirming the signature modal and removing fields, the placed fields
    getting distinct ids) against a fixed measured viewport that is at least
    as large as the default box of every type placed, with a page of
    positive size loaded: every signature finalizeDocument posts whose width
    and height are not negative has its box, scaled to PDF points, on the
    page, from its left edge to its right edge and from its bottom edge to
    its top edge; and in a session without resize every posted signature
    has.  (Resizing can make the size of a field negative, see C6; such a
    field can be posted off the page.) *)
Theorem posted_boxes_lie_on_the_page :
  forall (env : Env.t Ex.t) (cw ch pw ph : Q)
         (actions : list (@Action Ex.t)) (svc : Services)
         (sigs : list (Signature.t Ex.t)),
    measuredCanvas env cw ch ->
    getPdfPageDimensions env = Some (Size.mk (Ex.Fin pw) (Ex.Fin ph)) ->
    0 < cw -> 0 < ch -> 0 < pw -> 0 < ph ->
    Forall finiteOp (arranged actions) ->
    Forall (fitsCanvas (Ex.Fin cw) (Ex.Fin ch)) (arranged actions) ->
    NoDup (placedIds (arranged actions)) ->
    In (PostSignatures sigs)
       (snd (finalizeDocument env svc (signingSession env actions))) ->
    Forall (fun s => properBox s -> onPage cw ch pw ph s) sigs /\
    (Forall noResize (arranged actions) -> Forall (onPage cw ch pw ph) sigs).
Proof.
  intros env cw ch pw ph actions svc sigs Henv Hpage Hcw Hch Hpw Hph
         Hfin Hfit Hnd Hpost.
  apply posted_signatures in Hpost. subst sigs.
  destruct (@signing_kept env cw ch pw ph actions Henv Hpage initialState)
    as [Hin Hsnap]; try assumption; try apply Forall_nil.
  unfold signingSession. split.
  - apply Forall_map. rewrite Forall_forall in *. intros f Hf Hproper.
    apply toSignature_onPage; auto.
  - intros Hno.
    pose proof (@signing_proper env actions Hno initialState (Forall_nil _))
      as Hproper.
    apply Forall_map. rewrite Forall_forall in *. intros f Hf.
    apply toSignature_onPage; auto.
Qed.

Lemma posted_boxes_lie_on_the_page_witness :
  Forall (onPage 600 800 595 842)
         (List.map (toSignature (ExScenario.viewport 600 800))
            (State.signatureFields
               (signingSession (ExScenario.viewport 600 800) ExSigning.actions))).
Proof.
  assert (H : Forall (fun s => properBox s -> onPage 600 800 595 842 s)
                (List.map (toSignature (ExScenario.viewport 600 800))
                   (State.signatureFields
                      (signingSession (ExScenario.viewport 600 800)
                         ExSigning.actions)))).
  { apply (@posted_boxes_lie_on_the_page (ExScenario.viewport 600 800)
             600 800 595 842 ExSigning.actions (Build_Services true true)).
    - do 6 eexists. split; reflexivity.
    - reflexivity.
    - reflexivity.
    - reflexivity.
    - reflexivity.
    - reflexivity.
    - repeat (apply Forall_cons; [simpl; tauto|]). apply Forall_nil.
    - repeat (apply Forall_cons;
              [first [exact I | split; unfold Ex.le, Qle; simpl; lia]|]).
      apply Forall_nil.
    - repeat (apply NoDup_cons; [simpl; intuition discriminate|]).
      apply NoDup_nil.
    - vm_compute. right. left. reflexivity. }
  apply Forall_forall. intros s Hs. rewrite Forall_forall in H.
  apply (H s Hs). vm_compute in Hs.
  destruct Hs as [<- | [<- | []]]; split; unfold Ex.le, Qle; simpl; lia.
Defined.

(** ** The font size *)

Lemma Ex_le_refl (h : Ex.t) : h <> Ex.NaN -> Ex.le h h.
Proof. destruct h; simpl; intros Hn; try exact I; [lra | congruence]. Qed.

Lemma fit_width_bounds (w : Ex.t) (N r b : Q) :
  0 <= N -> 0 < r -> 8 <= b ->
  exists a,
    (if Ex.ltb (Ex.sub w (Ex.Fin 16)) (Ex.mul (Ex.Fin N) (Ex.mul (Ex.Fin b) (Ex.Fin r)))
     then Ex.max (Ex.Fin 8) (Ex.div (Ex.sub w (Ex.Fin 16)) (Ex.mul (Ex.Fin N) (Ex.Fin r)))
     else Ex.Fin b) = Ex.Fin a /\
    8 <= a /\ a <= b.
Proof.
  intros HN Hr Hb.
  assert (Hd : 0 <= N * r) by (apply Qmult_le_0_compat; lra).
  assert (H1 : N * (b * r) == b * (N * r)) by ring.
  destruct w as [q| | |]; exsimpl.
  - destruct (Qeq_bool_spec (N * r) 0) as [Hz|Hz].
    + rewrite Hz in H1.
      destruct (Qltb_spec (q + - (16)) (N * (b * r))); try lra;
        exsolve; eexists; (split; [reflexivity|]); lra.
    + assert (Hpos : 0 < N * r) by lra.
      destruct (Qltb_spec (q + - (16)) (N * (b * r))) as [Hlt|Hge].
      * exsimpl.
        assert (HW : (q + - (16)) / (N * r) <= b)
          by (apply Qle_shift_div_r; lra).
        qcases; eexists; (split; [reflexivity|]); lra.
      * eexists; (split; [reflexivity|]); lra.
  - eexists; (split; [reflexivity|]); lra.
  - destruct (Qltb_spec (N * r) 0); [lra|]. exsimpl.
    eexists; (split; [reflexivity|]); lra.
  - eexists; (split; [reflexivity|]); lra.
Qed.

Lemma round_bounds (a : Q) (lo hi : Z) :
  inject_Z lo <= a -> a <= inject_Z hi ->
  (lo <= Qfloor (a + (1 # 2)) <= hi)%Z.
Proof.
  intros Hlo Hhi. split.
  - rewrite <- (Qfloor_Z lo). apply Qfloor_resp_le. lra.
  - assert (H : (Qfloor (a + (1 # 2)) < hi + 1)%Z); [|lia].
    rewrite Zlt_Qlt, inject_Z_plus.
    pose proof (Qfloor_le (a + (1 # 2))) as Hf.
    change (inject_Z 1) with 1. lra.
Qed.

Lemma font_fit_bounds (lo c : Q) (hi : Z) (n : nat) (w h : Ex.t) :
  0 < c -> 8 <= lo -> lo <= inject_Z hi -> h <> Ex.NaN ->
  exists k : Z,
    Ex.round
      (if Ex.ltb (Ex.sub w (Ex.Fin 16))
            (Ex.mul (Ex.Fin (inject_Z (Z.of_nat n)))
               (Ex.mul (Ex.max (Ex.Fin lo)
                          (Ex.min (Ex.mul h (Ex.Fin c)) (Ex.Fin (inject_Z hi))))
                       (Ex.Fin 0.6)))
       then Ex.max (Ex.Fin 8)
              (Ex.div (Ex.sub w (Ex.Fin 16))
                      (Ex.mul (Ex.Fin (inject_Z (Z.of_nat n))) (Ex.Fin 0.6)))
       else Ex.max (Ex.Fin lo)
              (Ex.min (Ex.mul h (Ex.Fin c)) (Ex.Fin (inject_Z hi))))
    = Ex.Fin (inject_Z k) /\ (8 <= k <= hi)%Z.
Proof.
  intros Hc Hlo Hlh Hh.
  assert (HN : 0 <= inject_Z (Z.of_nat n)).
  { change 0 with (inject_Z 0). rewrite <- Zle_Qle. lia. }
  destruct (@clamp_height_mono lo c (inject_Z hi) h h Hc Hlh (Ex_le_refl Hh))
    as (b & b' & E & _ & Hb1 & _ & _).
  destruct (@clamp_height_mono lo c (inject_Z hi) h h Hc Hlh (Ex_le_refl Hh))
    as (b0 & b2 & _ & E2 & _ & _ & Hb2).
  assert (b = b2) as <- by congruence.
  rewrite E.
  destruct (@fit_width_bounds w (inject_Z (Z.of_nat n)) 0.6 b HN)
    as (a & -> & Ha8 & Hab); [reflexivity | lra |].
  cbn [Ex.round]. eexists. split; [reflexivity|].
  apply round_bounds; [change (inject_Z 8) with 8|]; lra.
Qed.

(** X18: in exact arithmetic, for every field type, every width (infinite
    or NaN too), every content length and every height that is not NaN,
    the font size is an integer, at least 8 and at most the cap of the
    type: 36 for a signature, 28 for initials, 24 for a name, 20 for a date
    or a text. *)
Theorem font_size_is_a_bounded_integer :
  forall (type : FieldType) (width height : Ex.t) (contentLength : nat),
    height <> Ex.NaN ->
    exists k : Z,
      calculateDynamicFontSize width height type (of_nat contentLength)
      = Ex.Fin (inject_Z k) /\
      (8 <= k)%Z /\
      (k <= match type with
            | signature => 36
            | initials => 28
            | name => 24
            | _ => 20
            end)%Z.
Proof.
  intros type width height n Hh.
  unfold calculateDynamicFontSize, of_nat.
  cbn [lit mul sub div ltb math_max math_min math_round Exact].
  destruct type.
  all: match goal with
       | |- context [Ex.min _ (Ex.Fin ?hi)] =>
           let z := eval vm_compute in (Qfloor hi) in
           change hi with (inject_Z z)
       end.
  all: match goal with
       | |- context [Ex.max (Ex.Fin ?lo) (Ex.min (Ex.mul _ (Ex.Fin ?c)) (Ex.Fin (inject_Z ?hi)))] =>
           destruct (@font_fit_bounds lo c hi n width height) as (k & E & H8 & Hhi);
             [reflexivity | discriminate | discriminate | assumption |]
       end.
  all: exists k; split; [exact E | split; assumption].
Qed.

Lemma font_size_is_a_bounded_integer_witness :
  exists k : Z,
    calculateDynamicFontSize (Ex.Fin 150) (Ex.Fin 30) name (of_nat 8)
    = Ex.Fin (inject_Z k) /\ (8 <= k)%Z /\ (k <= 24)%Z.
Proof.
  apply (@font_size_is_a_bounded_integer name (Ex.Fin 150) (Ex.Fin 30) 8).
  discriminate.
Defined.

(** ** Gestures *)

Lemma find_map_same {A} (p : A -> bool) (g : A -> A) (l : list A) :
  (forall a, p (g a) = p a) ->
  List.find p (List.map g l) = option_map g (List.find p l).
Proof.
  intros Hp. induction l as [|a l IH]; [reflexivity|].
  cbn [List.map List.find]. rewrite Hp. now destruct (p a).
Qed.

(** X19: a gesture ends where its last event ends.  The resize handle calls
    handleFieldResize at every mouse move with the size it had at mouse down
    plus the way of the mouse, the text input calls updateFieldContent at
    every key stroke, and a field may be dropped again and again: against a
    fixed viewport, a resize after a resize of the same field, a drag after
    a drag of the same field, and a content after a content of the same
    field give the fields that the second alone gives. *)
Theorem last_event_of_a_gesture_wins :
  forall (num : Type) (N : JSNumber num) (env : Env.t num) (fieldId : jsstring)
         (fields : list (SignatureField.t num)),
    (forall w1 h1 w2 h2 : num,
        handleFieldResize env fieldId w2 h2
          (handleFieldResize env fieldId w1 h1 fields)
        = handleFieldResize env fieldId w2 h2 fields) /\
    (forall x1 y1 x2 y2 : num,
        handleFieldDrag env fieldId x2 y2
          (handleFieldDrag env fieldId x1 y1 fields)
        = handleFieldDrag env fieldId x2 y2 fields) /\
    (forall c1 c2 : jsstring,
        updateFieldContent fieldId c2 (updateFieldContent fieldId c1 fields)
        = updateFieldContent fieldId c2 fields).
Proof.
  intros num N env fieldId fields. repeat split.
  - intros w1 h1 w2 h2. unfold handleFieldResize.
    destruct (getPdfCanvasBounds env) as [cb|]; [|reflexivity].
    rewrite map_map. apply map_ext. intros f.
    destruct (string_eqb (SignatureField.id f) fieldId) eqn:E.
    + cbn [resizeField withSize SignatureField.id]. rewrite E. reflexivity.
    + now rewrite E.
  - intros x1 y1 x2 y2. unfold handleFieldDrag.
    destruct (getPdfCanvasBounds env) as [cb|]; [|reflexivity].
    destruct (find _ fields) as [field|] eqn:Ef; [|now rewrite Ef].
    rewrite find_map_same, Ef.
    2:{ intros f. now destruct (string_eqb (SignatureField.id f) fieldId) eqn:E;
          cbn [withPosition SignatureField.id]; rewrite ?E. }
    cbn [option_map].
    rewrite (proj2 (find_some _ _ Ef)).
    cbn [withPosition SignatureField.width SignatureField.height].
    rewrite map_map. apply map_ext. intros f.
    destruct (string_eqb (SignatureField.id f) fieldId) eqn:E.
    + cbn [withPosition SignatureField.id]. rewrite E. reflexivity.
    + now rewrite E.
  - intros c1 c2. unfold updateFieldContent.
    rewrite map_map. apply map_ext. intros f.
    destruct (string_eqb (SignatureField.id f) fieldId) eqn:E.
    + cbn [withContent SignatureField.id]. rewrite E. reflexivity.
    + now rewrite E.
Qed.

(** ** The backend: where a text is drawn *)







